(** * Type-completeness scoring pipeline: a shallow embedding of
      [helpers.py], [function_app.py], [run_main_typescore.py] and
      [run_released_typescore.py], with the properties of the design
      document checked against it.

    Conventions of the embedding.
    - Python [str] values are [string]s; [bytes.decode("utf-8")] is the
      identity on them. What depends on the characters beyond their
      identity is taken from the [World]: [str.lower], which follows the
      Unicode case mappings, the text that Python prints for a float, and
      [datetime.strptime].
    - A Python exception is a value of [exn]; a computation that may raise
      returns a [result].
    - Calls of external programs are recorded, in the order in which they
      are issued, in a trace of [event]s; what the external programs, the
      network and the table store answer is collected in a record [World].
    - A Python [dict] is an association list kept in insertion order. *)

From Stdlib Require Import ZArith List String Ascii Bool Lia Floats.
Import ListNotations.

Set Warnings "-register-all,-inexact-float".

Open Scope string_scope.
Open Scope Z_scope.

(** ** Python values, exceptions and results *)

Module Py.

Inductive exn : Type :=
| UnboundLocalError (name : string)
| KeyError (key : string)
| TypeError
| ValueError
| AttributeError
| InvalidVersion
| JSONDecodeError
| CalledProcessError (returncode : Z) (output : string) (stderr : string).

Inductive result (A : Type) : Type :=
| Ok (a : A)
| Raise (e : exn).

Arguments Ok {A} a.
Arguments Raise {A} e.

Definition and_then {A B : Type} (r : result A) (k : A -> result B) : result B :=
  match r with
  | Ok a => k a
  | Raise e => Raise e
  end.

(** Python numbers as they come out of [json.loads]: [int] or [float]. *)
Inductive num : Type :=
| PyInt (n : Z)
| PyFloat (f : float).

(** The values [json.loads] can return. *)
Inductive json : Type :=
| JNull
| JBool (b : bool)
| JNum (n : num)
| JStr (s : string)
| JArr (items : list json)
| JObj (members : list (string * json)).

(** *** Strings *)

Definition len (s : string) : Z := Z.of_nat (String.length s).

Fixpoint find_at (sub s : string) (i : Z) : Z :=
  if prefix sub s then i
  else match s with
       | EmptyString => -1
       | String _ t => find_at sub t (i + 1)
       end.

(** [s.find(sub)]: lowest index of [sub] in [s], or [-1]. *)
Definition find (s sub : string) : Z := find_at sub s 0.

(** [sub in s]. *)
Definition contains (sub s : string) : bool := negb (find s sub =? -1).

(** Index normalisation of a slice bound. *)
Definition clamp (n i : Z) : Z :=
  if i <? 0 then Z.max 0 (i + n) else Z.min i n.

(** [s[a:b]] *)
Definition slice (s : string) (a b : Z) : string :=
  let lo := clamp (len s) a in
  let hi := clamp (len s) b in
  substring (Z.to_nat lo) (Z.to_nat (hi - lo)) s.

(** [s[a:]] *)
Definition slice_from (s : string) (a : Z) : string :=
  slice s a (len s).

(** [s[:b]] *)
Definition slice_to (s : string) (b : Z) : string :=
  slice s 0 b.

Fixpoint map_chars (f : ascii -> ascii) (s : string) : string :=
  match s with
  | EmptyString => EmptyString
  | String c t => String (f c) (map_chars f t)
  end.

(** [s.replace(old, new)] for one-character [old] and [new]. *)
Definition replace (old new : ascii) (s : string) : string :=
  map_chars (fun c => if Ascii.eqb c old then new else c) s.

(** [s.split(".")[0]] *)
Fixpoint before_dot (s : string) : string :=
  match s with
  | EmptyString => EmptyString
  | String c t => if Ascii.eqb c "." then EmptyString else String c (before_dot t)
  end.

Definition LF : ascii := ascii_of_nat 10.
Definition CR : ascii := ascii_of_nat 13.

Definition is_linebreak (c : ascii) : bool :=
  let n := nat_of_ascii c in
  (n =? 10)%nat || (n =? 11)%nat || (n =? 12)%nat || (n =? 13)%nat
  || (n =? 28)%nat || (n =? 29)%nat || (n =? 30)%nat.

Fixpoint splitlines_aux (after_cr : bool) (s : string) : list string :=
  match s with
  | EmptyString => []
  | String c t =>
      if after_cr && Ascii.eqb c LF then splitlines_aux false t
      else if is_linebreak c then EmptyString :: splitlines_aux (Ascii.eqb c CR) t
      else match splitlines_aux false t with
           | [] => [String c EmptyString]
           | l :: ls => String c l :: ls
           end
  end.

(** [s.splitlines()]: lines end at LF, CR, CR LF, VT, FF and the
    separators FS, GS and RS; a last line that is empty is not kept. *)
Definition splitlines (s : string) : list string := splitlines_aux false s.

(** [s.split("\n")] *)
Fixpoint split_newline (s : string) : list string :=
  match s with
  | EmptyString => [EmptyString]
  | String c t =>
      if Ascii.eqb c LF then EmptyString :: split_newline t
      else match split_newline t with
           | [] => [String c EmptyString]
           | l :: ls => String c l :: ls
           end
  end.

(** [x in l] for a list of strings. *)
Definition mem (x : string) (l : list string) : bool :=
  existsb (String.eqb x) l.

(** *** Numbers *)

(** Nearest integer to [n / d] for [d > 0], ties to the even one. *)
Definition div_half_even (n d : Z) : Z :=
  let q := n / d in
  match 2 * (n mod d) ?= d with
  | Lt => q
  | Gt => q + 1
  | Eq => if Z.even q then q else q + 1
  end.

(** Nearest integer to [10 * m * 2^e], ties to even: the digits that
    [round(x, 1)] keeps of [x = m * 2^e]. *)
Definition tenths (m : positive) (e : Z) : Z :=
  if 0 <=? e then 10 * Zpos m * 2 ^ e
  else div_half_even (10 * Zpos m) (2 ^ (- e)).

(** [round(x, 1)] on a float: the decimal expansion of [x] is rounded
    correctly to one digit after the point (ties to even) and the decimal
    read back as the nearest float. Zeros, infinities and NaN are
    returned as they are. *)
Definition round1_float (x : float) : float :=
  match Prim2SF x with
  | S754_finite s m e =>
      match tenths m e with
      | Zpos q => SF2Prim (SFdiv prec emax (S754_finite s q 0) (S754_finite false 10 0))
      | _ => SF2Prim (S754_zero s)
      end
  | _ => x
  end.

(** [round(x, 1)]; on an [int] it is the identity. *)
Definition round1 (x : num) : num :=
  match x with
  | PyInt n => PyInt n
  | PyFloat f => PyFloat (round1_float f)
  end.

(** [x * 100] *)
Definition times100 (x : num) : num :=
  match x with
  | PyInt n => PyInt (n * 100)
  | PyFloat f => PyFloat (f * 100)%float
  end.

(** [round(v * 100, 1)] for a decoded JSON value [v]: numbers (and
    booleans, which are ints) are multiplied; a string or a list is
    repeated and [round] rejects it; [None] and dicts cannot be
    multiplied. *)
Definition percent (v : json) : result num :=
  match v with
  | JNum x => Ok (round1 (times100 x))
  | JBool b => Ok (round1 (times100 (PyInt (if b then 1 else 0))))
  | _ => Raise TypeError
  end.

(** *** JSON objects as Python dicts *)

Fixpoint assoc {V : Type} (k : string) (d : list (string * V)) : option V :=
  match d with
  | [] => None
  | (k', v) :: d' => if String.eqb k k' then Some v else assoc k d'
  end.

(** [v[key]] *)
Definition getitem (v : json) (key : string) : result json :=
  match v with
  | JObj members =>
      match assoc key members with
      | Some x => Ok x
      | None => Raise (KeyError key)
      end
  | _ => Raise TypeError
  end.

(** [v.get(key, None)] *)
Definition get_or_none (v : json) (key : string) : result json :=
  match v with
  | JObj members =>
      match assoc key members with
      | Some x => Ok x
      | None => Ok JNull
      end
  | _ => Raise AttributeError
  end.

Definition is_none (v : json) : bool :=
  match v with
  | JNull => true
  | _ => false
  end.

End Py.

Import Py.

Notation "'let?' x ':=' r 'in' k" := (and_then r (fun x => k))
  (at level 10, x pattern, r at level 100, k at level 200).

(** ** [datetime] *)

Module datetime.

Definition MINYEAR : Z := 1.
Definition MAXYEAR : Z := 9999.

Definition is_leap (y : Z) : bool :=
  (y mod 4 =? 0) && (negb (y mod 100 =? 0) || (y mod 400 =? 0)).

Definition days_in_month (y m : Z) : Z :=
  if m =? 2 then (if is_leap y then 29 else 28)
  else if (m =? 4) || (m =? 6) || (m =? 9) || (m =? 11) then 30
  else 31.

Record date : Type := mkdate { d_year : Z; d_month : Z; d_day : Z }.

(** A [datetime.datetime]: the calendar fields and the time of day. *)
Record t : Type := mk {
  year : Z; month : Z; day : Z;
  hour : Z; minute : Z; second : Z; microsecond : Z
}.

Definition valid_ymd (y m d : Z) : bool :=
  (MINYEAR <=? y) && (y <=? MAXYEAR) && (1 <=? m) && (m <=? 12)
  && (1 <=? d) && (d <=? days_in_month y m).

(** The [datetime.datetime] values that exist. *)
Definition valid (x : t) : bool :=
  valid_ymd (year x) (month x) (day x)
  && (0 <=? hour x) && (hour x <? 24)
  && (0 <=? minute x) && (minute x <? 60)
  && (0 <=? second x) && (second x <? 60)
  && (0 <=? microsecond x) && (microsecond x <? 1000000).

(** The constructor [datetime.date(year, month, day)]: it raises
    [ValueError] when the fields do not name a day of the calendar. *)
Definition new_date (y m d : Z) : result date :=
  if valid_ymd y m d then Ok (mkdate y m d) else Raise ValueError.

Definition digit (n : Z) : ascii := ascii_of_nat (48 + Z.to_nat (n mod 10)).

Definition digits2 (n : Z) : string :=
  String (digit (n / 10)) (String (digit n) EmptyString).

Definition digits4 (n : Z) : string :=
  String (digit (n / 1000)) (String (digit (n / 100)) (digits2 n)).

(** [str(d)] for a date: [YYYY-MM-DD]. *)
Definition str (d : date) : string :=
  digits4 (d_year d) ++ "-" ++ digits2 (d_month d) ++ "-" ++ digits2 (d_day d).

End datetime.

(** ** Insertion-ordered dictionaries *)

Module dict.

Definition t (V : Type) : Type := list (string * V).

Definition get {V : Type} (k : string) (d : t V) : option V := assoc k d.

Definition keys {V : Type} (d : t V) : list string := map fst d.

(** [k in d] *)
Definition has {V : Type} (k : string) (d : t V) : bool :=
  match get k d with
  | Some _ => true
  | None => false
  end.

(** [d[k] = v]: an existing key keeps its place, a new one goes last. *)
Fixpoint set {V : Type} (k : string) (v : V) (d : t V) : t V :=
  match d with
  | [] => [(k, v)]
  | (k', v') :: d' =>
      if String.eqb k k' then (k', v) :: d' else (k', v') :: set k v d'
  end.

End dict.

(** ** Data of the pipeline *)

(** A cell of the catalog data frame: a string; the float NaN that
    pandas puts where the CSV has nothing; or another float, which is
    what pandas makes of every cell of a column whose texts all read as
    numbers with a point. [Float x] with [x] not a number is treated as
    [NaN] is. *)
Inductive cell : Type :=
| Str (s : string)
| NaN
| Float (x : float).

(** [isinstance(c, float)] *)
Definition is_float (c : cell) : bool :=
  match c with
  | Str _ => false
  | NaN => true
  | Float _ => true
  end.

(** [a == b]: strings are compared with strings and floats with
    floats; NaN is equal to nothing. *)
Definition cell_eq (a b : cell) : bool :=
  match a, b with
  | Str x, Str y => String.eqb x y
  | Float x, Float y => (x =? y)%float
  | _, _ => false
  end.

Record row : Type := mkrow {
  r_Package : cell;
  r_VersionGA : cell;
  r_VersionPreview : cell;
  r_RepoPath : cell
}.

(** The inner dict [packages_to_score[name]]. The keys ["Score"] and
    ["PyTyped"] are absent until a score is copied or computed. *)
Record details : Type := mkdetails {
  LatestVersion : cell;
  Pyright : bool;
  Mypy : bool;
  Samples : bool;
  Verifytypes : bool;
  Date : datetime.t;
  Score : option num;
  PyTyped : option bool
}.

Definition update_Score (x : num) (d : details) : details :=
  mkdetails (LatestVersion d) (Pyright d) (Mypy d) (Samples d) (Verifytypes d)
            (Date d) (Some x) (PyTyped d).

Definition update_PyTyped (b : bool) (d : details) : details :=
  mkdetails (LatestVersion d) (Pyright d) (Mypy d) (Samples d) (Verifytypes d)
            (Date d) (Score d) (Some b).

Definition update_LatestVersion (v : cell) (d : details) : details :=
  mkdetails v (Pyright d) (Mypy d) (Samples d) (Verifytypes d)
            (Date d) (Score d) (PyTyped d).

(** A row of the history table, as [add_entity] creates it and as
    [get_entity] returns it. The table stores no null property, so a
    stored entity has a score and a flag. *)
Record entity : Type := mkentity {
  e_RowKey : string;
  e_PartitionKey : string;
  e_Package : string;
  e_Date : datetime.t;
  e_LatestVersion : cell;
  e_Score : num;
  e_PyTyped : bool;
  e_Pyright : bool;
  e_Mypy : bool;
  e_Samples : bool;
  e_Verifytypes : bool
}.

Record TypingCheck : Type := mkTypingCheck {
  mypy : bool;
  pyright : bool;
  type_check_samples : bool;
  verifytypes : bool
}.

(** What a finished process leaves behind. *)
Record CompletedProcess : Type := mkproc {
  returncode : Z;
  stdout : string;
  stderr : string
}.

Record Response : Type := mkresponse {
  status_code : Z;
  text : string
}.

(** One version of a package in the development feed, with the text
    of its [publishDate]. *)
Record feed_version : Type := mkfv {
  fv_version : string;
  fv_publishDate : string
}.

Record feed_package : Type := mkfp {
  fp_name : string;
  fp_versions : list feed_version
}.

(** What the run does to the outside: the commands it executes and the
    transaction it submits, in the order of execution. *)
Inductive event : Type :=
| Exec (command : list string)
| Submit (entities : list (string * entity)).

Definition trace : Type := list event.

(** The collaborators of the pipeline. The [ci_] lists are the lists of
    [ci_tools.environment_exclusions] as that module defines them;
    [today] is what [datetime.datetime.today()] returns during the run;
    [Version], [parse], [version_gt] and [version_str] are the versions of
    [packaging.version] with their parser, their order and their [str];
    [catalog] is the data frame read from the catalog CSV and
    [alpha_feed] the decoded answers of the development feed.
    [subprocess] answers a command given everything done before it, so
    that it may depend on what is installed at that moment. [get_entity]
    is [None] where the client raises [HttpResponseError]; [json_loads]
    and [parse] are [None] where they raise [JSONDecodeError] and
    [InvalidVersion]. [str_lower] is [str.lower] and [float_str] the text
    that [str] and an f-string give for a float. [strptime] is
    [datetime.datetime.strptime] with the format
    ["%Y-%m-%dT%H:%M:%S"]: the moment it reads, as a number that orders
    the moments as [datetime] does, and [None] where it raises
    [ValueError]. *)
Record World : Type := mkWorld {
  executable : string;
  today : datetime.t;
  ci_IGNORE_PACKAGES : list string;
  ci_FILTER_EXCLUSIONS : list string;
  ci_IGNORE_FILTER : list string;
  ci_PYRIGHT_OPT_OUT : list string;
  ci_MYPY_OPT_OUT : list string;
  ci_TYPE_CHECK_SAMPLES_OPT_OUT : list string;
  ci_VERIFYTYPES_OPT_OUT : list string;
  Version : Type;
  parse : string -> option Version;
  version_gt : Version -> Version -> bool;
  version_str : Version -> string;
  catalog : list row;
  requests_get : string -> Response;
  alpha_feed : list feed_package;
  get_entity : string -> string -> option entity;
  subprocess : trace -> list string -> CompletedProcess;
  json_loads : string -> option json;
  str_lower : string -> string;
  float_str : float -> string;
  strptime : string -> option Z
}.

(** [f"{c}"] *)
Definition cell_format (w : World) (c : cell) : string :=
  match c with
  | Str s => s
  | NaN => "nan"
  | Float x => if (x =? x)%float then float_str w x else "nan"
  end.

(** ** Computations that run commands and may raise *)

Definition M (A : Type) : Type := trace -> result A * trace.

Definition ret {A : Type} (a : A) : M A := fun tr => (Ok a, tr).

Definition bind {A B : Type} (m : M A) (k : A -> M B) : M B :=
  fun tr =>
    match m tr with
    | (Ok a, tr') => k a tr'
    | (Raise e, tr') => (Raise e, tr')
    end.

Definition lift {A : Type} (r : result A) : M A := fun tr => (r, tr).

Declare Scope py_scope.
Delimit Scope py_scope with py.

Notation "x <- m ;; k" := (bind m (fun x => k))
  (at level 100, m at next level, right associativity) : py_scope.
Notation "' p <- m ;; k" := (bind m (fun p => k))
  (at level 100, p pattern, m at next level, right associativity) : py_scope.
Notation "m ;;; k" := (bind m (fun _ => k))
  (at level 100, right associativity) : py_scope.

Open Scope py_scope.

(** [for x in xs: acc = body(acc, x)], where the body may raise. *)
Fixpoint for_each {A S : Type} (body : S -> A -> M S) (xs : list A) (acc : S) : M S :=
  match xs with
  | [] => ret acc
  | x :: xs' => acc' <- body acc x ;; for_each body xs' acc'
  end.

(** What [check=True] makes of a finished process: a nonzero exit status
    raises [CalledProcessError], which carries the captured output. *)
Definition checked (p : CompletedProcess) : result CompletedProcess :=
  if returncode p =? 0 then Ok p
  else Raise (CalledProcessError (returncode p) (stdout p) (stderr p)).

(** [subprocess.run(command, check=True, capture_output=True)] *)
Definition subprocess_run (w : World) (command : list string) : M CompletedProcess :=
  fun tr => (checked (subprocess w tr command), (tr ++ [Exec command])%list).

(** [subprocess.check_call(command)] *)
Definition check_call (w : World) (command : list string) : M unit :=
  _ <- subprocess_run w command ;; ret tt.

(** [try: ... except CalledProcessError as e: ... else: ...]: the outcome
    of the protected call is handed to the handlers. *)
Definition try_run (w : World) (command : list string) : M (result CompletedProcess) :=
  fun tr => (Ok (checked (subprocess w tr command)), (tr ++ [Exec command])%list).

(** The command lines the pipeline builds. *)
Definition pip_show (w : World) (package : string) : list string :=
  [executable w; "-m"; "pip"; "show"; "-f"; package].

Definition pyright_verifytypes (w : World) (module : string) : list string :=
  [executable w; "-m"; "pyright"; "--verifytypes"; module;
   "--ignoreexternal"; "--outputjson"].

Definition pip_install (w : World) (packages : list string) : list string :=
  ([executable w; "-m"; "pip"; "install"] ++ packages)%list.

Definition pip_uninstall (w : World) (deps : list string) : list string :=
  ([executable w; "-m"; "pip"; "uninstall"; "-y"] ++ deps)%list.

(** Reading a local variable that may not have been assigned. *)
Definition local {A : Type} (name : string) (v : option A) : result A :=
  match v with
  | Some a => Ok a
  | None => Raise (UnboundLocalError name)
  end.

(** [json.loads(s)] *)
Definition loads (w : World) (s : string) : result json :=
  match json_loads w s with
  | Some v => Ok v
  | None => Raise JSONDecodeError
  end.

(** [packages_to_score[package]] *)
Definition item (package : string) (packages_to_score : dict.t details) : result details :=
  match dict.get package packages_to_score with
  | Some p => Ok p
  | None => Raise (KeyError package)
  end.

(** ** helpers.py *)

Module helpers.

Definition additional_ignores : list string :=
  [ "adal"; "msal"; "pydocumentdb"; "azure-devtools"; "doc-warden";
    "azure-kusto-data"; "msrest"; "msrestazure"; "tox-monorepo";
    "azure-functions"; "iotedgedev"; "iotedgehubdev"; "iothub-client";
    "iothub-service-client"; "text-analytics"; "azure-storage-file";
    "azure-schemaregistry-avroserializer";
    "azure-iot-provisioning-device-client";
    "microsoft-opentelemetry-exporter-azuremonitor"; "azure-search";
    "azureml-sdk"; "azure-communication-administration";
    "azure-iot-device"; "azure-purview-account"; "azure-storage-common";
    "azure-iothub-provisioningserviceclient"; "azure-iothub-service-client";
    "azure-cosmosdb-table"; "azure-iothub-device-client";
    "azure-datalake-store"; "azure-opentelemetry-exporter-azuremonitor";
    "azure-iot-hub"; "uamqp"; "azureml-fsspec"; "mltable";
    "apiview-stub-generator"; "azure-pylint-guidelines-checker" ].

(** [get_last_month] *)
Definition get_last_month (today : datetime.t) : result string :=
  let month := datetime.month today - 1 in
  let year := datetime.year today in
  let '(month, year) := if month =? 0 then (12, year - 1) else (month, year) in
  match datetime.new_date year month (datetime.day today) with
  | Ok last_month => Ok (datetime.str last_month)
  | Raise e => Raise e
  end.

(** [add_entity]: the entity is built from [packages_to_score[package]]
    and appended to [entities]. *)
Definition add_entity (package : string) (packages_to_score : dict.t details)
    (entities : list (string * entity)) : result (list (string * entity)) :=
  match dict.get package packages_to_score with
  | None => Raise (KeyError package)
  | Some p =>
      let d := Date p in
      match datetime.new_date (datetime.year d) (datetime.month d) (datetime.day d) with
      | Raise e => Raise e
      | Ok day =>
          match Score p, PyTyped p with
          | None, _ => Raise (KeyError "Score")
          | Some _, None => Raise (KeyError "PyTyped")
          | Some score, Some pytyped =>
              Ok (entities ++
                  [("create",
                    mkentity package (datetime.str day) package d (LatestVersion p)
                             score pytyped (Pyright p) (Mypy p) (Samples p)
                             (Verifytypes p))])%list
          end
      end
  end.

(** The loop of [get_module]: [Some] of the value assigned to [substring]
    at the first line that mentions the initializer, [None] when the loop
    ends without assigning it. *)
Fixpoint module_substring (lines : list string) : option string :=
  match lines with
  | [] => None
  | line :: rest =>
      if negb (find line "__init__.py" =? -1)
      then Some (slice line (find line "azure") (find line "__init__.py"))
      else module_substring rest
  end.

Section WithWorld.

Variable w : World.

(** [IGNORE_PACKAGES] after [IGNORE_PACKAGES.extend(additional_ignores)]. *)
Definition IGNORE_PACKAGES : list string :=
  (ci_IGNORE_PACKAGES w ++ additional_ignores)%list.

(** [is_ignored_package], reading the global list [ignored]. *)
Definition is_ignored_package (ignored : list string) (package_name : string) : bool :=
  if mem package_name ignored then true
  else if negb (mem package_name (ci_FILTER_EXCLUSIONS w))
          && existsb (fun identifier => contains identifier package_name) (ci_IGNORE_FILTER w)
  then true
  else false.

(** [get_module] *)
Definition get_module (package : string) : M string :=
  let command := pip_show w package in
  response <- subprocess_run w command ;;
  let resp := stdout response in
  let lines := splitlines resp in
  substring <- lift (local "substring" (module_substring lines)) ;;
  let module := replace "/" "." substring in
  let module := replace "\" "." module in
  ret (slice_to module (-1)).

(** [install]. The argument list is extended in place; no caller reads it
    again. *)
Definition install (packages : list string) : M unit :=
  match packages with
  | [] => ret tt
  | _ =>
      let packages := (packages ++ ["pyright==1.1.287"])%list in
      check_call w (pip_install w packages)
  end.

(** [uninstall_deps] *)
Definition uninstall_deps (deps : list string) : M unit :=
  check_call w (pip_uninstall w deps).

(** The test of the loop of [is_check_enabled] on a line:
    [line.find(key) != -1 and line.find("false") != -1] after
    [line = line.lower()]. *)
Definition mentions_false (key line : string) : bool :=
  let line := str_lower w line in
  negb (find line key =? -1) && negb (find line "false" =? -1).

(** One turn of the loop of [is_check_enabled]. *)
Definition scan_line (is_enabled : TypingCheck) (line : string) : TypingCheck :=
  mkTypingCheck
    (if mentions_false "mypy" line then false else mypy is_enabled)
    (if mentions_false "pyright" line then false else pyright is_enabled)
    (if mentions_false "type_check_samples" line then false
     else type_check_samples is_enabled)
    (if mentions_false "verifytypes" line then false else verifytypes is_enabled).

Definition toml_path (package_path : string) : string :=
  "https://raw.githubusercontent.com/Azure/azure-sdk-for-python/main/sdk/"
  ++ package_path ++ "/pyproject.toml".

(** [is_check_enabled] *)
Definition is_check_enabled (package_path : string) : TypingCheck :=
  let response := requests_get w (toml_path package_path) in
  if status_code response =? 404 then mkTypingCheck true true true true
  else
    let toml := split_newline (text response) in
    fold_left scan_line toml (mkTypingCheck true true true true).

(** The variable [report] after the [try] statement that runs the
    checker, given what it held before ([None]: not assigned). *)
Definition verifytypes_report (report : option json) (outcome : result CompletedProcess)
  : result (option json) :=
  match outcome with
  | Raise (CalledProcessError returncode output _) =>
      if negb (returncode =? 1) then Ok report
      else let? report := loads w output in Ok (Some report)
  | Raise e => Raise e
  | Ok response => let? report := loads w (stdout response) in Ok (Some report)
  end.

(** The statements of [score_package] after the [try], with the state of
    the local [report]. *)
Definition record_score (package : string) (report : option json)
    (packages_to_score : dict.t details) (entities : list (string * entity))
  : result (dict.t details * list (string * entity)) :=
  let? report := local "report" report in
  let? completeness := getitem report "typeCompleteness" in
  let? path := get_or_none completeness "pyTypedPath" in
  let pytyped_present := if is_none path then false else true in
  let? p := item package packages_to_score in
  let packages_to_score :=
    dict.set package (update_PyTyped pytyped_present p) packages_to_score in
  let? completeness := getitem report "typeCompleteness" in
  let? fraction := getitem completeness "completenessScore" in
  let? score := percent fraction in
  let packages_to_score :=
    dict.set package (update_Score score (update_PyTyped pytyped_present p))
             packages_to_score in
  let? entities := add_entity package packages_to_score entities in
  Ok (packages_to_score, entities).

(** [score_package] *)
Definition score_package (package : string) (packages_to_score : dict.t details)
    (entities : list (string * entity))
  : M (dict.t details * list (string * entity)) :=
  module <- get_module package ;;
  let commands := pyright_verifytypes w module in
  outcome <- try_run w commands ;;
  lift (let? report := verifytypes_report None outcome in
        record_score package report packages_to_score entities).

(** The version chosen for a row of the catalog:
    [str(max(parse(GA), parse(Preview)))], and on [TypeError] (a field
    that is a float) the GA field unless it is a float, and the
    pre-release field when it is. *)
Definition parse_cell (c : cell) : result (Version w) :=
  match c with
  | Str s =>
      match parse w s with
      | Some v => Ok v
      | None => Raise InvalidVersion
      end
  | NaN | Float _ => Raise TypeError
  end.

(** [max(a, b)]: the first argument unless the second is greater. *)
Definition max (a b : Version w) : Version w :=
  if version_gt w b a then b else a.

Definition latest_version (r : row) : result cell :=
  let fallback :=
    if negb (is_float (r_VersionGA r)) then r_VersionGA r else r_VersionPreview r in
  match parse_cell (r_VersionGA r) with
  | Raise TypeError => Ok fallback
  | Raise e => Raise e
  | Ok ga =>
      match parse_cell (r_VersionPreview r) with
      | Raise TypeError => Ok fallback
      | Raise e => Raise e
      | Ok preview => Ok (Str (version_str w (max ga preview)))
      end
  end.

(** The record that [get_packages_to_score] stores for a row. *)
Definition details_of_row (r : row) (latest_version : cell) : details :=
  let package_path := cell_format w (r_RepoPath r) ++ "/" ++ cell_format w (r_Package r) in
  let is_enabled := is_check_enabled package_path in
  mkdetails latest_version (pyright is_enabled) (mypy is_enabled)
            (type_check_samples is_enabled) (verifytypes is_enabled)
            (today w) None None.

(** One turn of the loop of [get_packages_to_score]. *)
Definition add_row (ignored : list string) (packages_to_score : dict.t details) (r : row)
  : result (dict.t details) :=
  match r_Package r with
  | NaN | Float _ => Ok packages_to_score
  | Str package_name =>
      if is_ignored_package ignored package_name || dict.has package_name packages_to_score
      then Ok packages_to_score
      else
        match latest_version r with
        | Raise e => Raise e
        | Ok latest => Ok (dict.set package_name (details_of_row r latest) packages_to_score)
        end
  end.

Fixpoint add_rows (ignored : list string) (rows : list row) (packages_to_score : dict.t details)
  : result (dict.t details) :=
  match rows with
  | [] => Ok packages_to_score
  | r :: rest =>
      match add_row ignored packages_to_score r with
      | Ok packages_to_score' => add_rows ignored rest packages_to_score'
      | Raise e => Raise e
      end
  end.

(** [get_packages_to_score]; [ignored] is the content of the global
    [IGNORE_PACKAGES] when it is called. *)
Definition get_packages_to_score (ignored : list string) : result (dict.t details) :=
  add_rows ignored (catalog w) [].

End WithWorld.

End helpers.

(** [client.submit_transaction(entities)] *)
Definition submit_transaction (entities : list (string * entity)) : M unit :=
  fun tr => (Ok tt, (tr ++ [Submit entities])%list).

(** ** function_app.py *)

Module function_app.

Definition additional_ignores : list string :=
  [ "adal"; "msal"; "pydocumentdb"; "azure-devtools"; "doc-warden";
    "azure-kusto-data"; "msrest"; "msrestazure"; "tox-monorepo";
    "azure-functions"; "iotedgedev"; "iotedgehubdev"; "iothub-client";
    "iothub-service-client"; "text-analytics"; "azure-storage-file";
    "azure-schemaregistry-avroserializer";
    "azure-iot-provisioning-device-client";
    "microsoft-opentelemetry-exporter-azuremonitor"; "azure-search";
    "azureml-sdk"; "azure-communication-administration";
    "azure-iot-device"; "azure-purview-account"; "azure-storage-common";
    "azure-iothub-provisioningserviceclient"; "azure-iothub-service-client";
    "azure-cosmosdb-table"; "azure-iothub-device-client";
    "azure-datalake-store"; "azure-opentelemetry-exporter-azuremonitor";
    "azure-iot-hub"; "uamqp" ].

(** [get_last_month] and [add_entity] have the text of their namesakes in
    helpers.py. *)
Definition get_last_month := helpers.get_last_month.
Definition add_entity := helpers.add_entity.

Section WithWorld.

Variable w : World.

Definition IGNORE_PACKAGES : list string :=
  (ci_IGNORE_PACKAGES w ++ additional_ignores)%list.

(** [is_ignored_package] has the text of its namesake in helpers.py and
    reads this module's list. *)
Definition is_ignored_package (package_name : string) : bool :=
  helpers.is_ignored_package w IGNORE_PACKAGES package_name.

(** [get_module] *)
Definition get_module (package : string) : M string :=
  let command := pip_show w package in
  response <- subprocess_run w command ;;
  let resp := stdout response in
  let substring := slice resp (find resp "Files:") (find resp "__init__.py") in
  let module := slice_from substring (find substring "azure") in
  let module := replace "/" "." module in
  let module := replace "\" "." module in
  ret (slice_to module (-1)).

(** [install] *)
Definition install (packages : list string) : M unit :=
  match packages with
  | [] => ret tt
  | _ =>
      let packages := (packages ++ ["pyright==1.1.274"])%list in
      check_call w (pip_install w packages)
  end.

(** One turn of the first loop of [test_function], on the pair
    [(packages_to_score, install_packages)]. *)
Definition read_row (state : dict.t details * list string) (r : row)
  : result (dict.t details * list string) :=
  let '(packages_to_score, install_packages) := state in
  match r_Package r with
  | NaN | Float _ => Ok state
  | Str package_name =>
      if is_ignored_package package_name || dict.has package_name packages_to_score
      then Ok state
      else
        match helpers.latest_version w r with
        | Raise e => Raise e
        | Ok latest_version =>
            let p :=
              mkdetails latest_version
                        (negb (mem package_name (ci_PYRIGHT_OPT_OUT w)))
                        (negb (mem package_name (ci_MYPY_OPT_OUT w)))
                        (negb (mem package_name (ci_TYPE_CHECK_SAMPLES_OPT_OUT w)))
                        (negb (mem package_name (ci_VERIFYTYPES_OPT_OUT w)))
                        (today w) None None in
            let requirement := package_name ++ "==" ++ cell_format w latest_version in
            match get_last_month (today w) with
            | Raise e => Raise e
            | Ok partition_key =>
                match get_entity w partition_key package_name with
                | Some entity =>
                    if cell_eq (e_LatestVersion entity) latest_version
                    then Ok (dict.set package_name
                               (update_PyTyped (e_PyTyped entity)
                                  (update_Score (e_Score entity) p))
                               packages_to_score,
                             install_packages)
                    else Ok (dict.set package_name p packages_to_score,
                             (install_packages ++ [requirement])%list)
                | None =>
                    Ok (dict.set package_name p packages_to_score,
                        (install_packages ++ [requirement])%list)
                end
            end
        end
  end.

Fixpoint read_rows (rows : list row) (state : dict.t details * list string)
  : result (dict.t details * list string) :=
  match rows with
  | [] => Ok state
  | r :: rest =>
      match read_row state r with
      | Ok state' => read_rows rest state'
      | Raise e => Raise e
      end
  end.

(** The state of the second loop of [test_function]: the work set, the
    entities, and the variable [report], which belongs to the function
    and so outlives a turn of the loop. *)
Record scoring : Type := mkscoring {
  s_packages : dict.t details;
  s_entities : list (string * entity);
  s_report : option json
}.

(** One turn of the second loop of [test_function]. *)
Definition score_turn (st : scoring) (package : string) : M scoring :=
  p <- lift (item package (s_packages st)) ;;
  match Score p with
  | Some _ =>
      entities <- lift (add_entity package (s_packages st) (s_entities st)) ;;
      ret (mkscoring (s_packages st) entities (s_report st))
  | None =>
      module <- get_module package ;;
      let commands := pyright_verifytypes w module in
      outcome <- try_run w commands ;;
      lift (let? report := helpers.verifytypes_report w (s_report st) outcome in
            let? (packages_to_score, entities) :=
              helpers.record_score package report (s_packages st) (s_entities st) in
            Ok (mkscoring packages_to_score entities report))
  end.

(** [test_function] *)
Definition test_function : M unit :=
  '(packages_to_score, install_packages) <- lift (read_rows (catalog w) ([], [])) ;;
  install install_packages ;;;
  st <- for_each score_turn (dict.keys packages_to_score)
          (mkscoring packages_to_score [] None) ;;
  submit_transaction (s_entities st).

End WithWorld.

End function_app.

(** ** run_released_typescore.py *)

Module run_released_typescore.

Section WithWorld.

Variable w : World.

(** One turn of the loop of [get_released_installs]. *)
Definition lookup (state : dict.t details * list string) (package_name : string)
  : result (dict.t details * list string) :=
  let '(packages_to_score, install_packages) := state in
  match helpers.get_last_month (today w) with
  | Raise e => Raise e
  | Ok partition_key =>
      match item package_name packages_to_score with
      | Raise e => Raise e
      | Ok p =>
          let requirement := package_name ++ "==" ++ cell_format w (LatestVersion p) in
          match get_entity w partition_key package_name with
          | Some entity =>
              if cell_eq (e_LatestVersion entity) (LatestVersion p)
              then Ok (dict.set package_name
                         (update_PyTyped (e_PyTyped entity)
                            (update_Score (e_Score entity) p))
                         packages_to_score,
                       install_packages)
              else Ok (packages_to_score, (install_packages ++ [requirement])%list)
          | None => Ok (packages_to_score, (install_packages ++ [requirement])%list)
          end
      end
  end.

Fixpoint lookups (names : list string) (state : dict.t details * list string)
  : result (dict.t details * list string) :=
  match names with
  | [] => Ok state
  | n :: rest =>
      match lookup state n with
      | Ok state' => lookups rest state'
      | Raise e => Raise e
      end
  end.

(** [get_released_installs]: the work set with the reused scores, and the
    list of requirements to install. *)
Definition get_released_installs (packages_to_score : dict.t details)
  : result (dict.t details * list string) :=
  lookups (dict.keys packages_to_score) (packages_to_score, []).

(** One turn of the loop of [released_typescore_function]. *)
Definition score_turn (state : dict.t details * list (string * entity)) (package : string)
  : M (dict.t details * list (string * entity)) :=
  let '(packages_to_score, entities) := state in
  if String.eqb package "azure-core" then ret state
  else
    p <- lift (item package packages_to_score) ;;
    match Score p with
    | Some _ =>
        entities <- lift (helpers.add_entity package packages_to_score entities) ;;
        ret (packages_to_score, entities)
    | None => helpers.score_package w package packages_to_score entities
    end.

(** [released_typescore_function] *)
Definition released_typescore_function : M unit :=
  packages_to_score <- lift (helpers.get_packages_to_score w (helpers.IGNORE_PACKAGES w)) ;;
  '(packages_to_score, install_packages) <- lift (get_released_installs packages_to_score) ;;
  helpers.install w install_packages ;;;
  '(packages_to_score, entities) <-
    for_each score_turn (dict.keys packages_to_score) (packages_to_score, []) ;;
  helpers.uninstall_deps w
    ["azure-core-experimental"; "azure-core-tracing-opencensus";
     "azure-core-tracing-opentelemetry"] ;;;
  '(_, entities) <- helpers.score_package w "azure-core" packages_to_score entities ;;
  submit_transaction entities.

End WithWorld.

End run_released_typescore.

(** ** run_main_typescore.py *)

Module run_main_typescore.

(** Format: library to score, dependencies to uninstall. *)
Definition DEPENDENCY_ISSUE_LIBRARIES : dict.t (list string) :=
  [ ("azure-mixedreality-authentication", ["azure-mixedreality-remoterendering"]);
    ("azure-ai-ml",
     ["azure-storage-blob"; "azure-storage-file-share"; "azure-storage-file-datalake"]);
    ("azure-storage-blob-changefeed", ["azure-storage-blob"]);
    ("azure-storage-file-datalake", ["azure-storage-blob"]);
    ("azure-core",
     ["azure-core-experimental"; "azure-core-tracing-opencensus";
      "azure-core-tracing-opentelemetry"]) ].

Definition extra_index_url : string :=
  "https://pkgs.dev.azure.com/azure-sdk/public/_packaging/azure-sdk-for-python/pypi/simple".

(** The arguments that install one package from the development feed. *)
Definition requirement (package_name version : string) : list string :=
  [package_name ++ "==" ++ version; "--extra-index-url"; extra_index_url; "--pre"].

(** The state of the last loop of [get_alpha_installs]. *)
Record rounds : Type := mkrounds {
  r_packages : dict.t details;
  first_round : list string;
  second_round : dict.t (list string)
}.

(** One turn of the last loop of [get_alpha_installs]. *)
Definition assign_round (st : rounds) (entry : string * string) : result rounds :=
  let '(package_name, version) := entry in
  match item package_name (r_packages st) with
  | Raise e => Raise e
  | Ok p =>
      let packages_to_score :=
        dict.set package_name (update_LatestVersion (Str version) p) (r_packages st) in
      if dict.has package_name DEPENDENCY_ISSUE_LIBRARIES
      then Ok (mkrounds packages_to_score (first_round st)
                 (dict.set package_name (requirement package_name version) (second_round st)))
      else Ok (mkrounds packages_to_score
                 (first_round st ++ requirement package_name version)%list
                 (second_round st))
  end.

Fixpoint assign_rounds (entries : list (string * string)) (st : rounds) : result rounds :=
  match entries with
  | [] => Ok st
  | entry :: rest =>
      match assign_round st entry with
      | Ok st' => assign_rounds rest st'
      | Raise e => Raise e
      end
  end.

Section WithWorld.

Variable w : World.

(** [IGNORE_PACKAGES] after the [extend] of helpers.py and the one of
    this module. *)
Definition IGNORE_PACKAGES : list string :=
  (helpers.IGNORE_PACKAGES w ++ ["azure-ai-vision"; "azure-ai-mlmonitoring"])%list.

(** One turn of the inner loop of [get_alpha_installs], over the
    versions of one package, on the pair
    [(latest_publish_date, versions_to_install)]. The publish date of a
    version with an [a] in its text is read by [strptime], which may
    raise. *)
Definition pick_version (name : string) (state : option Z * dict.t string)
    (version : feed_version) : result (option Z * dict.t string) :=
  let '(latest_publish_date, versions_to_install) := state in
  if contains "a" (fv_version version) then
    match strptime w (before_dot (fv_publishDate version)) with
    | None => Raise ValueError
    | Some datetime_conv =>
        match latest_publish_date with
        | None =>
            Ok (Some datetime_conv, dict.set name (fv_version version) versions_to_install)
        | Some latest =>
            if latest <? datetime_conv
            then Ok (Some datetime_conv,
                     dict.set name (fv_version version) versions_to_install)
            else Ok state
        end
    end
  else Ok state.

Fixpoint pick_versions (name : string) (versions : list feed_version)
    (state : option Z * dict.t string) : result (option Z * dict.t string) :=
  match versions with
  | [] => Ok state
  | version :: rest =>
      match pick_version name state version with
      | Ok state' => pick_versions name rest state'
      | Raise e => Raise e
      end
  end.

(** One turn of the outer loop of [get_alpha_installs], over the
    packages of the feed. *)
Definition pick_package (packages_to_score : dict.t details)
    (versions_to_install : dict.t string) (package : feed_package)
  : result (dict.t string) :=
  if dict.has (fp_name package) packages_to_score
  then
    match pick_versions (fp_name package) (fp_versions package)
                        (None, versions_to_install) with
    | Ok (_, versions_to_install) => Ok versions_to_install
    | Raise e => Raise e
    end
  else Ok versions_to_install.

Fixpoint pick_packages (packages_to_score : dict.t details) (feed : list feed_package)
    (versions_to_install : dict.t string) : result (dict.t string) :=
  match feed with
  | [] => Ok versions_to_install
  | package :: rest =>
      match pick_package packages_to_score versions_to_install package with
      | Ok versions_to_install' => pick_packages packages_to_score rest versions_to_install'
      | Raise e => Raise e
      end
  end.

(** The dict [versions_to_install] that [get_alpha_installs] builds from
    the feed, when its loops run to their end. *)
Definition versions_to_install (packages_to_score : dict.t details)
  : result (dict.t string) :=
  pick_packages packages_to_score (alpha_feed w) [].

(** [get_alpha_installs]: the two rounds, and the work set with the
    versions of the feed. *)
Definition get_alpha_installs (packages_to_score : dict.t details) : result rounds :=
  match versions_to_install packages_to_score with
  | Raise e => Raise e
  | Ok versions_to_install =>
      assign_rounds versions_to_install (mkrounds packages_to_score [] [])
  end.

(** One turn of the first scoring loop of [main_typescore_function]. *)
Definition score_first_round (state : dict.t details * list (string * entity))
    (package : string) : M (dict.t details * list (string * entity)) :=
  let '(packages_to_score, entities) := state in
  if dict.has package DEPENDENCY_ISSUE_LIBRARIES then ret state
  else helpers.score_package w package packages_to_score entities.

(** One turn of the second loop of [main_typescore_function]. *)
Definition score_second_round (second_round : dict.t (list string))
    (state : dict.t details * list (string * entity))
    (entry : string * list string) : M (dict.t details * list (string * entity)) :=
  let '(packages_to_score, second_round_entities) := state in
  let '(package, deps) := entry in
  helpers.uninstall_deps w deps ;;;
  packages <- lift (match dict.get package second_round with
                    | Some packages => Ok packages
                    | None => Raise (KeyError package)
                    end) ;;
  helpers.install w packages ;;;
  helpers.score_package w package packages_to_score second_round_entities.

(** The part of [main_typescore_function] that follows
    [get_alpha_installs]. *)
Definition run_rounds (st : rounds) : M unit :=
  helpers.install w (first_round st) ;;;
  '(packages_to_score, entities) <-
    for_each score_first_round (dict.keys (r_packages st)) (r_packages st, []) ;;
  '(_, second_round_entities) <-
    for_each (score_second_round (second_round st)) DEPENDENCY_ISSUE_LIBRARIES
             (packages_to_score, []) ;;
  submit_transaction (entities ++ second_round_entities)%list.

(** [main_typescore_function] *)
Definition main_typescore_function : M unit :=
  packages_to_score <- lift (helpers.get_packages_to_score w IGNORE_PACKAGES) ;;
  st <- lift (get_alpha_installs packages_to_score) ;;
  run_rounds st.

End WithWorld.

End run_main_typescore.

(** ** Concrete worlds

    Small instances of [World] on which the embedding is run. *)

Module Scenario.

(** A model of the version strings that occur in the scenarios: a dotted
    release, optionally followed by [a], [b] or [rc] and a number. *)
Record version : Type := mkversion {
  release : list Z;
  pre : option (Z * Z);
  v_text : string
}.

Definition digit_value (c : ascii) : option Z :=
  let n := nat_of_ascii c in
  if (48 <=? n)%nat && (n <=? 57)%nat then Some (Z.of_nat n - 48) else None.

Fixpoint read_number (s : string) (acc : option Z) : option Z * string :=
  match s with
  | EmptyString => (acc, s)
  | String c t =>
      match digit_value c with
      | Some d => read_number t (Some (10 * match acc with Some a => a | None => 0 end + d))
      | None => (acc, s)
      end
  end.

Fixpoint read_release (fuel : nat) (s : string) (acc : list Z) : option (list Z * string) :=
  match fuel with
  | O => None
  | S fuel' =>
      match read_number s None with
      | (None, _) => None
      | (Some n, String "." t) => read_release fuel' t (acc ++ [n])%list
      | (Some n, rest) => Some ((acc ++ [n])%list, rest)
      end
  end.

Definition read_pre (s : string) : option (option (Z * Z)) :=
  match s with
  | EmptyString => Some None
  | String "a" t =>
      match read_number t None with
      | (Some n, EmptyString) => Some (Some (0, n))
      | _ => None
      end
  | String "b" t =>
      match read_number t None with
      | (Some n, EmptyString) => Some (Some (1, n))
      | _ => None
      end
  | String "r" (String "c" t) =>
      match read_number t None with
      | (Some n, EmptyString) => Some (Some (2, n))
      | _ => None
      end
  | _ => None
  end.

Definition parse_version (s : string) : option version :=
  match read_release (S (String.length s)) s [] with
  | Some (rel, rest) =>
      match read_pre rest with
      | Some p => Some (mkversion rel p s)
      | None => None
      end
  | None => None
  end.

(** Releases compare number by number, a missing number counting as 0. *)
Fixpoint zeros_compare (a : list Z) : comparison :=
  match a with
  | [] => Eq
  | x :: a' => match x ?= 0 with Eq => zeros_compare a' | c => c end
  end.

Fixpoint release_compare (a b : list Z) : comparison :=
  match a, b with
  | [], _ => CompOpp (zeros_compare b)
  | _, [] => zeros_compare a
  | x :: a', y :: b' => match x ?= y with Eq => release_compare a' b' | c => c end
  end.

Definition pre_compare (a b : option (Z * Z)) : comparison :=
  match a, b with
  | None, None => Eq
  | None, Some _ => Gt
  | Some _, None => Lt
  | Some (k1, n1), Some (k2, n2) =>
      match k1 ?= k2 with Eq => n1 ?= n2 | c => c end
  end.

Definition version_greater (a b : version) : bool :=
  match release_compare (release a) (release b) with
  | Gt => true
  | Lt => false
  | Eq => match pre_compare (pre a) (pre b) with Gt => true | _ => false end
  end.

Definition june15 : datetime.t := datetime.mk 2023 6 15 8 18 32 486215.

(** [str.lower] on the texts of the scenarios, which are ASCII. *)
Definition lower_char (c : ascii) : ascii :=
  let n := nat_of_ascii c in
  if (65 <=? n)%nat && (n <=? 90)%nat then ascii_of_nat (n + 32) else c.

Definition lower (s : string) : string := map_chars lower_char s.

(** The text of the floats of the scenarios. *)
Definition float_text (x : float) : string :=
  if (x =? 2)%float then "2.0" else if (x =? 1.5)%float then "1.5" else "nan".

(** [strptime] on a text of the form [2023-06-01T04:23:11]; the moments
    are numbered in their order. *)
Definition field (s : string) (start length : nat) : option Z :=
  match read_number (substring start length s) None with
  | (Some n, EmptyString) => Some n
  | _ => None
  end.

Definition read_moment (s : string) : option Z :=
  if (String.length s =? 19)%nat
     && String.eqb (substring 4 1 s) "-" && String.eqb (substring 7 1 s) "-"
     && String.eqb (substring 10 1 s) "T"
     && String.eqb (substring 13 1 s) ":" && String.eqb (substring 16 1 s) ":"
  then
    match field s 0 4, field s 5 2, field s 8 2, field s 11 2, field s 14 2, field s 17 2 with
    | Some y, Some m, Some d, Some h, Some mi, Some sec =>
        if datetime.valid (datetime.mk y m d h mi sec 0)
        then Some (((((y * 12 + m) * 31 + d) * 24 + h) * 60 + mi) * 60 + sec)
        else None
    | _, _, _, _, _, _ => None
    end
  else None.

(** A world whose catalog, network, table store and processes are given,
    with empty exclusion lists. *)
Definition world (today : datetime.t) (catalog : list row)
    (requests_get : string -> Response)
    (alpha_feed : list feed_package)
    (get_entity : string -> string -> option entity)
    (subprocess : trace -> list string -> CompletedProcess)
    (json_loads : string -> option json) : World :=
  mkWorld "python" today [] [] [] [] [] [] []
          version parse_version version_greater v_text
          catalog requests_get alpha_feed get_entity subprocess json_loads
          lower float_text read_moment.

Definition not_found : string -> Response := fun _ => mkresponse 404 "".

Definition no_entity : string -> string -> option entity := fun _ _ => None.

Definition no_json : string -> option json := fun _ => None.

(** A process that succeeds and prints [out]. *)
Definition prints (out : string) : CompletedProcess := mkproc 0 out "".

(** The package of a [pip show -f] command and the module of a
    [pyright --verifytypes] command. *)
Definition shown_package (command : list string) : string := nth 5 command "".

Definition verified_module (command : list string) : string := nth 4 command "".

Definition is_pip_show (command : list string) : bool :=
  String.eqb (nth 3 command "") "show".

Definition is_pyright (command : list string) : bool :=
  String.eqb (nth 2 command "") "pyright".

Definition newline : string := String LF EmptyString.

(** An event in two words: the pip or pyright action and its first
    operand. *)
Definition brief (ev : event) : string :=
  match ev with
  | Exec command =>
      nth 3 command ""
      ++ " " ++ (if is_pip_show command then nth 5 command "" else nth 4 command "")
  | Submit _ => "submit"
  end.

(** *** The configuration of a package *)

(** A pyproject.toml that sets [mypy] to true and mentions the word
    false in a comment. *)
Definition commented_toml : string :=
  "[tool.azure-sdk-build]" ++ newline ++
  "mypy = true  # not false: the samples are checked" ++ newline.

Definition commented_world : World :=
  world june15 [] (fun _ => mkresponse 200 commented_toml) [] no_entity
        (fun _ _ => prints "") no_json.

(** A pyproject.toml that switches two checks off. *)
Definition opt_out_toml : string :=
  "[tool.azure-sdk-build]" ++ newline ++
  "Pyright = False" ++ newline ++
  "verifytypes = false" ++ newline.

Definition opt_out_world : World :=
  world june15 [] (fun _ => mkresponse 200 opt_out_toml) [] no_entity
        (fun _ _ => prints "") no_json.

(** *** A package without an initializer file *)

Definition manifest_without_init : string :=
  "Name: azure-foo" ++ newline ++
  "Files:" ++ newline ++
  "  azure/foo/client.py" ++ newline.

Definition no_init_world : World :=
  world june15 [] not_found [] no_entity
        (fun _ _ => prints manifest_without_init) no_json.

(** *** Processes *)

(** The manifest that [pip show -f] prints for a package whose files are
    under [path]. *)
Definition manifest (package path : string) : string :=
  "Name: " ++ package ++ newline ++
  "Version: 3.1.0" ++ newline ++
  "Files:" ++ newline ++
  "  " ++ path ++ "/__init__.py" ++ newline ++
  "  " ++ path ++ "/_client.py" ++ newline.

(** Processes that answer [pip show -f] from a table of manifests and
    [pyright --verifytypes] from a table of outcomes; a package that is
    not installed makes [pip show] fail, and everything else succeeds. *)
Definition processes (manifests : list (string * string))
    (checks : list (string * CompletedProcess)) : trace -> list string -> CompletedProcess :=
  fun _ command =>
    if is_pip_show command then
      match assoc (shown_package command) manifests with
      | Some m => prints m
      | None => mkproc 1 "" "WARNING: Package(s) not found"
      end
    else if is_pyright command then
      match assoc (verified_module command) checks with
      | Some p => p
      | None => mkproc 3 "" "No source files found"
      end
    else prints "".

(** The report of the checker for a package that is 87.3 percent
    complete and ships a marker file, as text and decoded. *)
Definition report_text : string :=
  "{typeCompleteness: {pyTypedPath: azure/widget/py.typed, completenessScore: 0.873}}".

Definition report_value : json :=
  JObj [("typeCompleteness",
         JObj [("pyTypedPath", JStr "azure/widget/py.typed");
               ("completenessScore", JNum (PyFloat 0.873))])].

(** The report of a complete package without a marker file. *)
Definition full_report_text : string :=
  "{typeCompleteness: {pyTypedPath: null, completenessScore: 1}}".

Definition full_report_value : json :=
  JObj [("typeCompleteness",
         JObj [("pyTypedPath", JNull); ("completenessScore", JNum (PyInt 1))])].

Definition decode (s : string) : option json :=
  assoc s [(report_text, report_value); (full_report_text, full_report_value)].

Definition manifests : list (string * string) :=
  [ ("azure-widget", manifest "azure-widget" "azure/widget");
    ("azure-gadget", manifest "azure-gadget" "azure/gadget");
    ("azure-core", manifest "azure-core" "azure/core") ].

(** [azure-widget] is incomplete (exit status 1), [azure-core] is
    complete (exit status 0) and the checker breaks on [azure-gadget]
    (exit status 2). *)
Definition checks : list (string * CompletedProcess) :=
  [ ("azure.widget", mkproc 1 report_text "");
    ("azure.core", mkproc 0 full_report_text "");
    ("azure.gadget", mkproc 2 "" "error: import failed") ].

Definition scoring_world (catalog : list row)
    (get_entity : string -> string -> option entity) : World :=
  world june15 catalog not_found [] get_entity (processes manifests checks) decode.

Definition widget : details := mkdetails (Str "3.1.0") true true true true june15 None None.

(** The catalog of a run in which the checker breaks on the second
    package. *)
Definition broken_catalog : list row :=
  [ mkrow (Str "azure-widget") (Str "3.1.0") NaN (Str "widget");
    mkrow (Str "azure-gadget") (Str "1.0.0") NaN (Str "gadget") ].

(** *** The two-round pipeline *)

Definition released (name version : string) : row :=
  mkrow (Str name) (Str version) NaN (Str "sdk").

(** A catalog with the five packages of the conflict table and one
    other package. *)
Definition main_catalog : list row :=
  [ released "azure-widget" "3.1.0";
    released "azure-core" "1.26.0";
    released "azure-ai-ml" "1.5.0";
    released "azure-storage-file-datalake" "12.11.0";
    released "azure-storage-blob-changefeed" "12.0.0";
    released "azure-mixedreality-authentication" "1.0.0" ].

Definition nightly (name version : string) : feed_package :=
  mkfp name [ mkfv version "2023-06-01T04:23:11.6930000Z";
              mkfv "0.0.1" "2023-06-01T04:25:00.1200000Z" ].

Definition main_feed : list feed_package :=
  [ nightly "azure-core" "1.27.0a20230601001";
    nightly "azure-widget" "3.2.0a20230601001";
    nightly "azure-ai-ml" "1.6.0a20230601001";
    nightly "azure-storage-file-datalake" "12.12.0a20230601001";
    nightly "azure-storage-blob-changefeed" "12.0.1a20230601001";
    nightly "azure-mixedreality-authentication" "1.0.1a20230601001";
    nightly "azure-unlisted" "1.0.0a1" ].

Definition main_manifests : list (string * string) :=
  [ ("azure-widget", manifest "azure-widget" "azure/widget");
    ("azure-core", manifest "azure-core" "azure/core");
    ("azure-ai-ml", manifest "azure-ai-ml" "azure/ai/ml");
    ("azure-storage-file-datalake",
     manifest "azure-storage-file-datalake" "azure/storage/filedatalake");
    ("azure-storage-blob-changefeed",
     manifest "azure-storage-blob-changefeed" "azure/storage/blob/changefeed");
    ("azure-mixedreality-authentication",
     manifest "azure-mixedreality-authentication" "azure/mixedreality/authentication") ].

Definition main_checks : list (string * CompletedProcess) :=
  [ ("azure.widget", mkproc 1 report_text "");
    ("azure.core", mkproc 0 full_report_text "");
    ("azure.ai.ml", mkproc 1 report_text "");
    ("azure.storage.filedatalake", mkproc 1 report_text "");
    ("azure.storage.blob.changefeed", mkproc 1 report_text "");
    ("azure.mixedreality.authentication", mkproc 0 full_report_text "") ].

Definition main_world : World :=
  world june15 main_catalog not_found main_feed no_entity
        (processes main_manifests main_checks) decode.

(** The same with one more package, on which the checker breaks. *)
Definition broken_main_world : World :=
  world june15 (main_catalog ++ [released "azure-gadget" "1.0.0"])%list not_found
        (main_feed ++ [nightly "azure-gadget" "1.0.1a1"])%list no_entity
        (processes (main_manifests
                    ++ [("azure-gadget", manifest "azure-gadget" "azure/gadget")])%list
                   (main_checks ++ [("azure.gadget", mkproc 2 "" "error")])%list)
        decode.

(** What the preparatory steps of [main_typescore_function] return. *)
Definition prepared (w : World) : run_main_typescore.rounds :=
  match helpers.get_packages_to_score w (run_main_typescore.IGNORE_PACKAGES w) with
  | Ok pts =>
      match run_main_typescore.get_alpha_installs w pts with
      | Ok st => st
      | Raise _ => run_main_typescore.mkrounds [] [] []
      end
  | Raise _ => run_main_typescore.mkrounds [] [] []
  end.

(** *** The released pipeline *)

(** The entity stored last month for a package at [version]: half
    complete, with a marker file. *)
Definition stored (name version : string) : entity :=
  mkentity name "2023-05-15" name (datetime.mk 2023 5 15 13 0 0 0) (Str version)
           (PyFloat 50) true true true true true.

(** A table that has last month's entities of [azure-widget] 3.1.0 and
    [azure-core] 1.26.0. *)
Definition last_month_table (partition_key row_key : string) : option entity :=
  if String.eqb partition_key "2023-05-15" then
    if String.eqb row_key "azure-widget" then Some (stored "azure-widget" "3.1.0")
    else if String.eqb row_key "azure-core" then Some (stored "azure-core" "1.26.0")
    else None
  else None.

(** Neither package has a new version. *)
Definition released_catalog : list row :=
  [ released "azure-widget" "3.1.0";
    released "azure-core" "1.26.0" ].

Definition released_world : World :=
  scoring_world released_catalog last_month_table.

(** [azure-widget] has a new version. *)
Definition updated_world : World :=
  scoring_world [released "azure-widget" "3.2.0"; released "azure-core" "1.26.0"]
                last_month_table.

(** What [get_packages_to_score] returns in the released pipeline. *)
Definition work_set (w : World) : dict.t details :=
  match helpers.get_packages_to_score w (helpers.IGNORE_PACKAGES w) with
  | Ok pts => pts
  | Raise _ => []
  end.

(** *** A catalog *)

(** The name [widget-sdk] occurs twice, one row has no name, and
    [gadget-sdk] has a beta that is newer than its release. *)
Definition catalog_rows : list row :=
  [ mkrow (Str "widget-sdk") (Str "1.2.0") NaN (Str "widget");
    mkrow NaN (Str "0.1.0") NaN NaN;
    mkrow (Str "gadget-sdk") (Str "1.0.0") (Str "2.0.0a1") (Str "gadget");
    mkrow (Str "widget-sdk") (Str "9.9.9") NaN (Str "widget");
    mkrow (Str "preview-sdk") NaN (Str "1.0.0b2") (Str "preview") ].

Definition catalog_world : World :=
  world june15 catalog_rows not_found [] no_entity (fun _ _ => prints "") no_json.

Definition enabled (latest : string) : details :=
  mkdetails (Str latest) true true true true june15 None None.

End Scenario.

(** ** Notions of the design document

    Definitions that follow the wording of the design document, to be
    compared with what the code computes. *)

Module Design.

(** The dates that the description of [get_last_month] lists as having
    no counterpart in the previous month: March 29, 30 and 31, and the
    31st of a month that a 30-day month follows. *)
Definition listed_without_counterpart (today : datetime.t) : bool :=
  let next := if datetime.month today =? 12 then 1 else datetime.month today + 1 in
  ((datetime.month today =? 3) && (29 <=? datetime.day today))
  || ((datetime.day today =? 31)
      && (datetime.days_in_month (datetime.year today) next =? 30)).

Definition is_blank (c : ascii) : bool :=
  (nat_of_ascii c =? 32)%nat || (nat_of_ascii c =? 9)%nat.

Fixpoint lstrip (s : string) : string :=
  match s with
  | EmptyString => EmptyString
  | String c t => if is_blank c then lstrip t else s
  end.

Fixpoint drop (n : nat) (s : string) : string :=
  match n, s with
  | S n', String _ t => drop n' t
  | _, _ => s
  end.

(** A line of a configuration that explicitly sets [key] to false, in
    any case of the letters: [key = false] after optional indentation. *)
Definition sets_false (w : World) (key line : string) : bool :=
  let s := lstrip (str_lower w line) in
  if prefix key s then
    match lstrip (drop (String.length key) s) with
    | String "=" t => prefix "false" (lstrip t)
    | _ => false
    end
  else false.

(** The configuration explicitly sets [key] to false on some line. *)
Definition explicitly_false (w : World) (key toml : string) : bool :=
  existsb (sets_false w key) (split_newline toml).

(** The text [sub] occurs in the text [s]. *)
Definition occurs (sub s : string) : Prop :=
  exists before after, s = (before ++ sub ++ after)%string.

(** A line that, once in lower case, has the name of the key somewhere
    and the word false somewhere. *)
Definition names_both (w : World) (key line : string) : Prop :=
  occurs key (str_lower w line) /\ occurs "false" (str_lower w line).

(** Some line of the configuration names both the key and the word
    false. *)
Definition named_with_false (w : World) (key toml : string) : Prop :=
  exists line, In line (split_newline toml) /\ names_both w key line.

(** A hundred times a number: an integer stays an integer, a float is
    multiplied as a float. *)
Definition hundredfold (x : num) : num :=
  match x with
  | PyInt n => PyInt (100 * n)
  | PyFloat f => PyFloat (f * 100)%float
  end.

(** The integer [q] is the nearest one to [10 * m * 2^e], and the even
    one where two integers are as near. *)
Definition nearest_tenths (m : positive) (e q : Z) : Prop :=
  (0 <= e -> q = 10 * Zpos m * 2 ^ e)
  /\ (e < 0 ->
      Z.abs (2 * (10 * Zpos m) - 2 * q * 2 ^ (- e)) <= 2 ^ (- e)
      /\ (Z.abs (2 * (10 * Zpos m) - 2 * q * 2 ^ (- e)) = 2 ^ (- e) -> Z.even q = true)).

(** The float nearest to [q / 10], with the sign [s]. *)
Definition tenth_of (s : bool) (q : Z) : float :=
  match q with
  | Zpos n => SF2Prim (SFdiv prec emax (S754_finite s n 0) (S754_finite false 10 0))
  | _ => SF2Prim (S754_zero s)
  end.

(** The number [score] is [y] rounded to one decimal place: for a
    finite float [y] of magnitude [m * 2^e], the float nearest to the
    decimal with one digit after the point that is nearest to [y]; zeros,
    infinities and NaN are their own rounding, and so is an integer. *)
Definition one_decimal (y score : num) : Prop :=
  match y with
  | PyInt n => score = PyInt n
  | PyFloat f =>
      match Prim2SF f with
      | S754_finite s m e => exists q, nearest_tenths m e q /\ score = PyFloat (tenth_of s q)
      | _ => score = PyFloat f
      end
  end.

End Design.

(** ** Values named in the statements *)

(** The character [c] does not occur in [s]. *)
Fixpoint free_of (c : ascii) (s : string) : bool :=
  match s with
  | EmptyString => true
  | String x t => negb (Ascii.eqb x c) && free_of c t
  end.

(** The events of a turn of the second round, spelled out for the
    version [v] of the package. *)
Definition isolated_install (w : World) (entry : string * list string) (v module : string)
  : list event :=
  [ Exec (pip_uninstall w (snd entry));
    Exec (pip_install w (run_main_typescore.requirement (fst entry) v
                         ++ ["pyright==1.1.287"])%list);
    Exec (pip_show w (fst entry));
    Exec (pyright_verifytypes w module) ].


(** The entity that [add_entity] builds for a record that has a score. *)
Definition entity_of (package : string) (p : details) (score : num) (pytyped : bool) : entity :=
  mkentity package
    (datetime.str (datetime.mkdate (datetime.year (Date p)) (datetime.month (Date p))
                                   (datetime.day (Date p))))
    package (Date p) (LatestVersion p) score pytyped
    (Pyright p) (Mypy p) (Samples p) (Verifytypes p).

(** The flag that [score_package] derives from the report. *)
Definition marker (fields : list (string * json)) : bool :=
  match assoc "pyTypedPath" fields with
  | Some JNull | None => false
  | Some _ => true
  end.


(** ** Shapes of traces *)

(** The events of [install(packages)]: nothing for an empty list. *)
Definition installed (w : World) (packages : list string) : list event :=
  match packages with
  | [] => []
  | _ => [Exec (pip_install w (packages ++ ["pyright==1.1.287"])%list)]
  end.

(** The events of a call of [score_package] that runs to its end: the
    manifest of the package is read, then the checker runs on a module. *)
Definition scored (w : World) (package : string) (evs : list event) : Prop :=
  exists module,
    evs = [Exec (pip_show w package); Exec (pyright_verifytypes w module)].

(** The events of a turn of the first scoring loop of the two-round
    pipeline: nothing for a package of the conflict table. *)
Definition first_round_turn (w : World) (package : string) (evs : list event) : Prop :=
  if dict.has package run_main_typescore.DEPENDENCY_ISSUE_LIBRARIES
  then evs = []
  else scored w package evs.

(** The events of a turn of the second loop of the two-round pipeline
    that installs [packages]: uninstall, install, score. *)
Definition isolated_with (w : World) (packages : list string)
    (entry : string * list string) (evs : list event) : Prop :=
  exists scoring,
    scored w (fst entry) scoring
    /\ evs = (Exec (pip_uninstall w (snd entry)) :: installed w packages ++ scoring)%list.

(** The same, with the arguments that [second_round] holds for the
    package. *)
Definition isolated_from (w : World) (second_round : dict.t (list string))
    (entry : string * list string) (evs : list event) : Prop :=
  exists packages,
    dict.get (fst entry) second_round = Some packages
    /\ isolated_with w packages entry evs.

(** The events of a whole run of the two rounds, the turns of the second
    round having the shape [turn]. *)
Definition two_rounds_of (w : World) (st : run_main_typescore.rounds)
    (turn : string * list string -> list event -> Prop) (evs : list event) : Prop :=
  exists blocks1 blocks2 entities,
    Forall2 (first_round_turn w) (dict.keys (run_main_typescore.r_packages st)) blocks1
    /\ Forall2 turn run_main_typescore.DEPENDENCY_ISSUE_LIBRARIES blocks2
    /\ evs = (installed w (run_main_typescore.first_round st)
              ++ List.concat blocks1 ++ List.concat blocks2 ++ [Submit entities])%list.

(** A turn of the second loop, as far as it can go: with the arguments
    that [second_round] holds for the package it uninstalls, installs
    and scores; for a package that [second_round] does not hold it
    uninstalls, and the lookup raises. *)
Definition isolated_turn (w : World) (second_round : dict.t (list string))
    (entry : string * list string) (evs : list event) : Prop :=
  match dict.get (fst entry) second_round with
  | Some packages => isolated_with w packages entry evs
  | None => evs = [Exec (pip_uninstall w (snd entry))]
  end.

(** The same, spelled out for the versions taken from the feed: the
    four commands of the package, the install naming it at its version;
    or the uninstall alone for a package without a version. *)
Definition isolated_block (w : World) (versions : dict.t string)
    (entry : string * list string) (evs : list event) : Prop :=
  match dict.get (fst entry) versions with
  | Some v => exists module, evs = isolated_install w entry v module
  | None => evs = [Exec (pip_uninstall w (snd entry))]
  end.

Definition two_rounds (w : World) (st : run_main_typescore.rounds) : list event -> Prop :=
  two_rounds_of w st (isolated_turn w (run_main_typescore.second_round st)).

Definition two_rounds_exact (w : World) (st : run_main_typescore.rounds)
  : list event -> Prop :=
  two_rounds_of w st (isolated_from w (run_main_typescore.second_round st)).

(** The entry of the previous month that [get_released_installs] reuses
    for a package: the one stored under its name, when the version it
    records is the version of this run. *)
Definition cached (w : World) (name : string) (p : details) : option entity :=
  match helpers.get_last_month (today w) with
  | Ok partition_key =>
      match get_entity w partition_key name with
      | Some entity =>
          if cell_eq (e_LatestVersion entity) (LatestVersion p) then Some entity else None
      | None => None
      end
  | Raise _ => None
  end.

(** The record of a package after [get_released_installs]. *)
Definition reused (w : World) (name : string) (p : details) : details :=
  match cached w name p with
  | Some entity => update_PyTyped (e_PyTyped entity) (update_Score (e_Score entity) p)
  | None => p
  end.

(** What [get_released_installs] asks to install for a package. *)
Definition to_install (w : World) (pts : dict.t details) (name : string) : list string :=
  match dict.get name pts with
  | Some p =>
      match cached w name p with
      | Some _ => []
      | None => [name ++ "==" ++ cell_format w (LatestVersion p)]
      end
  | None => []
  end.

(** The events of a turn of the scoring loop of the released pipeline,
    for the work set [pts] with which the loop starts: nothing for
    [azure-core] and for a package that has a score, a scoring for the
    others. *)
Definition released_turn (w : World) (pts : dict.t details) (package : string)
    (evs : list event) : Prop :=
  if String.eqb package "azure-core" then evs = []
  else match dict.get package pts with
       | Some p =>
           match Score p with
           | Some _ => evs = []
           | None => scored w package evs
           end
       | None => False
       end.

Definition row_keys (entities : list (string * entity)) : list string :=
  map (fun x => e_RowKey (snd x)) entities.

Definition core_dependencies : list string :=
  ["azure-core-experimental"; "azure-core-tracing-opencensus";
   "azure-core-tracing-opentelemetry"].

(** The work set has a score for [q]. *)
Definition has_score (q : string) (pts : dict.t details) : Prop :=
  exists p s, dict.get q pts = Some p /\ Score p = Some s.

(** No event of [evs] looks [q] up or installs anything, and the checker
    does not run for [q]: wherever the checker runs in [evs], the event
    right before is the lookup of a package other than [q], of whose
    scoring that run is the second step. *)
Definition leaves_alone (w : World) (q : string) (evs : list event) : Prop :=
  (forall ev, In ev evs ->
              ev <> Exec (pip_show w q)
              /\ forall packages, ev <> Exec (pip_install w packages))
  /\ (forall before module after,
         evs = (before ++ Exec (pyright_verifytypes w module) :: after)%list ->
         exists earlier k,
           before = (earlier ++ [Exec (pip_show w k)])%list /\ k <> q).

(** ** Further notions and scenarios *)

(** The names of the rows of a data frame that are strings. *)
Definition names_of (rows : list row) : list string :=
  flat_map (fun r => match r_Package r with Str s => [s] | _ => [] end) rows.

(** The elements of [l] that are not in [seen], each at its first
    occurrence. *)
Fixpoint first_occurrences (seen l : list string) : list string :=
  match l with
  | [] => []
  | x :: l' =>
      if mem x seen then first_occurrences seen l'
      else x :: first_occurrences (seen ++ [x]) l'
  end.

(** Every event of [evs] is a command. *)
Definition only_commands (evs : list event) : Prop :=
  forall ev, In ev evs -> exists command, ev = Exec command.

(** A computation that runs commands and submits nothing. *)
Definition quiet {A : Type} (m : M A) : Prop :=
  forall tr r tr', m tr = (r, tr') ->
                   exists evs, tr' = (tr ++ evs)%list /\ only_commands evs.

(** A computation that runs commands and then, unless it has raised,
    submits one transaction and returns. *)
Definition submits_last (m : M unit) : Prop :=
  forall tr r tr',
    m tr = (r, tr') ->
    exists commands,
      only_commands commands
      /\ ((r = Ok tt /\ exists entities, tr' = (tr ++ commands ++ [Submit entities])%list)
          \/ ((exists e, r = Raise e) /\ tr' = (tr ++ commands)%list)).

(** A version of the feed that [get_alpha_installs] considers: its
    text has the letter [a]. *)
Definition alpha (version : feed_version) : bool := contains "a" (fv_version version).

(** The publish date of a version, as [get_alpha_installs] reads it:
    [strptime] on the text before the first dot. *)
Definition published (w : World) (version : feed_version) : option Z :=
  strptime w (before_dot (fv_publishDate version)).

(** A version whose publish date [strptime] reads, as a moment no later
    than [d]. *)
Definition no_later (w : World) (d : Z) (version : feed_version) : Prop :=
  exists d', published w version = Some d' /\ d' <= d.

(** A package that the first scoring loop of the two-round pipeline
    scores. *)
Definition outside_table (package : string) : bool :=
  negb (dict.has package run_main_typescore.DEPENDENCY_ISSUE_LIBRARIES).

(** The record of a package after [get_alpha_installs] has found
    [versions_to_install]. *)
Definition with_feed_version (versions_to_install : dict.t string) (name : string)
    (p : details) : details :=
  match dict.get name versions_to_install with
  | Some version => update_LatestVersion (Str version) p
  | None => p
  end.

(** The record that the first loop of [test_function] builds for a
    package before it looks at the history table. *)
Definition app_details (w : World) (package_name : string) (latest_version : cell) : details :=
  mkdetails latest_version
            (negb (mem package_name (ci_PYRIGHT_OPT_OUT w)))
            (negb (mem package_name (ci_MYPY_OPT_OUT w)))
            (negb (mem package_name (ci_TYPE_CHECK_SAMPLES_OPT_OUT w)))
            (negb (mem package_name (ci_VERIFYTYPES_OPT_OUT w)))
            (today w) None None.

(** The events of [install(packages)] of function_app.py. *)
Definition app_installed (w : World) (packages : list string) : list event :=
  match packages with
  | [] => []
  | _ => [Exec (pip_install w (packages ++ ["pyright==1.1.274"])%list)]
  end.

(** The events of a turn of the scoring loop of [test_function] that
    ends, for the work set [pts] with which the loop starts. *)
Definition app_turn (w : World) (pts : dict.t details) (package : string)
    (evs : list event) : Prop :=
  match dict.get package pts with
  | Some p =>
      match Score p with
      | Some _ => evs = []
      | None => scored w package evs
      end
  | None => False
  end.

Module More.

(** A catalog with ignored names, and exclusion lists like those of the
    repository tools. *)
Definition filtered_world : World :=
  mkWorld "python" Scenario.june15 ["azure-sdk-tools"] ["azure-mgmt-core"]
          ["nspkg"; "mgmt"; "cognitiveservices"] [] [] [] []
          Scenario.version Scenario.parse_version Scenario.version_greater Scenario.v_text
          [ Scenario.released "msrest" "0.7.1";
            Scenario.released "azure-mgmt-core" "1.4.0";
            Scenario.released "azure-mgmt-compute" "30.0.0";
            Scenario.released "azure-sdk-tools" "0.0.0";
            Scenario.released "azure-widget" "3.1.0" ]
          Scenario.not_found [] Scenario.no_entity (fun _ _ => Scenario.prints "")
          Scenario.no_json Scenario.lower Scenario.float_text Scenario.read_moment.

(** A catalog with a version that is not one. *)
Definition invalid_world : World :=
  Scenario.scoring_world
    [ Scenario.released "azure-widget" "3.1.0";
      mkrow (Str "azure-gadget") (Str "not-a-version") (Str "1.0.0b1") (Str "sdk");
      Scenario.released "azure-core" "1.26.0" ]
    Scenario.no_entity.

(** A catalog with a row that has no version at all. *)
Definition unversioned_world : World :=
  Scenario.scoring_world
    [ mkrow (Str "azure-widget") NaN NaN (Str "sdk");
      Scenario.released "azure-core" "1.26.0" ]
    (fun partition_key row_key =>
       if String.eqb row_key "azure-widget"
       then Some (mkentity "azure-widget" "2023-05-15" "azure-widget"
                           (datetime.mk 2023 5 15 13 0 0 0) NaN (PyFloat 50)
                           true true true true true)
       else None).

(** The released catalog on 31 March. *)
Definition march31 : datetime.t := datetime.mk 2023 3 31 13 0 0 0.

Definition march_world : World :=
  Scenario.world march31 Scenario.released_catalog Scenario.not_found []
                 Scenario.last_month_table
                 (Scenario.processes Scenario.manifests Scenario.checks) Scenario.decode.

(** A catalog without [azure-core]. *)
Definition coreless_world : World :=
  Scenario.scoring_world [Scenario.released "azure-widget" "3.1.0"] Scenario.no_entity.

(** A package whose files are not under [azure]. *)
Definition widget_sdk_world : World :=
  Scenario.world Scenario.june15 [] Scenario.not_found [] Scenario.no_entity
                 (Scenario.processes
                    [("widget-sdk", Scenario.manifest "widget-sdk" "widget_sdk")] [])
                 Scenario.decode.

(** A feed with several builds of one package, not in the order of
    their publication. *)
Definition builds : feed_package :=
  mkfp "azure-widget"
       [ mkfv "3.2.0a20230601001" "2023-06-01T04:23:11.6930000Z";
         mkfv "3.2.0a20230603001" "2023-06-03T04:20:52.1170000Z";
         mkfv "3.1.0" "2023-06-04T10:00:00.5000000Z";
         mkfv "3.2.0a20230602001" "2023-06-02T04:31:07.4430000Z" ].

Definition builds_world : World :=
  Scenario.world Scenario.june15 [Scenario.released "azure-widget" "3.1.0"]
                 Scenario.not_found [builds] Scenario.no_entity
                 (fun _ _ => Scenario.prints "") Scenario.no_json.

(** A feed in which the publish date of a nightly build has whole
    seconds: no dot before the [Z]. *)
Definition whole_second_builds : feed_package :=
  mkfp "azure-widget"
       [ mkfv "3.2.0a20230601001" "2023-06-01T04:23:11.6930000Z";
         mkfv "3.2.0a20230602001" "2023-06-02T04:31:07Z" ].

Definition whole_second_world : World :=
  Scenario.world Scenario.june15 [Scenario.released "azure-widget" "3.1.0"]
                 Scenario.not_found [whole_second_builds] Scenario.no_entity
                 (fun _ _ => Scenario.prints "") Scenario.no_json.

(** The catalog of the two-round scenario without the packages of the
    conflict table. *)
Definition tableless_world : World :=
  Scenario.world Scenario.june15 [Scenario.released "azure-widget" "3.1.0"]
                 Scenario.not_found Scenario.main_feed Scenario.no_entity
                 (Scenario.processes Scenario.main_manifests Scenario.main_checks)
                 Scenario.decode.

(** A call of [score_package] on [azure-core], in the work set of the
    released catalog. *)
Definition core_scoring : result (dict.t details * list (string * entity)) * trace :=
  helpers.score_package Scenario.released_world "azure-core"
                        (Scenario.work_set Scenario.released_world) [] [].

Definition scored_set : dict.t details :=
  match fst core_scoring with
  | Ok (packages_to_score, _) => packages_to_score
  | Raise _ => []
  end.

Definition scored_entities : list (string * entity) :=
  match fst core_scoring with
  | Ok (_, entities) => entities
  | Raise _ => []
  end.

(** A report whose fraction has more digits than the score keeps. *)
Definition fine_report : json :=
  JObj [("typeCompleteness",
         JObj [("pyTypedPath", JStr "azure/widget/py.typed");
               ("completenessScore", JNum (PyFloat 0.87346))])].

Definition fine_world : World :=
  Scenario.world Scenario.june15 [] Scenario.not_found [] Scenario.no_entity
                 (Scenario.processes Scenario.manifests Scenario.checks)
                 (fun _ => Some fine_report).

(** A [str.lower] that knows one letter outside ASCII: the Kelvin sign
    U+212A, three bytes in UTF-8, whose lower case is the letter k. *)
Definition is_kelvin (a b c : ascii) : bool :=
  (nat_of_ascii a =? 226)%nat && (nat_of_ascii b =? 132)%nat && (nat_of_ascii c =? 170)%nat.

Fixpoint kelvin_lower (s : string) : string :=
  match s with
  | EmptyString => EmptyString
  | String a t =>
      match t with
      | String b (String c t') =>
          if is_kelvin a b c then String "k" (kelvin_lower t')
          else String (Scenario.lower_char a) (kelvin_lower t)
      | _ => String (Scenario.lower_char a) (kelvin_lower t)
      end
  end.

Definition kelvin : string :=
  String (ascii_of_nat 226) (String (ascii_of_nat 132) (String (ascii_of_nat 170) "")).

(** A configuration that writes the key of the samples check with the
    Kelvin sign. *)
Definition kelvin_toml : string :=
  "[tool.azure-sdk-build]" ++ Scenario.newline ++
  "type_chec" ++ kelvin ++ "_samples = false" ++ Scenario.newline.

Definition kelvin_world : World :=
  mkWorld "python" Scenario.june15 [] [] [] [] [] [] []
          Scenario.version Scenario.parse_version Scenario.version_greater Scenario.v_text
          [] (fun _ => mkresponse 200 kelvin_toml) [] Scenario.no_entity
          (fun _ _ => Scenario.prints "") Scenario.no_json
          kelvin_lower Scenario.float_text Scenario.read_moment.

Definition ascii_kelvin_world : World :=
  Scenario.world Scenario.june15 [] (fun _ => mkresponse 200 kelvin_toml) []
                 Scenario.no_entity (fun _ _ => Scenario.prints "") Scenario.no_json.

End More.

(** * Properties *)

(** ** The previous-month partition key *)

Lemma new_date_ok (y m d : Z) :
  datetime.valid_ymd y m d = true ->
  datetime.new_date y m d = Ok (datetime.mkdate y m d).
Proof. unfold datetime.new_date. intros ->. reflexivity. Qed.

Lemma new_date_raises (y m d : Z) :
  datetime.valid_ymd y m d = false ->
  datetime.new_date y m d = Raise ValueError.
Proof. unfold datetime.new_date. intros ->. reflexivity. Qed.

Lemma valid_fields (today : datetime.t) :
  datetime.valid today = true ->
  1 <= datetime.year today <= 9999 /\ 1 <= datetime.month today <= 12
  /\ 1 <= datetime.day today.
Proof.
  unfold datetime.valid, datetime.valid_ymd, datetime.MINYEAR, datetime.MAXYEAR.
  intros H. repeat (apply andb_true_iff in H; destruct H as [H ?]). lia.
Qed.

(** [get_last_month] on an existing [datetime], by the length of the
    previous month. *)
Lemma get_last_month_outcome (today : datetime.t) :
  datetime.valid today = true ->
  let y := if datetime.month today =? 1 then datetime.year today - 1 else datetime.year today in
  let m := if datetime.month today =? 1 then 12 else datetime.month today - 1 in
  (datetime.days_in_month y m < datetime.day today \/ y < 1 ->
   helpers.get_last_month today = Raise ValueError)
  /\ (datetime.day today <= datetime.days_in_month y m -> 1 <= y ->
      helpers.get_last_month today
      = Ok (datetime.str (datetime.mkdate y m (datetime.day today)))).
Proof.
  intros Hv y m. destruct (valid_fields today Hv) as (Hy & Hm & Hd).
  assert (E : helpers.get_last_month today
              = match datetime.new_date y m (datetime.day today) with
                | Ok last_month => Ok (datetime.str last_month)
                | Raise e => Raise e
                end).
  { unfold helpers.get_last_month, y, m.
    destruct (Z.eqb_spec (datetime.month today) 1) as [E1 | E1].
    - rewrite E1. reflexivity.
    - destruct (Z.eqb_spec (datetime.month today - 1) 0); [lia | reflexivity]. }
  assert (Hm' : 1 <= m <= 12).
  { unfold m. destruct (Z.eqb_spec (datetime.month today) 1); lia. }
  assert (Hy' : y <= 9999).
  { unfold y. destruct (Z.eqb_spec (datetime.month today) 1); lia. }
  rewrite E. split.
  - intros Hbad. rewrite new_date_raises; [reflexivity |].
    unfold datetime.valid_ymd, datetime.MINYEAR, datetime.MAXYEAR.
    destruct Hbad as [Hbad | Hbad].
    + replace (datetime.day today <=? datetime.days_in_month y m) with false
        by (symmetry; apply Z.leb_gt; lia).
      apply andb_false_r.
    + replace (1 <=? y) with false by (symmetry; apply Z.leb_gt; lia).
      reflexivity.
  - intros Hday Hyear. rewrite new_date_ok; [reflexivity |].
    unfold datetime.valid_ymd, datetime.MINYEAR, datetime.MAXYEAR.
    repeat (apply andb_true_iff; split); apply Z.leb_le; lia.
Qed.

(** The dates on which [get_last_month] raises, from year 2 on: 30 and
    31 March, 29 March of a year that is not a leap year, and the 31st of
    May, July, October and December. *)
Lemma get_last_month_failing_dates (today : datetime.t) :
  datetime.valid today = true -> 2 <= datetime.year today ->
  helpers.get_last_month today = Raise ValueError
  <-> (datetime.month today = 3
       /\ (30 <= datetime.day today
           \/ (datetime.day today = 29 /\ datetime.is_leap (datetime.year today) = false)))
      \/ (datetime.day today = 31
          /\ (datetime.month today = 5 \/ datetime.month today = 7
              \/ datetime.month today = 10 \/ datetime.month today = 12)).
Proof.
  intros Hv Hy2.
  destruct (get_last_month_outcome today Hv) as [Hraise Hok].
  destruct (valid_fields today Hv) as (Hy & Hm & Hd).
  assert (Hlen : datetime.day today
                 <= datetime.days_in_month (datetime.year today) (datetime.month today)).
  { unfold datetime.valid, datetime.valid_ymd in Hv.
    do 8 (apply andb_true_iff in Hv; destruct Hv as [Hv _]).
    apply andb_true_iff in Hv. destruct Hv as [_ Hv]. apply Z.leb_le. exact Hv. }
  assert (Hmonth : datetime.month today = 1 \/ datetime.month today = 2
                   \/ datetime.month today = 3 \/ datetime.month today = 4
                   \/ datetime.month today = 5 \/ datetime.month today = 6
                   \/ datetime.month today = 7 \/ datetime.month today = 8
                   \/ datetime.month today = 9 \/ datetime.month today = 10
                   \/ datetime.month today = 11 \/ datetime.month today = 12) by lia.
  split.
  - intros Hfail.
    destruct (Z_le_gt_dec (datetime.day today)
                (datetime.days_in_month
                   (if datetime.month today =? 1
                    then datetime.year today - 1 else datetime.year today)
                   (if datetime.month today =? 1 then 12 else datetime.month today - 1)))
      as [Hle | Hgt].
    + rewrite Hok in Hfail; [discriminate | exact Hle |].
      destruct (datetime.month today =? 1); lia.
    + revert Hgt Hlen. unfold datetime.days_in_month.
      destruct Hmonth as [E | [E | [E | [E | [E | [E | [E | [E | [E | [E | [E | E]]]]]]]]]]];
        rewrite E; simpl;
        destruct (datetime.is_leap (datetime.year today)); intros Hgt Hlen; lia.
  - intros Hdate. apply Hraise. left. unfold datetime.days_in_month.
    destruct Hdate as [[E Hday] | [Hday [E | [E | [E | E]]]]]; rewrite E; simpl; try lia.
    destruct Hday as [Hday | [Hday Hleap]]; [| rewrite Hleap; lia].
    destruct (datetime.is_leap (datetime.year today)); lia.
Qed.

(** C10, as the code has it: on an existing [datetime], [get_last_month]
    raises [ValueError] when the day of the month is beyond the length of
    the previous month, or when the previous month falls before year 1;
    otherwise it returns the ISO text of the same day in the previous
    month, the year being one less when the month is January. *)
Theorem get_last_month_partial (today : datetime.t) :
  datetime.valid today = true ->
  let y := if datetime.month today =? 1 then datetime.year today - 1 else datetime.year today in
  let m := if datetime.month today =? 1 then 12 else datetime.month today - 1 in
  (datetime.days_in_month y m < datetime.day today \/ y < 1 ->
   helpers.get_last_month today = Raise ValueError)
  /\ (datetime.day today <= datetime.days_in_month y m -> 1 <= y ->
      helpers.get_last_month today
      = Ok (datetime.str (datetime.mkdate y m (datetime.day today)))).
Proof. intros Hv. apply get_last_month_outcome. exact Hv. Qed.

(** Witness of [get_last_month_partial]: 15 June 2023 gives 15 May 2023. *)
Lemma get_last_month_partial_witness :
  helpers.get_last_month Scenario.june15 = Ok "2023-05-15".
Proof.
  exact (proj2 (get_last_month_partial Scenario.june15 eq_refl)
           ltac:(vm_compute; discriminate) ltac:(vm_compute; discriminate)).
Defined.

(** C10, where the description fails: 29 March of a leap year and 31
    August are among the dates the description lists as failing, and both
    have a counterpart in the previous month, which [get_last_month]
    returns; and 15 January of year 1 is not among them, its day exists in
    December, and [get_last_month] raises. *)
Lemma get_last_month_listed_dates :
  let leap_march := datetime.mk 2024 3 29 8 18 32 486215 in
  let august := datetime.mk 2023 8 31 8 18 32 486215 in
  let first_january := datetime.mk 1 1 15 8 18 32 486215 in
  (datetime.valid leap_march = true
   /\ Design.listed_without_counterpart leap_march = true
   /\ helpers.get_last_month leap_march = Ok "2024-02-29")
  /\ (datetime.valid august = true
      /\ Design.listed_without_counterpart august = true
      /\ helpers.get_last_month august = Ok "2023-07-31")
  /\ (datetime.valid first_january = true
      /\ Design.listed_without_counterpart first_january = false
      /\ datetime.day first_january <= datetime.days_in_month 0 12
      /\ helpers.get_last_month first_january = Raise ValueError).
Proof. vm_compute. repeat split; discriminate. Qed.

(** January of year 1 has no previous month in the calendar of
    [datetime.date]. *)
Example get_last_month_first_january :
  helpers.get_last_month (datetime.mk 1 1 15 0 0 0 0) = Raise ValueError.
Proof. reflexivity. Qed.

Example get_last_month_march_31 :
  helpers.get_last_month (datetime.mk 2023 3 31 8 18 32 486215) = Raise ValueError.
Proof. reflexivity. Qed.

Example get_last_month_january :
  helpers.get_last_month (datetime.mk 2024 1 31 8 18 32 486215) = Ok "2023-12-31".
Proof. reflexivity. Qed.

(** ** Substrings *)

(** A string that has [sub] at the head of one of its suffixes contains
    [sub]. *)
Lemma find_at_suffix (sub t pre : string) (i : Z) :
  0 <= i -> prefix sub t = true -> 0 <= find_at sub (pre ++ t)%string i.
Proof.
  revert i. induction pre as [| c pre IH]; intros i Hi Hp.
  - change ("" ++ t)%string with t. destruct t; cbn [find_at]; rewrite Hp; exact Hi.
  - change (String c pre ++ t)%string with (String c (pre ++ t)). cbn [find_at].
    destruct (prefix sub (String c (pre ++ t))); [exact Hi |].
    apply IH; [lia | exact Hp].
Qed.

Lemma contains_suffix (sub t pre : string) :
  prefix sub t = true -> (find (pre ++ t)%string sub =? -1) = false.
Proof.
  intros Hp. apply Z.eqb_neq. unfold find.
  pose proof (find_at_suffix sub t pre 0 (Z.le_refl 0) Hp). lia.
Qed.

Lemma lstrip_suffix (s : string) : exists pre, s = (pre ++ Design.lstrip s)%string.
Proof.
  induction s as [| c t [pre IH]]; simpl.
  - exists "". reflexivity.
  - destruct (Design.is_blank c).
    + exists (String c pre). simpl. rewrite <- IH. reflexivity.
    + exists "". reflexivity.
Qed.

Lemma drop_suffix (n : nat) (s : string) : exists pre, s = (pre ++ Design.drop n s)%string.
Proof.
  revert s. induction n as [| n IH]; intros s.
  - exists "". destruct s; reflexivity.
  - destruct s as [| c t]; [exists ""; reflexivity |].
    destruct (IH t) as [pre E]. exists (String c pre). simpl. rewrite <- E. reflexivity.
Qed.

Lemma append_assoc (a b c : string) : ((a ++ b) ++ c = a ++ (b ++ c))%string.
Proof. induction a as [| x a IH]; simpl; [reflexivity | rewrite IH; reflexivity]. Qed.

Lemma prefix_append (sub p r : string) : prefix sub p = true -> prefix sub (p ++ r) = true.
Proof.
  revert p. induction sub as [| c sub IH]; intros p Hp;
    [destruct (p ++ r)%string; reflexivity |].
  destruct p as [| x p]; simpl in *; [discriminate |].
  destruct (ascii_dec c x); [apply IH; exact Hp | discriminate].
Qed.

Lemma prefix_refl (s : string) : prefix s s = true.
Proof.
  induction s as [| c s IH]; simpl; [reflexivity |].
  destruct (ascii_dec c c); [exact IH | contradiction].
Qed.

Lemma prefix_split (sub s : string) :
  prefix sub s = true -> exists after, s = (sub ++ after)%string.
Proof.
  revert s. induction sub as [| c sub IH]; intros s H; [exists s; reflexivity |].
  destruct s as [| x s]; simpl in H; [discriminate |].
  destruct (ascii_dec c x) as [-> | _]; [| discriminate].
  destruct (IH s H) as [after ->]. exists after. reflexivity.
Qed.

(** [s.find(sub) != -1] says that [sub] occurs in [s]. *)
Lemma find_at_occurs (sub s : string) (i : Z) :
  find_at sub s i <> -1 -> Design.occurs sub s.
Proof.
  revert i. induction s as [| c t IH]; intros i; cbn [find_at].
  - destruct (prefix sub "") eqn:Hp; [| intros H; contradiction].
    intros _. destruct (prefix_split _ _ Hp) as [after E]. exists "", after. exact E.
  - destruct (prefix sub (String c t)) eqn:Hp.
    + intros _. destruct (prefix_split _ _ Hp) as [after E]. exists "", after. exact E.
    + intros H. destruct (IH _ H) as (before & after & E).
      exists (String c before), after. rewrite E. reflexivity.
Qed.

Lemma find_occurs (sub s : string) :
  negb (find s sub =? -1) = true <-> Design.occurs sub s.
Proof.
  rewrite negb_true_iff. split.
  - intros H. apply Z.eqb_neq in H. apply (find_at_occurs sub s 0 H).
  - intros (before & after & ->). apply contains_suffix.
    apply prefix_append, prefix_refl.
Qed.

(** ** The check flags of a package *)

(** The test of the loop of [is_check_enabled] holds of the lines that
    name both the key and the word false. *)
Lemma mentions_false_names_both (w : World) (key line : string) :
  helpers.mentions_false w key line = true <-> Design.names_both w key line.
Proof.
  unfold helpers.mentions_false, Design.names_both.
  rewrite andb_true_iff, !find_occurs. reflexivity.
Qed.

(** A line that explicitly sets a key to false passes the test of the
    loop of [is_check_enabled] for that key. *)
Lemma sets_false_mentions_false (w : World) (key line : string) :
  Design.sets_false w key line = true -> helpers.mentions_false w key line = true.
Proof.
  unfold Design.sets_false, helpers.mentions_false.
  destruct (lstrip_suffix (str_lower w line)) as [p1 E1].
  set (s := Design.lstrip (str_lower w line)) in *.
  destruct (prefix key s) eqn:Hkey; [| discriminate].
  destruct (drop_suffix (String.length key) s) as [p2 E2].
  set (s2 := Design.drop (String.length key) s) in *.
  destruct (lstrip_suffix s2) as [p3 E3].
  destruct (Design.lstrip s2) as [| c t]; [discriminate |].
  destruct c as [[] [] [] [] [] [] [] []]; try discriminate.
  destruct (lstrip_suffix t) as [p4 E4].
  intros Hfalse. apply andb_true_iff. split; apply negb_true_iff.
  - rewrite E1. apply contains_suffix. exact Hkey.
  - assert (E : str_lower w line
                = ((p1 ++ p2 ++ p3 ++ "=" ++ p4) ++ Design.lstrip t)%string).
    { rewrite E1, E2, E3. rewrite E4 at 1.
      rewrite !append_assoc. simpl. reflexivity. }
    rewrite E. apply contains_suffix. exact Hfalse.
Qed.

Lemma explicitly_false_mentions_false (w : World) (key toml : string) :
  Design.explicitly_false w key toml = true ->
  existsb (helpers.mentions_false w key) (split_newline toml) = true.
Proof.
  unfold Design.explicitly_false. intros H.
  apply existsb_exists in H. destruct H as (line & Hin & Hset).
  apply existsb_exists. exists line. split; [exact Hin |].
  apply sets_false_mentions_false. exact Hset.
Qed.

(** The loop of [is_check_enabled] switches a flag off at the first line
    that passes the test and never switches it on again. *)
Lemma scan_lines_flags (w : World) (lines : list string) (c : TypingCheck) :
  let r := fold_left (helpers.scan_line w) lines c in
  mypy r = mypy c && negb (existsb (helpers.mentions_false w "mypy") lines)
  /\ pyright r = pyright c && negb (existsb (helpers.mentions_false w "pyright") lines)
  /\ type_check_samples r
     = type_check_samples c
       && negb (existsb (helpers.mentions_false w "type_check_samples") lines)
  /\ verifytypes r
     = verifytypes c && negb (existsb (helpers.mentions_false w "verifytypes") lines).
Proof.
  revert c. induction lines as [| line lines IH]; intros c; simpl.
  - rewrite !andb_true_r. repeat split.
  - destruct (IH (helpers.scan_line w c line)) as (H1 & H2 & H3 & H4).
    rewrite H1, H2, H3, H4. unfold helpers.scan_line. simpl.
    destruct (helpers.mentions_false w "mypy" line),
             (helpers.mentions_false w "pyright" line),
             (helpers.mentions_false w "type_check_samples" line),
             (helpers.mentions_false w "verifytypes" line);
      simpl; rewrite ?andb_false_r; repeat split; reflexivity.
Qed.

(** A flag that the loop has computed is off exactly when some line
    names both its key and the word false. *)
Lemma flag_off (w : World) (key toml : string) (flag : bool) :
  flag = negb (existsb (helpers.mentions_false w key) (split_newline toml)) ->
  flag = false <-> Design.named_with_false w key toml.
Proof.
  intros ->. rewrite negb_false_iff, existsb_exists. unfold Design.named_with_false.
  split; intros (line & Hin & H); exists line; (split; [exact Hin |]);
    apply mentions_false_names_both; exact H.
Qed.

(** C6, as the code has it: a configuration that is not found leaves the
    four checks enabled; otherwise a check is disabled exactly when some
    line of the answer, in lower case, contains both the name of its key
    and the word false, each somewhere in the line; this is the case
    whenever a line explicitly sets the key to false. *)
Theorem is_check_enabled_flags (w : World) (package_path : string) :
  let response := requests_get w (helpers.toml_path package_path) in
  let checks := helpers.is_check_enabled w package_path in
  (status_code response = 404 -> checks = mkTypingCheck true true true true)
  /\ (status_code response <> 404 ->
      (mypy checks = false <-> Design.named_with_false w "mypy" (text response))
      /\ (pyright checks = false <-> Design.named_with_false w "pyright" (text response))
      /\ (type_check_samples checks = false
          <-> Design.named_with_false w "type_check_samples" (text response))
      /\ (verifytypes checks = false
          <-> Design.named_with_false w "verifytypes" (text response))
      /\ (Design.explicitly_false w "mypy" (text response) = true -> mypy checks = false)
      /\ (Design.explicitly_false w "pyright" (text response) = true ->
          pyright checks = false)
      /\ (Design.explicitly_false w "type_check_samples" (text response) = true ->
          type_check_samples checks = false)
      /\ (Design.explicitly_false w "verifytypes" (text response) = true ->
          verifytypes checks = false)).
Proof.
  intros response checks. unfold checks, helpers.is_check_enabled.
  fold response. split.
  - intros ->. reflexivity.
  - intros Hne. apply Z.eqb_neq in Hne. rewrite Hne.
    destruct (scan_lines_flags w (split_newline (text response))
                (mkTypingCheck true true true true)) as (H1 & H2 & H3 & H4).
    simpl in H1, H2, H3, H4.
    split; [apply flag_off; exact H1 |]. split; [apply flag_off; exact H2 |].
    split; [apply flag_off; exact H3 |]. split; [apply flag_off; exact H4 |].
    rewrite H1, H2, H3, H4.
    repeat split; intros H; apply explicitly_false_mentions_false in H;
      rewrite H; reflexivity.
Qed.

(** C6, the counterexample: the configuration sets [mypy] to true and has
    the word false in a comment of that line; [mypy] comes out disabled
    although no line sets it to false, and the three checks that the
    line does not name stay enabled. *)
Lemma is_check_enabled_comment :
  status_code (requests_get Scenario.commented_world (helpers.toml_path "core/azure-core"))
  = 200
  /\ Design.explicitly_false Scenario.commented_world "mypy" Scenario.commented_toml = false
  /\ helpers.is_check_enabled Scenario.commented_world "core/azure-core"
     = mkTypingCheck false true true true.
Proof. vm_compute. repeat split. Qed.

Example is_check_enabled_opt_out :
  helpers.is_check_enabled Scenario.opt_out_world "core/azure-core"
  = mkTypingCheck true false true false.
Proof. vm_compute. reflexivity. Qed.

Example is_check_enabled_not_found :
  helpers.is_check_enabled Scenario.no_init_world "core/azure-core"
  = mkTypingCheck true true true true.
Proof. vm_compute. reflexivity. Qed.

(** The lower case is that of the world: with the [str.lower] that maps
    the Kelvin sign to k, a line that writes the key with that sign
    switches the check off; with a lower case of ASCII only it does
    not. *)
Example is_check_enabled_kelvin :
  helpers.is_check_enabled More.kelvin_world "core/azure-core"
  = mkTypingCheck true true false true
  /\ helpers.is_check_enabled More.ascii_kelvin_world "core/azure-core"
     = mkTypingCheck true true true true.
Proof. vm_compute. split; reflexivity. Qed.

(** ** Resolving the module of a package *)

Lemma module_substring_none (lines : list string) :
  (forall line, In line lines -> find line "__init__.py" = -1) ->
  helpers.module_substring lines = None.
Proof.
  induction lines as [| line rest IH]; intros H; [reflexivity |].
  cbn [helpers.module_substring].
  rewrite (H line (or_introl eq_refl)). simpl negb. cbv iota.
  apply IH. intros l Hl. apply H. right. exact Hl.
Qed.

(** When [pip show -f] succeeds and none of its lines mentions an
    initializer, [get_module] of helpers.py reads the variable
    [substring] that its loop never assigned. *)
Lemma get_module_unbound (w : World) (package : string) (tr : trace) :
  let shown := subprocess w tr (pip_show w package) in
  returncode shown = 0 ->
  (forall line, In line (splitlines (stdout shown)) -> find line "__init__.py" = -1) ->
  helpers.get_module w package tr
  = (Raise (UnboundLocalError "substring"), (tr ++ [Exec (pip_show w package)])%list).
Proof.
  intros shown Hrc Hlines.
  unfold helpers.get_module, bind, subprocess_run, checked. fold shown.
  rewrite Hrc. simpl. rewrite (module_substring_none _ Hlines). reflexivity.
Qed.

(** When [pip show -f] succeeds, [get_module] of function_app.py returns
    a module name, whatever the output is. *)
Lemma get_module_always_returns (w : World) (package : string) (tr : trace) :
  returncode (subprocess w tr (pip_show w package)) = 0 ->
  exists module,
    function_app.get_module w package tr
    = (Ok module, (tr ++ [Exec (pip_show w package)])%list).
Proof.
  intros Hrc. unfold function_app.get_module, bind, subprocess_run, checked.
  rewrite Hrc. simpl. eexists. reflexivity.
Qed.

(** C7, at a package whose manifest has no initializer file:
    [get_module] of helpers.py fails on its unassigned variable, and
    [get_module] of function_app.py returns a name cut out of the last
    file of the manifest. *)
Theorem get_module_without_initializer :
  helpers.get_module Scenario.no_init_world "azure-foo" []
  = (Raise (UnboundLocalError "substring"),
     [Exec ["python"; "-m"; "pip"; "show"; "-f"; "azure-foo"]])
  /\ function_app.get_module Scenario.no_init_world "azure-foo" []
     = (Ok "azure.foo.client.p",
        [Exec ["python"; "-m"; "pip"; "show"; "-f"; "azure-foo"]]).
Proof. split; vm_compute; reflexivity. Qed.

(** ** Dictionaries *)

Lemma eqb_string_refl (k : string) : String.eqb k k = true.
Proof. apply String.eqb_eq. reflexivity. Qed.

Lemma dict_has_get {V : Type} (k : string) (d : dict.t V) :
  dict.has k d = false <-> dict.get k d = None.
Proof. unfold dict.has. destruct (dict.get k d); split; congruence. Qed.

Lemma dict_get_keys {V : Type} (k : string) (d : dict.t V) :
  dict.get k d = None <-> ~ In k (dict.keys d).
Proof.
  unfold dict.get, dict.keys. induction d as [| [k' v] d IH]; simpl.
  - tauto.
  - destruct (String.eqb_spec k k') as [-> | Hne].
    + split; [discriminate | intros H; exfalso; apply H; left; reflexivity].
    + rewrite IH. split.
      * intros H [E | Hin]; [congruence | tauto].
      * intros H Hin. apply H. right. exact Hin.
Qed.

Lemma dict_set_new {V : Type} (k : string) (v : V) (d : dict.t V) :
  dict.get k d = None -> dict.set k v d = (d ++ [(k, v)])%list.
Proof.
  unfold dict.get. induction d as [| [k' v'] d IH]; simpl; [reflexivity |].
  destruct (String.eqb k k'); [discriminate |].
  intros H. rewrite (IH H). reflexivity.
Qed.

Lemma dict_get_set {V : Type} (k : string) (v : V) (d : dict.t V) :
  dict.get k (dict.set k v d) = Some v.
Proof.
  unfold dict.get. induction d as [| [k' v'] d IH]; simpl.
  - rewrite eqb_string_refl. reflexivity.
  - destruct (String.eqb_spec k k') as [<- | Hne]; simpl.
    + rewrite eqb_string_refl. reflexivity.
    + destruct (String.eqb_spec k k'); [contradiction | exact IH].
Qed.

Lemma dict_get_set_other {V : Type} (k k' : string) (v : V) (d : dict.t V) :
  k <> k' -> dict.get k (dict.set k' v d) = dict.get k d.
Proof.
  intros Hne. unfold dict.get. induction d as [| [k0 v0] d IH]; simpl.
  - destruct (String.eqb_spec k k'); [contradiction | reflexivity].
  - destruct (String.eqb_spec k' k0) as [<- | Hne0]; simpl.
    + destruct (String.eqb_spec k k'); [contradiction | reflexivity].
    + destruct (String.eqb k k0); [reflexivity | exact IH].
Qed.

Lemma dict_keys_set {V : Type} (k : string) (v x : V) (d : dict.t V) :
  dict.get k d = Some x -> dict.keys (dict.set k v d) = dict.keys d.
Proof.
  unfold dict.get, dict.keys. induction d as [| [k' v'] d IH]; simpl; [discriminate |].
  destruct (String.eqb k k'); simpl; [reflexivity |].
  intros H. rewrite (IH H). reflexivity.
Qed.

Lemma dict_get_app_new {V : Type} (k k' : string) (v : V) (d : dict.t V) :
  dict.get k (d ++ [(k', v)])%list
  = match dict.get k d with
    | Some x => Some x
    | None => if String.eqb k k' then Some v else None
    end.
Proof.
  unfold dict.get. induction d as [| [k0 v0] d IH]; simpl; [reflexivity |].
  destruct (String.eqb k k0); [reflexivity | exact IH].
Qed.

(** ** The version of a catalog row *)

Lemma add_row_survivor (w : World) (ignored : list string) (pts : dict.t details)
    (r : row) (name : string) :
  r_Package r = Str name ->
  helpers.is_ignored_package w ignored name = false ->
  dict.has name pts = false ->
  helpers.add_row w ignored pts r
  = match helpers.latest_version w r with
    | Ok latest => Ok (pts ++ [(name, helpers.details_of_row w r latest)])%list
    | Raise e => Raise e
    end.
Proof.
  intros Hname Hign Hhas. unfold helpers.add_row. rewrite Hname, Hign, Hhas. simpl.
  destruct (helpers.latest_version w r); [| reflexivity].
  rewrite dict_set_new; [reflexivity | apply dict_has_get; exact Hhas].
Qed.

(** C4, as the code has it. For a row that enters the work set: when
    both fields are texts that parse, the stored [LatestVersion] is the
    text of the greater of the two versions (the pre-release when it is
    greater than the GA version, the GA version otherwise); when the GA
    field is a text that parses and the pre-release is a float, it is
    the GA field. When the GA field is a float, it is the pre-release
    field, whatever that is. A row enters the work set in these three
    cases only. The test for a missing field is [isinstance(..., float)]:
    it takes a GA field that pandas has read as a number, such as 2.0,
    for a missing one, and the pre-release is stored although the GA
    version is there and may be the greater. *)
Theorem latest_version_greater (w : World) (ignored : list string)
    (pts : dict.t details) (r : row) (name : string) :
  r_Package r = Str name ->
  helpers.is_ignored_package w ignored name = false ->
  dict.has name pts = false ->
  (forall ga preview vga vpreview,
      r_VersionGA r = Str ga -> r_VersionPreview r = Str preview ->
      parse w ga = Some vga -> parse w preview = Some vpreview ->
      exists d,
        helpers.add_row w ignored pts r = Ok (pts ++ [(name, d)])%list
        /\ LatestVersion d
           = Str (version_str w (if version_gt w vpreview vga then vpreview else vga)))
  /\ (forall ga vga,
         r_VersionGA r = Str ga -> is_float (r_VersionPreview r) = true ->
         parse w ga = Some vga ->
         exists d,
           helpers.add_row w ignored pts r = Ok (pts ++ [(name, d)])%list
           /\ LatestVersion d = Str ga)
  /\ (is_float (r_VersionGA r) = true ->
      exists d,
        helpers.add_row w ignored pts r = Ok (pts ++ [(name, d)])%list
        /\ LatestVersion d = r_VersionPreview r)
  /\ (forall pts',
         helpers.add_row w ignored pts r = Ok pts' ->
         (exists ga preview vga vpreview,
             r_VersionGA r = Str ga /\ r_VersionPreview r = Str preview
             /\ parse w ga = Some vga /\ parse w preview = Some vpreview)
         \/ (exists ga vga,
                r_VersionGA r = Str ga /\ parse w ga = Some vga
                /\ is_float (r_VersionPreview r) = true)
         \/ is_float (r_VersionGA r) = true).
Proof.
  intros Hname Hign Hhas.
  rewrite (add_row_survivor w ignored pts r name Hname Hign Hhas).
  unfold helpers.latest_version, helpers.parse_cell, helpers.max.
  split; [| split; [| split]].
  - intros ga preview vga vpreview -> -> -> ->. eexists. split; reflexivity.
  - intros ga vga -> Hpre ->.
    destruct (r_VersionPreview r); [discriminate | |]; eexists; split; reflexivity.
  - intros Hga.
    destruct (r_VersionGA r); [discriminate | |]; eexists; split; reflexivity.
  - intros pts'.
    destruct (r_VersionGA r) as [ga | | x]; [| right; right; reflexivity ..].
    destruct (parse w ga) as [vga |] eqn:Hga; [| discriminate].
    destruct (r_VersionPreview r) as [preview | | y].
    + destruct (parse w preview) as [vpreview |] eqn:Hpre; [| discriminate].
      intros _. left. exists ga, preview, vga, vpreview. repeat split; assumption.
    + intros _. right. left. exists ga, vga. repeat split. exact Hga.
    + intros _. right. left. exists ga, vga. repeat split. exact Hga.
Qed.

(** Witness of [latest_version_greater]: the GA version 2.0, read as a
    number, with the pre-release 1.1.0b1 gives 1.1.0b1. *)
Lemma latest_version_greater_witness :
  exists d,
    helpers.add_row Scenario.catalog_world [] []
      (mkrow (Str "widget-sdk") (Float 2) (Str "1.1.0b1") (Str "widget"))
    = Ok [("widget-sdk", d)]
    /\ LatestVersion d = Str "1.1.0b1".
Proof.
  exact (proj1 (proj2 (proj2 (latest_version_greater Scenario.catalog_world [] []
                                (mkrow (Str "widget-sdk") (Float 2) (Str "1.1.0b1")
                                       (Str "widget"))
                                "widget-sdk" eq_refl eq_refl eq_refl)))
           eq_refl).
Defined.

(** The same versions, read as texts. *)
Example latest_version_text_ga :
  helpers.latest_version Scenario.catalog_world
    (mkrow (Str "widget-sdk") (Str "2.0") (Str "1.1.0b1") (Str "widget"))
  = Ok (Str "2.0").
Proof. vm_compute. reflexivity. Qed.

(** A GA version read as a number, without a pre-release: NaN is
    stored. *)
Example latest_version_float_ga_only :
  helpers.latest_version Scenario.catalog_world
    (mkrow (Str "widget-sdk") (Float 2) NaN (Str "widget"))
  = Ok NaN.
Proof. vm_compute. reflexivity. Qed.

Example latest_version_ga_only :
  helpers.latest_version Scenario.catalog_world
    (mkrow (Str "widget-sdk") (Str "1.2.0") NaN (Str "widget"))
  = Ok (Str "1.2.0").
Proof. vm_compute. reflexivity. Qed.

Example latest_version_prerelease :
  helpers.latest_version Scenario.catalog_world
    (mkrow (Str "gadget-sdk") (Str "1.0.0") (Str "2.0.0a1") (Str "gadget"))
  = Ok (Str "2.0.0a1").
Proof. vm_compute. reflexivity. Qed.

Example latest_version_older_prerelease :
  helpers.latest_version Scenario.catalog_world
    (mkrow (Str "gadget-sdk") (Str "1.10.0") (Str "1.9.0b3") (Str "gadget"))
  = Ok (Str "1.10.0").
Proof. vm_compute. reflexivity. Qed.

Example latest_version_both_missing :
  helpers.latest_version Scenario.catalog_world
    (mkrow (Str "gadget-sdk") NaN NaN (Str "gadget"))
  = Ok NaN.
Proof. vm_compute. reflexivity. Qed.

(** ** The work set *)

(** A turn of the loop of [get_packages_to_score] leaves the work set as
    it is, or adds one new name at its end. *)
Lemma add_row_cases (w : World) (ignored : list string) (pts pts' : dict.t details)
    (r : row) :
  helpers.add_row w ignored pts r = Ok pts' ->
  (pts' = pts
   /\ (is_float (r_Package r) = true
       \/ exists name, r_Package r = Str name
                       /\ (helpers.is_ignored_package w ignored name = true
                           \/ dict.has name pts = true)))
  \/ (exists name latest,
         r_Package r = Str name
         /\ helpers.is_ignored_package w ignored name = false
         /\ dict.has name pts = false
         /\ helpers.latest_version w r = Ok latest
         /\ pts' = (pts ++ [(name, helpers.details_of_row w r latest)])%list).
Proof.
  unfold helpers.add_row. destruct (r_Package r) as [name | | x] eqn:Hname.
  - destruct (helpers.is_ignored_package w ignored name) eqn:Hign; simpl.
    + intros [= <-]. left. split; [reflexivity |]. right. exists name. tauto.
    + destruct (dict.has name pts) eqn:Hhas.
      * intros [= <-]. left. split; [reflexivity |]. right. exists name. tauto.
      * destruct (helpers.latest_version w r) as [latest | e]; [| discriminate].
        intros [= <-]. right. exists name, latest.
        rewrite dict_set_new by (apply dict_has_get; exact Hhas). tauto.
  - intros [= <-]. left. tauto.
  - intros [= <-]. left. tauto.
Qed.

Lemma keys_app {V : Type} (d : dict.t V) (k : string) (v : V) :
  dict.keys (d ++ [(k, v)])%list = (dict.keys d ++ [k])%list.
Proof. unfold dict.keys. rewrite map_app. reflexivity. Qed.

Lemma NoDup_snoc (l : list string) (k : string) :
  NoDup l -> ~ In k l -> NoDup (l ++ [k])%list.
Proof.
  intros Hl Hk. induction Hl as [| x l Hx Hl IH]; simpl.
  - constructor; [intros [] | constructor].
  - constructor.
    + rewrite in_app_iff. intros [H | [H | []]]; [tauto |].
      subst. apply Hk. left. reflexivity.
    + apply IH. intros H. apply Hk. right. exact H.
Qed.

Lemma add_rows_NoDup (w : World) (ignored : list string) (rows : list row) :
  forall pts pts',
    NoDup (dict.keys pts) ->
    helpers.add_rows w ignored rows pts = Ok pts' ->
    NoDup (dict.keys pts').
Proof.
  induction rows as [| r rows IH]; intros pts pts' Hnd; simpl.
  - intros [= <-]. exact Hnd.
  - destruct (helpers.add_row w ignored pts r) as [pts1 |] eqn:Hrow; [| discriminate].
    intros Hrows. apply (IH pts1 pts'); [| exact Hrows].
    destruct (add_row_cases _ _ _ _ _ Hrow)
      as [[-> _] | (name & latest & _ & _ & Hhas & _ & ->)]; [exact Hnd |].
    rewrite keys_app. apply NoDup_snoc; [exact Hnd |].
    apply dict_get_keys, dict_has_get. exact Hhas.
Qed.

(** The names of the work set are the names of the rows that are strings
    and are not ignored. *)
Lemma add_rows_keys (w : World) (ignored : list string) (rows : list row) :
  forall pts pts',
    helpers.add_rows w ignored rows pts = Ok pts' ->
    forall name,
      In name (dict.keys pts')
      <-> In name (dict.keys pts)
          \/ ((exists r, In r rows /\ r_Package r = Str name)
              /\ helpers.is_ignored_package w ignored name = false).
Proof.
  induction rows as [| r rows IH]; intros pts pts'; simpl.
  - intros [= <-] name. split; [tauto |].
    intros [H | [[r' [[] _]] _]]. exact H.
  - destruct (helpers.add_row w ignored pts r) as [pts1 |] eqn:Hrow; [| discriminate].
    intros Hrows name. rewrite (IH pts1 pts' Hrows name).
    destruct (add_row_cases _ _ _ _ _ Hrow)
      as [[-> Hwhy] | (n & latest & Hn & Hign & Hhas & _ & ->)].
    + split.
      * intros [H | [[r' [Hin Hr']] Hi]]; [tauto |].
        right. split; [exists r'; tauto | exact Hi].
      * intros [H | [[r' [[<- | Hin] Hr']] Hi]]; [tauto | | right; split; [eauto | exact Hi]].
        destruct Hwhy as [Hnan | (n & Hn & [Hign | Hhas])];
          [rewrite Hr' in Hnan; discriminate | |].
        -- assert (n = name) by congruence. subst. congruence.
        -- assert (n = name) by congruence. subst. left.
           destruct (in_dec string_dec name (dict.keys pts)) as [Hin | Hnot]; [exact Hin |].
           apply dict_get_keys, dict_has_get in Hnot. congruence.
    + rewrite keys_app, in_app_iff. simpl. split.
      * intros [[H | [<- | []]] | [[r' [Hin Hr']] Hi]].
        -- tauto.
        -- right. split; [exists r; tauto | exact Hign].
        -- right. split; [exists r'; tauto | exact Hi].
      * intros [H | [[r' [[<- | Hin] Hr']] Hi]].
        -- tauto.
        -- assert (n = name) by congruence. subst. tauto.
        -- right. split; [eauto | exact Hi].
Qed.

(** An entry of the work set is never replaced by a later row. *)
Lemma add_rows_keeps (w : World) (ignored : list string) (rows : list row) :
  forall pts pts' name d,
    helpers.add_rows w ignored rows pts = Ok pts' ->
    dict.get name pts = Some d ->
    dict.get name pts' = Some d.
Proof.
  induction rows as [| r rows IH]; intros pts pts' name d; simpl.
  - intros [= <-] H. exact H.
  - destruct (helpers.add_row w ignored pts r) as [pts1 |] eqn:Hrow; [| discriminate].
    intros Hrows Hget. apply (IH pts1 pts' name d Hrows).
    destruct (add_row_cases _ _ _ _ _ Hrow)
      as [[-> _] | (n & latest & _ & _ & _ & _ & ->)]; [exact Hget |].
    rewrite dict_get_app_new, Hget. reflexivity.
Qed.

(** The entry of a name is built from the first row that bears it. *)
Lemma add_rows_first (w : World) (ignored : list string) (before : list row) :
  forall pts pts' r after name,
    helpers.add_rows w ignored (before ++ r :: after) pts = Ok pts' ->
    r_Package r = Str name ->
    (forall r', In r' before -> r_Package r' <> Str name) ->
    helpers.is_ignored_package w ignored name = false ->
    dict.has name pts = false ->
    exists latest,
      helpers.latest_version w r = Ok latest
      /\ dict.get name pts' = Some (helpers.details_of_row w r latest).
Proof.
  induction before as [| r0 before IH]; intros pts pts' r after name; simpl.
  - intros Hrows Hname _ Hign Hhas.
    rewrite (add_row_survivor w ignored pts r name Hname Hign Hhas) in Hrows.
    destruct (helpers.latest_version w r) as [latest | e]; [| discriminate].
    exists latest. split; [reflexivity |].
    apply (add_rows_keeps _ _ _ _ _ _ _ Hrows).
    rewrite dict_get_app_new.
    apply dict_has_get in Hhas. rewrite Hhas, eqb_string_refl. reflexivity.
  - destruct (helpers.add_row w ignored pts r0) as [pts1 |] eqn:Hrow; [| discriminate].
    intros Hrows Hname Hfirst Hign Hhas.
    apply (IH pts1 pts' r after name Hrows Hname); [| exact Hign |].
    + intros r' Hin. apply Hfirst. right. exact Hin.
    + destruct (add_row_cases _ _ _ _ _ Hrow)
        as [[-> _] | (n & latest & Hn & _ & _ & _ & ->)]; [exact Hhas |].
      apply dict_has_get. rewrite dict_get_app_new.
      apply dict_has_get in Hhas. rewrite Hhas.
      destruct (String.eqb_spec name n) as [-> | Hne]; [| reflexivity].
      exfalso. apply (Hfirst r0 (or_introl eq_refl)). exact Hn.
Qed.

(** ** Scoring a package *)

Lemma bind_run {A B : Type} (m : M A) (k : A -> M B) (tr : trace) :
  bind m k tr
  = match m tr with
    | (Ok a, tr1) => k a tr1
    | (Raise e, tr1) => (Raise e, tr1)
    end.
Proof. reflexivity. Qed.


Lemma get_module_trace (w : World) (package : string) (tr tr' : trace) (r : result string) :
  helpers.get_module w package tr = (r, tr') ->
  tr' = (tr ++ [Exec (pip_show w package)])%list.
Proof.
  unfold helpers.get_module, bind, subprocess_run, lift, ret.
  destruct (checked _); [| intros [= _ <-]; reflexivity].
  destruct (local _ _); intros [= _ <-]; reflexivity.
Qed.

(** [score_package], one call at a time. *)
Lemma score_package_steps (w : World) (package : string) (pts : dict.t details)
    (ents : list (string * entity)) (tr : trace) :
  helpers.score_package w package pts ents tr
  = match helpers.get_module w package tr with
    | (Ok module, tr1) =>
        let outcome := checked (subprocess w tr1 (pyright_verifytypes w module)) in
        (let? report := helpers.verifytypes_report w None outcome in
         helpers.record_score package report pts ents,
         (tr1 ++ [Exec (pyright_verifytypes w module)])%list)
    | (Raise e, tr1) => (Raise e, tr1)
    end.
Proof.
  unfold helpers.score_package, bind at 1.
  destruct (helpers.get_module w package tr) as [[module | e] tr1]; reflexivity.
Qed.

(** What [score_package] does after the checker has run, by exit
    status. *)
Lemma score_package_after_check (w : World) (package module : string)
    (pts : dict.t details) (ents : list (string * entity)) (tr tr1 : trace) :
  helpers.get_module w package tr = (Ok module, tr1) ->
  let finished := subprocess w tr1 (pyright_verifytypes w module) in
  let tr2 := (tr1 ++ [Exec (pyright_verifytypes w module)])%list in
  (returncode finished = 0 \/ returncode finished = 1 ->
   helpers.score_package w package pts ents tr
   = (let? report := loads w (stdout finished) in
      helpers.record_score package (Some report) pts ents, tr2))
  /\ (returncode finished <> 0 -> returncode finished <> 1 ->
      helpers.score_package w package pts ents tr
      = (Raise (UnboundLocalError "report"), tr2)).
Proof.
  intros Hmod finished tr2. rewrite score_package_steps, Hmod. cbv zeta.
  fold finished. fold tr2. unfold checked. split.
  - intros [H | H]; rewrite H; simpl;
      destruct (loads w (stdout finished)); reflexivity.
  - intros H0 H1. apply Z.eqb_neq in H0, H1. rewrite H0. simpl. rewrite H1. reflexivity.
Qed.

(** C1: once the module is resolved, exit status 0 has the report parsed
    from the standard output, exit status 1 has it parsed from the output
    that the failure carries, and any other exit status makes
    [score_package] read the variable [report] that no branch assigned:
    it raises [UnboundLocalError] instead of skipping the package. *)
Theorem score_package_exit_status (w : World) (package module : string)
    (pts : dict.t details) (ents : list (string * entity)) (tr tr1 : trace) :
  helpers.get_module w package tr = (Ok module, tr1) ->
  let finished := subprocess w tr1 (pyright_verifytypes w module) in
  let tr2 := (tr1 ++ [Exec (pyright_verifytypes w module)])%list in
  (returncode finished = 0 ->
   checked finished = Ok finished
   /\ helpers.score_package w package pts ents tr
      = (let? report := loads w (stdout finished) in
         helpers.record_score package (Some report) pts ents, tr2))
  /\ (returncode finished = 1 ->
      checked finished = Raise (CalledProcessError 1 (stdout finished) (stderr finished))
      /\ helpers.score_package w package pts ents tr
         = (let? report := loads w (stdout finished) in
            helpers.record_score package (Some report) pts ents, tr2))
  /\ (returncode finished <> 0 -> returncode finished <> 1 ->
      helpers.score_package w package pts ents tr
      = (Raise (UnboundLocalError "report"), tr2)).
Proof.
  intros Hmod finished tr2.
  destruct (score_package_after_check w package module pts ents tr tr1 Hmod)
    as [Hparsed Hother].
  split; [| split].
  - intros H. split; [unfold checked; rewrite H; reflexivity |].
    apply Hparsed. left. exact H.
  - intros H. split; [unfold checked; rewrite H; reflexivity |].
    apply Hparsed. right. exact H.
  - exact Hother.
Qed.

(** Witness of [score_package_exit_status]: the checker leaves with
    status 2 on [azure-gadget], and [score_package] raises. *)
Lemma score_package_exit_status_witness :
  helpers.score_package (Scenario.scoring_world [] Scenario.no_entity) "azure-gadget"
    [("azure-gadget", Scenario.widget)] [] []
  = (Raise (UnboundLocalError "report"),
     [Exec ["python"; "-m"; "pip"; "show"; "-f"; "azure-gadget"];
      Exec ["python"; "-m"; "pyright"; "--verifytypes"; "azure.gadget";
            "--ignoreexternal"; "--outputjson"]]).
Proof.
  exact (proj2 (proj2 (score_package_exit_status
                         (Scenario.scoring_world [] Scenario.no_entity)
                         "azure-gadget" "azure.gadget"
                         [("azure-gadget", Scenario.widget)] [] []
                         [Exec ["python"; "-m"; "pip"; "show"; "-f"; "azure-gadget"]]
                         eq_refl))
           ltac:(vm_compute; discriminate) ltac:(vm_compute; discriminate)).
Defined.

(** The same in the loop of [test_function], for a package without a
    score: after an exit status other than 0 and 1 the turn goes on with
    whatever [report] held before the turn. *)
Lemma test_function_turn_other_status (w : World) (st : function_app.scoring)
    (package : string) (p : details) (tr : trace) :
  dict.get package (function_app.s_packages st) = Some p ->
  Score p = None ->
  let shown := subprocess w tr (pip_show w package) in
  returncode shown = 0 ->
  exists module,
    let tr1 := (tr ++ [Exec (pip_show w package)])%list in
    let finished := subprocess w tr1 (pyright_verifytypes w module) in
    function_app.get_module w package tr = (Ok module, tr1)
    /\ (returncode finished <> 0 -> returncode finished <> 1 ->
        function_app.score_turn w st package tr
        = (let? (packages_to_score, entities) :=
             helpers.record_score package (function_app.s_report st)
                                  (function_app.s_packages st)
                                  (function_app.s_entities st) in
           Ok (function_app.mkscoring packages_to_score entities (function_app.s_report st)),
           (tr1 ++ [Exec (pyright_verifytypes w module)])%list)).
Proof.
  intros Hget Hscore shown Hrc.
  destruct (get_module_always_returns w package tr Hrc) as [module Hmod].
  exists module. cbv zeta. split; [exact Hmod |].
  intros H0 H1. unfold function_app.score_turn.
  rewrite bind_run. unfold lift at 1, item. rewrite Hget, Hscore.
  rewrite bind_run, Hmod. rewrite bind_run. unfold try_run, lift, checked.
  apply Z.eqb_neq in H0, H1. rewrite H0. simpl. rewrite H1. reflexivity.
Qed.

(** In [test_function] the variable [report] outlives a turn of the loop:
    when the checker breaks on the second package, the report of the
    first one is read again and its score is stored for the second. *)
Example test_function_stale_report :
  exists first second,
    snd (function_app.test_function
           (Scenario.scoring_world Scenario.broken_catalog Scenario.no_entity) [])
    = [ Exec ["python"; "-m"; "pip"; "install"; "azure-widget==3.1.0";
              "azure-gadget==1.0.0"; "pyright==1.1.274"];
        Exec ["python"; "-m"; "pip"; "show"; "-f"; "azure-widget"];
        Exec ["python"; "-m"; "pyright"; "--verifytypes"; "azure.widget";
              "--ignoreexternal"; "--outputjson"];
        Exec ["python"; "-m"; "pip"; "show"; "-f"; "azure-gadget"];
        Exec ["python"; "-m"; "pyright"; "--verifytypes"; "azure.gadget";
              "--ignoreexternal"; "--outputjson"];
        Submit [("create", first); ("create", second)] ]
    /\ e_RowKey first = "azure-widget" /\ e_Score first = PyFloat 87.3
    /\ e_RowKey second = "azure-gadget" /\ e_Score second = PyFloat 87.3
    /\ e_PyTyped second = true.
Proof. do 2 eexists. vm_compute. repeat split. Qed.

(** In [test_function] a checker that breaks on the first package leaves
    [report] unassigned and the run raises. *)
Example test_function_unbound_report :
  fst (function_app.test_function
         (Scenario.scoring_world (rev Scenario.broken_catalog) Scenario.no_entity) [])
  = Raise (UnboundLocalError "report").
Proof. vm_compute. reflexivity. Qed.

(** ** The score and the marker flag *)

Lemma div_half_even_nearest (n d : Z) :
  0 < d -> Z.abs (2 * n - 2 * div_half_even n d * d) <= d.
Proof.
  intros Hd. unfold div_half_even.
  pose proof (Z.div_mod n d ltac:(lia)) as E.
  pose proof (Z.mod_pos_bound n d Hd) as B.
  destruct (Z.compare_spec (2 * (n mod d)) d) as [H | H | H].
  - destruct (Z.even (n / d)); nia.
  - nia.
  - nia.
Qed.

Lemma div_half_even_tie (n d : Z) :
  0 < d -> 2 * (n mod d) = d -> Z.even (div_half_even n d) = true.
Proof.
  intros Hd H. unfold div_half_even. rewrite H, Z.compare_refl.
  destruct (Z.even (n / d)) eqn:E; [exact E |].
  rewrite Z.even_add, E. reflexivity.
Qed.

Lemma div_half_even_halfway (n d : Z) :
  0 < d -> Z.abs (2 * n - 2 * div_half_even n d * d) = d ->
  Z.even (div_half_even n d) = true.
Proof.
  intros Hd Habs.
  pose proof (Z.div_mod n d ltac:(lia)) as E.
  pose proof (Z.mod_pos_bound n d Hd) as B.
  destruct (Z.compare_spec (2 * (n mod d)) d) as [H | H | H].
  - apply div_half_even_tie; assumption.
  - exfalso. revert Habs. unfold div_half_even.
    destruct (Z.compare_spec (2 * (n mod d)) d); nia.
  - exfalso. revert Habs. unfold div_half_even.
    destruct (Z.compare_spec (2 * (n mod d)) d); nia.
Qed.

(** The digits kept by [round(x, 1)]: for [x = m * 2^e] the integer
    [tenths m e] is the nearest integer to [10 * x], the even one of two
    that are as near. *)
Lemma tenths_nearest (m : positive) (e : Z) : Design.nearest_tenths m e (tenths m e).
Proof.
  unfold Design.nearest_tenths, tenths. split; intros H.
  - apply Z.leb_le in H. rewrite H. reflexivity.
  - assert (H' : (0 <=? e) = false) by (apply Z.leb_gt; exact H). rewrite H'.
    assert (Hd : 0 < 2 ^ (- e)) by (apply Z.pow_pos_nonneg; lia).
    split; [apply div_half_even_nearest; exact Hd |].
    apply div_half_even_halfway. exact Hd.
Qed.

(** [round(y * 100, 1)] is the hundredfold rounded to one decimal
    place. *)
Lemma round1_one_decimal (x : num) :
  Design.one_decimal (Design.hundredfold x) (round1 (times100 x)).
Proof.
  destruct x as [n | f];
    unfold Design.one_decimal, Design.hundredfold, round1, times100.
  - f_equal. lia.
  - unfold round1_float.
    destruct (Prim2SF (f * 100)) as [s | s | | s m e]; try reflexivity.
    exists (tenths m e). split; [apply tenths_nearest |].
    unfold Design.tenth_of. destruct (tenths m e); reflexivity.
Qed.

Lemma valid_new_date (d : datetime.t) :
  datetime.valid d = true ->
  datetime.new_date (datetime.year d) (datetime.month d) (datetime.day d)
  = Ok (datetime.mkdate (datetime.year d) (datetime.month d) (datetime.day d)).
Proof.
  intros H. apply new_date_ok. unfold datetime.valid in H.
  do 8 (apply andb_true_iff in H; destruct H as [H _]). exact H.
Qed.

Lemma dict_set_set {V : Type} (k : string) (v v' : V) (d : dict.t V) :
  dict.set k v' (dict.set k v d) = dict.set k v' d.
Proof.
  induction d as [| [k0 v0] d IH]; simpl.
  - rewrite eqb_string_refl. reflexivity.
  - destruct (String.eqb k k0) eqn:E; simpl; rewrite E; [reflexivity |].
    rewrite IH. reflexivity.
Qed.

Lemma add_entity_scored (package : string) (pts : dict.t details)
    (ents : list (string * entity)) (p : details) (score : num) (pytyped : bool) :
  dict.get package pts = Some p ->
  Score p = Some score -> PyTyped p = Some pytyped ->
  datetime.valid (Date p) = true ->
  helpers.add_entity package pts ents
  = Ok (ents ++ [("create", entity_of package p score pytyped)])%list.
Proof.
  intros Hget Hs Hp Hv. unfold helpers.add_entity.
  rewrite Hget, (valid_new_date _ Hv), Hs, Hp. reflexivity.
Qed.

Lemma marker_present (fields : list (string * json)) :
  marker fields = true <-> exists v, assoc "pyTypedPath" fields = Some v /\ v <> JNull.
Proof.
  unfold marker. destruct (assoc "pyTypedPath" fields) as [v |].
  - destruct v; split; try discriminate; try reflexivity;
      try (intros _; eexists; split; [reflexivity | discriminate]).
    intros (v & [= <-] & Hv). contradiction.
  - split; [discriminate | intros (v & H & _); discriminate].
Qed.

Lemma record_score_report (package : string) (pts : dict.t details)
    (ents : list (string * entity)) (p : details)
    (members fields : list (string * json)) (x : num) :
  assoc "typeCompleteness" members = Some (JObj fields) ->
  assoc "completenessScore" fields = Some (JNum x) ->
  dict.get package pts = Some p ->
  datetime.valid (Date p) = true ->
  let score := round1 (times100 x) in
  let p' := update_Score score (update_PyTyped (marker fields) p) in
  helpers.record_score package (Some (JObj members)) pts ents
  = Ok (dict.set package p' pts,
        (ents ++ [("create", entity_of package p score (marker fields))])%list).
Proof.
  intros Htc Hcs Hget Hv score p'. unfold helpers.record_score.
  simpl. rewrite Htc. simpl.
  set (path := match assoc "pyTypedPath" fields with Some v => v | None => JNull end).
  assert (Hpath : match assoc "pyTypedPath" fields with
                  | Some v => Ok v
                  | None => Ok JNull
                  end = Ok path).
  { unfold path. destruct (assoc "pyTypedPath" fields); reflexivity. }
  assert (Hm : (if is_none path then false else true) = marker fields).
  { unfold path, marker. destruct (assoc "pyTypedPath" fields) as [[] |]; reflexivity. }
  rewrite Hpath. unfold item. rewrite Hget, Hcs. simpl.
  rewrite dict_set_set, Hm. fold score. fold p'.
  rewrite (add_entity_scored package _ ents p' score (marker fields));
    try reflexivity; try exact Hv.
  apply dict_get_set.
Qed.

(** C5: when the checker leaves with status 0 or 1 and its output decodes
    to a report with a numeric [completenessScore], the entity that
    [score_package] adds has as score that fraction times 100 rounded to
    one decimal place (the float nearest to the nearest decimal with one
    digit after the point, ties going to the even digit), and its marker
    flag is true exactly when [pyTypedPath] is present and not null; the
    record of the package holds the same two values. *)
Theorem score_package_score (w : World) (package module : string)
    (pts : dict.t details) (ents : list (string * entity)) (tr tr1 : trace)
    (p : details) (members fields : list (string * json)) (x : num) :
  helpers.get_module w package tr = (Ok module, tr1) ->
  let finished := subprocess w tr1 (pyright_verifytypes w module) in
  returncode finished = 0 \/ returncode finished = 1 ->
  json_loads w (stdout finished) = Some (JObj members) ->
  assoc "typeCompleteness" members = Some (JObj fields) ->
  assoc "completenessScore" fields = Some (JNum x) ->
  dict.get package pts = Some p ->
  datetime.valid (Date p) = true ->
  exists e pts',
    helpers.score_package w package pts ents tr
    = (Ok (pts', (ents ++ [("create", e)])%list),
       (tr1 ++ [Exec (pyright_verifytypes w module)])%list)
    /\ e_RowKey e = package
    /\ e_LatestVersion e = LatestVersion p
    /\ Design.one_decimal (Design.hundredfold x) (e_Score e)
    /\ (e_PyTyped e = true
        <-> exists v, assoc "pyTypedPath" fields = Some v /\ v <> JNull)
    /\ dict.get package pts'
       = Some (update_Score (e_Score e) (update_PyTyped (e_PyTyped e) p)).
Proof.
  intros Hmod finished Hrc Hjson Htc Hcs Hget Hv.
  exists (entity_of package p (round1 (times100 x)) (marker fields)).
  eexists.
  rewrite (proj1 (score_package_after_check w package module pts ents tr tr1 Hmod) Hrc).
  fold finished. unfold loads. rewrite Hjson. simpl and_then.
  rewrite (record_score_report package pts ents p members fields x Htc Hcs Hget Hv).
  split; [reflexivity |]. simpl.
  split; [reflexivity |]. split; [reflexivity |]. split; [apply round1_one_decimal |].
  split; [apply marker_present | apply dict_get_set].
Qed.

(** Witness of [score_package_score]: a report with fraction 0.87346
    and a marker path gives the score 87.3 and the flag true. *)
Lemma score_package_score_witness :
  exists e pts',
    helpers.score_package More.fine_world "azure-widget"
      [("azure-widget", Scenario.widget)] [] []
    = (Ok (pts', [("create", e)]),
       [Exec ["python"; "-m"; "pip"; "show"; "-f"; "azure-widget"];
        Exec ["python"; "-m"; "pyright"; "--verifytypes"; "azure.widget";
              "--ignoreexternal"; "--outputjson"]])
    /\ Design.one_decimal (PyFloat (0.87346 * 100)) (e_Score e)
    /\ e_Score e = PyFloat 87.3
    /\ e_PyTyped e = true
    /\ e_LatestVersion e = Str "3.1.0".
Proof.
  destruct (score_package_score More.fine_world
              "azure-widget" "azure.widget" [("azure-widget", Scenario.widget)] [] []
              [Exec ["python"; "-m"; "pip"; "show"; "-f"; "azure-widget"]]
              Scenario.widget
              [("typeCompleteness",
                JObj [("pyTypedPath", JStr "azure/widget/py.typed");
                      ("completenessScore", JNum (PyFloat 0.87346))])]
              [("pyTypedPath", JStr "azure/widget/py.typed");
               ("completenessScore", JNum (PyFloat 0.87346))]
              (PyFloat 0.87346)
              eq_refl (or_intror eq_refl) eq_refl eq_refl eq_refl eq_refl eq_refl)
    as (e & pts' & Hrun & _ & Hversion & Hscore & Hflag & _).
  exists e, pts'. split; [exact Hrun |]. split; [exact Hscore |]. split; [| split].
  - vm_compute in Hrun. injection Hrun as _ <-. reflexivity.
  - apply Hflag. eexists. split; [reflexivity | discriminate].
  - exact Hversion.
Defined.

(** The report of the design document: fraction 0.873, score 87.3. *)
Example score_package_design_example :
  exists e pts',
    fst (helpers.score_package (Scenario.scoring_world [] Scenario.no_entity) "azure-widget"
           [("azure-widget", Scenario.widget)] [] [])
    = Ok (pts', [("create", e)])
    /\ e_Score e = PyFloat 87.3 /\ e_PyTyped e = true.
Proof. do 2 eexists. vm_compute. repeat split. Qed.

(** A complete package: the fraction is the integer 1, the score the
    integer 100, and a null marker path gives the flag false. *)
Example score_package_complete :
  exists e pts',
    fst (helpers.score_package (Scenario.scoring_world [] Scenario.no_entity) "azure-core"
           [("azure-core", Scenario.widget)] [] [])
    = Ok (pts', [("create", e)])
    /\ e_Score e = PyInt 100 /\ e_PyTyped e = false.
Proof. do 2 eexists. vm_compute. repeat split. Qed.

Example round1_ties_to_even :
  round1_float 0.25 = 0.2%float /\ round1_float 0.75 = 0.8%float
  /\ round1_float 2.675 = 2.7%float /\ round1_float (-0.04) = (-0)%float.
Proof. vm_compute. repeat split. Qed.

(** ** Traces of the calls *)

Lemma install_trace (w : World) (packages : list string) (tr tr' : trace) (r : result unit) :
  helpers.install w packages tr = (r, tr') -> tr' = (tr ++ installed w packages)%list.
Proof.
  unfold helpers.install, installed. destruct packages as [| x l].
  - intros [= _ <-]. rewrite app_nil_r. reflexivity.
  - unfold check_call, bind, subprocess_run, ret.
    destruct (checked _); intros [= _ <-]; reflexivity.
Qed.

Lemma uninstall_trace (w : World) (deps : list string) (tr tr' : trace) (r : result unit) :
  helpers.uninstall_deps w deps tr = (r, tr') ->
  tr' = (tr ++ [Exec (pip_uninstall w deps)])%list.
Proof.
  unfold helpers.uninstall_deps, check_call, bind, subprocess_run, ret.
  destruct (checked _); intros [= _ <-]; reflexivity.
Qed.

(** A call of [score_package] reads the manifest and then runs the
    checker; it may stop after the first of the two. *)
Lemma score_package_trace (w : World) (package : string) (pts : dict.t details)
    (ents : list (string * entity)) (tr tr' : trace)
    (r : result (dict.t details * list (string * entity))) :
  helpers.score_package w package pts ents tr = (r, tr') ->
  exists evs,
    tr' = (tr ++ evs)%list
    /\ match r with
       | Ok _ => scored w package evs
       | Raise _ => exists rest, scored w package (evs ++ rest)%list
       end.
Proof.
  rewrite score_package_steps.
  destruct (helpers.get_module w package tr) as [[module | e] tr1] eqn:Hmod;
    pose proof (get_module_trace _ _ _ _ _ Hmod) as ->.
  - cbv zeta. intros [= <- <-].
    exists [Exec (pip_show w package); Exec (pyright_verifytypes w module)].
    split; [rewrite <- app_assoc; reflexivity |].
    destruct (let? report := _ in _).
    + exists module. reflexivity.
    + exists []. exists module. reflexivity.
  - intros [= <- <-]. exists [Exec (pip_show w package)]. split; [reflexivity |].
    exists [Exec (pyright_verifytypes w "")]. exists "". reflexivity.
Qed.

Lemma Forall2_inhabited {A B : Type} (Q : A -> B -> Prop) (xs : list A) :
  (forall x, In x xs -> exists b, Q x b) -> exists bs, Forall2 Q xs bs.
Proof.
  induction xs as [| x xs IH]; intros H.
  - exists []. constructor.
  - destruct IH as [bs Hbs]; [intros y Hy; apply H; right; exact Hy |].
    destruct (H x (or_introl eq_refl)) as [b Hb].
    exists (b :: bs). constructor; assumption.
Qed.

Lemma Forall2_impl_in {A B : Type} (P Q : A -> B -> Prop) (xs : list A) (ys : list B) :
  (forall x y, In x xs -> P x y -> Q x y) -> Forall2 P xs ys -> Forall2 Q xs ys.
Proof.
  intros H Hall. induction Hall as [| x y xs ys Hp Hall IH]; constructor.
  - apply H; [left; reflexivity | exact Hp].
  - apply IH. intros x' y' Hin. apply H. right. exact Hin.
Qed.

(** The loop [for x in xs], when a turn that ends adds a block of events
    of shape [P x] and a turn that raises stops inside a block of shape
    [Q x]: a run to the end adds the blocks one after the other; a run
    that raises stops inside such a sequence of blocks. *)
Lemma for_each_trace {A S : Type} (body : S -> A -> M S) (P Q : A -> list event -> Prop) :
  (forall x evs, P x evs -> Q x evs) ->
  (forall s x tr tr' r,
      body s x tr = (r, tr') ->
      exists evs,
        tr' = (tr ++ evs)%list
        /\ match r with
           | Ok _ => P x evs
           | Raise _ => exists rest, Q x (evs ++ rest)%list
           end) ->
  forall xs s tr r tr',
    (forall x, In x xs -> exists full, Q x full) ->
    for_each body xs s tr = (r, tr') ->
    exists evs,
      tr' = (tr ++ evs)%list
      /\ match r with
         | Ok _ => exists blocks, Forall2 P xs blocks /\ evs = List.concat blocks
         | Raise _ =>
             exists blocks rest,
               Forall2 Q xs blocks /\ List.concat blocks = (evs ++ rest)%list
         end.
Proof.
  intros HPQ Hbody. induction xs as [| x xs IH]; intros s tr r tr' Hfull.
  - intros [= <- <-]. exists []. split; [rewrite app_nil_r; reflexivity |].
    exists []. split; [constructor | reflexivity].
  - cbn [for_each]. rewrite bind_run.
    destruct (body s x tr) as [[s1 | e] tr1] eqn:Hturn.
    + destruct (Hbody _ _ _ _ _ Hturn) as (evs1 & -> & Hp).
      intros Hrest.
      destruct (IH s1 _ r tr' (fun y Hy => Hfull y (or_intror Hy)) Hrest)
        as (evs2 & -> & Hshape).
      exists (evs1 ++ evs2)%list. split; [rewrite app_assoc; reflexivity |].
      destruct r as [s2 | e].
      * destruct Hshape as (blocks & Hall & ->).
        exists (evs1 :: blocks). split; [constructor; assumption | reflexivity].
      * destruct Hshape as (blocks & rest & Hall & E).
        exists (evs1 :: blocks), rest. split; [constructor; auto |].
        simpl. rewrite E, app_assoc. reflexivity.
    + intros [= <- <-].
      destruct (Hbody _ _ _ _ _ Hturn) as (evs1 & -> & rest1 & Hp).
      exists evs1. split; [reflexivity |].
      destruct (Forall2_inhabited Q xs (fun y Hy => Hfull y (or_intror Hy)))
        as [blocks Hb].
      exists ((evs1 ++ rest1)%list :: blocks), (rest1 ++ List.concat blocks)%list.
      split; [constructor; assumption |].
      simpl. rewrite app_assoc. reflexivity.
Qed.

(** ** The two rounds *)

Lemma scored_inhabited (w : World) (package : string) : exists evs, scored w package evs.
Proof. eexists. exists "". reflexivity. Qed.

Lemma first_round_turn_inhabited (w : World) (package : string) :
  exists evs, first_round_turn w package evs.
Proof.
  unfold first_round_turn.
  destruct (dict.has package run_main_typescore.DEPENDENCY_ISSUE_LIBRARIES).
  - exists []. reflexivity.
  - apply scored_inhabited.
Qed.

Lemma isolated_turn_inhabited (w : World) (second_round : dict.t (list string))
    (entry : string * list string) :
  exists evs, isolated_turn w second_round entry evs.
Proof.
  unfold isolated_turn. destruct (dict.get (fst entry) second_round) as [packages |].
  - destruct (scored_inhabited w (fst entry)) as [scoring Hs].
    eexists. exists scoring. split; [exact Hs | reflexivity].
  - eexists. reflexivity.
Qed.

Lemma isolated_from_turn (w : World) (second_round : dict.t (list string))
    (entry : string * list string) (evs : list event) :
  isolated_from w second_round entry evs -> isolated_turn w second_round entry evs.
Proof. unfold isolated_turn. intros (packages & -> & H). exact H. Qed.

Lemma score_first_round_trace (w : World) (state : dict.t details * list (string * entity))
    (package : string) (tr tr' : trace)
    (r : result (dict.t details * list (string * entity))) :
  run_main_typescore.score_first_round w state package tr = (r, tr') ->
  exists evs,
    tr' = (tr ++ evs)%list
    /\ match r with
       | Ok _ => first_round_turn w package evs
       | Raise _ => exists rest, first_round_turn w package (evs ++ rest)%list
       end.
Proof.
  unfold run_main_typescore.score_first_round, first_round_turn.
  destruct state as [pts ents].
  destruct (dict.has package run_main_typescore.DEPENDENCY_ISSUE_LIBRARIES).
  - intros [= <- <-]. exists []. rewrite app_nil_r. split; reflexivity.
  - apply score_package_trace.
Qed.

Lemma score_second_round_trace (w : World) (second_round : dict.t (list string))
    (state : dict.t details * list (string * entity)) (entry : string * list string)
    (tr tr' : trace) (r : result (dict.t details * list (string * entity))) :
  run_main_typescore.score_second_round w second_round state entry tr = (r, tr') ->
  exists evs,
    tr' = (tr ++ evs)%list
    /\ match r with
       | Ok _ => isolated_from w second_round entry evs
       | Raise _ => exists rest, isolated_turn w second_round entry (evs ++ rest)%list
       end.
Proof.
  unfold run_main_typescore.score_second_round, isolated_turn.
  destruct state as [pts ents], entry as [package deps]. cbn [fst snd].
  rewrite bind_run.
  destruct (helpers.uninstall_deps w deps tr) as [[[] | e] tr1] eqn:Hun;
    pose proof (uninstall_trace _ _ _ _ _ Hun) as ->.
  2:{ intros [= <- <-]. exists [Exec (pip_uninstall w deps)]. split; [reflexivity |].
      destruct (dict.get package second_round) as [packages |].
      - destruct (scored_inhabited w package) as [scoring Hs].
        exists (installed w packages ++ scoring)%list, scoring.
        split; [exact Hs | reflexivity].
      - exists []. reflexivity. }
  rewrite bind_run. unfold lift at 1.
  destruct (dict.get package second_round) as [packages |] eqn:Hget.
  2:{ intros [= <- <-]. exists [Exec (pip_uninstall w deps)]. split; [reflexivity |].
      exists []. reflexivity. }
  rewrite bind_run.
  destruct (helpers.install w packages _) as [[[] | e] tr2] eqn:Hin;
    pose proof (install_trace _ _ _ _ _ Hin) as ->.
  2:{ intros [= <- <-].
      exists (Exec (pip_uninstall w deps) :: installed w packages)%list.
      split; [rewrite <- app_assoc; reflexivity |].
      destruct (scored_inhabited w package) as [scoring Hs].
      exists scoring, scoring. split; [exact Hs | reflexivity]. }
  intros Hscore. destruct (score_package_trace _ _ _ _ _ _ _ Hscore) as (evs & -> & Hshape).
  exists (Exec (pip_uninstall w deps) :: installed w packages ++ evs)%list.
  split; [rewrite <- !app_assoc; reflexivity |].
  destruct r as [s | e].
  - exists packages. split; [exact Hget |]. exists evs. split; [exact Hshape | reflexivity].
  - destruct Hshape as [rest Hs]. exists rest, (evs ++ rest)%list.
    split; [exact Hs |]. simpl. rewrite <- !app_assoc. reflexivity.
Qed.

Lemma two_rounds_exact_two_rounds (w : World) (st : run_main_typescore.rounds)
    (evs : list event) :
  two_rounds_exact w st evs -> two_rounds w st evs.
Proof.
  intros (blocks1 & blocks2 & entities & H1 & H2 & ->).
  exists blocks1, blocks2, entities. split; [exact H1 |]. split; [| reflexivity].
  eapply Forall2_impl; [| exact H2].
  intros entry evs. apply isolated_from_turn.
Qed.

(** The events of a run of the two rounds: the bulk install, the turns of
    the first scoring loop, the turns of the second loop, the
    transaction. A run that raises stops somewhere in that sequence. *)
Lemma run_rounds_trace (w : World) (st : run_main_typescore.rounds) (tr tr' : trace)
    (r : result unit) :
  run_main_typescore.run_rounds w st tr = (r, tr') ->
  exists evs,
    tr' = (tr ++ evs)%list
    /\ match r with
       | Ok _ => two_rounds_exact w st evs
       | Raise _ => exists rest, two_rounds w st (evs ++ rest)%list
       end.
Proof.
  unfold run_main_typescore.run_rounds. rewrite bind_run.
  destruct (Forall2_inhabited (first_round_turn w)
              (dict.keys (run_main_typescore.r_packages st))
              (fun x _ => first_round_turn_inhabited w x)) as [any1 Hany1].
  destruct (Forall2_inhabited (isolated_turn w (run_main_typescore.second_round st))
              run_main_typescore.DEPENDENCY_ISSUE_LIBRARIES
              (fun x _ => isolated_turn_inhabited w _ x)) as [any2 Hany2].
  destruct (helpers.install w (run_main_typescore.first_round st) tr)
    as [[[] | e] tr1] eqn:Hin; pose proof (install_trace _ _ _ _ _ Hin) as ->.
  2:{ intros [= <- <-]. eexists. split; [reflexivity |].
      exists (List.concat any1 ++ List.concat any2 ++ [Submit []])%list.
      exists any1, any2, []. repeat split; assumption. }
  rewrite bind_run.
  destruct (for_each (run_main_typescore.score_first_round w) _ _ _)
    as [[[pts1 ents1] | e] tr2] eqn:Hloop1;
    destruct (for_each_trace _ (first_round_turn w) (first_round_turn w)
                (fun _ _ H => H) (score_first_round_trace w)
                _ _ _ _ _ (fun x _ => first_round_turn_inhabited w x) Hloop1)
      as (evs1 & -> & Hshape1).
  2:{ intros [= <- <-]. destruct Hshape1 as (blocks1 & rest1 & Hb1 & E1).
      exists (installed w (run_main_typescore.first_round st) ++ evs1)%list.
      split; [rewrite app_assoc; reflexivity |].
      exists (rest1 ++ List.concat any2 ++ [Submit []])%list.
      exists blocks1, any2, []. split; [exact Hb1 |]. split; [exact Hany2 |].
      rewrite E1, <- !app_assoc. reflexivity. }
  destruct Hshape1 as (blocks1 & Hb1 & ->).
  rewrite bind_run.
  destruct (for_each (run_main_typescore.score_second_round w _) _ _ _)
    as [[[pts2 ents2] | e] tr3] eqn:Hloop2;
    destruct (for_each_trace _ (isolated_from w (run_main_typescore.second_round st))
                (isolated_turn w (run_main_typescore.second_round st))
                (isolated_from_turn w _)
                (score_second_round_trace w (run_main_typescore.second_round st))
                _ _ _ _ _ (fun x _ => isolated_turn_inhabited w _ x) Hloop2)
      as (evs2 & -> & Hshape2).
  2:{ intros [= <- <-]. destruct Hshape2 as (blocks2 & rest2 & Hb2 & E2).
      exists (installed w (run_main_typescore.first_round st)
              ++ List.concat blocks1 ++ evs2)%list.
      split; [rewrite <- !app_assoc; reflexivity |].
      exists (rest2 ++ [Submit []])%list.
      exists blocks1, blocks2, []. split; [exact Hb1 |]. split; [exact Hb2 |].
      rewrite E2, <- !app_assoc. reflexivity. }
  destruct Hshape2 as (blocks2 & Hb2 & ->).
  unfold submit_transaction. intros [= <- <-].
  exists (installed w (run_main_typescore.first_round st)
          ++ List.concat blocks1 ++ List.concat blocks2
          ++ [Submit (ents1 ++ ents2)%list])%list.
  split; [rewrite <- !app_assoc; reflexivity |].
  exists blocks1, blocks2, (ents1 ++ ents2)%list. repeat split; assumption.
Qed.

Lemma split_after (l m before after : list event) (x : event) :
  (l ++ m = before ++ x :: after)%list -> ~ In x l ->
  exists more, before = (l ++ more)%list.
Proof.
  revert before. induction l as [| y l IH]; intros before E Hx.
  - exists before. reflexivity.
  - destruct before as [| b before]; simpl in E.
    + injection E as <- _. exfalso. apply Hx. left. reflexivity.
    + injection E as <- E. destruct (IH before E) as [more ->].
      * intros H. apply Hx. right. exact H.
      * exists more. reflexivity.
Qed.

(** Neither the bulk install nor a turn of the first scoring loop
    uninstalls anything. *)
Lemma first_round_without_uninstall (w : World) (packages deps : list string)
    (names : list string) (blocks : list (list event)) :
  Forall2 (first_round_turn w) names blocks ->
  ~ In (Exec (pip_uninstall w deps)) (installed w packages ++ List.concat blocks)%list.
Proof.
  intros Hb. rewrite in_app_iff. intros [H | H].
  - unfold installed in H. destruct packages; [exact H |].
    destruct H as [H | []]. discriminate H.
  - induction Hb as [| name evs names blocks Hturn Hb IH]; [exact H |].
    simpl in H. apply in_app_iff in H. destruct H as [H | H]; [| exact (IH H)].
    unfold first_round_turn in Hturn.
    destruct (dict.has name run_main_typescore.DEPENDENCY_ISSUE_LIBRARIES).
    + subst. exact H.
    + destruct Hturn as [module ->].
      destruct H as [H | [H | []]]; discriminate H.
Qed.


(** ** The conflict table *)

Lemma dict_keys_set_cases {V : Type} (k : string) (v : V) (d : dict.t V) :
  dict.keys (dict.set k v d) = dict.keys d
  \/ (~ In k (dict.keys d) /\ dict.keys (dict.set k v d) = (dict.keys d ++ [k])%list).
Proof.
  destruct (dict.get k d) as [x |] eqn:E.
  - left. apply (dict_keys_set k v x d E).
  - right. split; [apply dict_get_keys; exact E |].
    rewrite (dict_set_new k v d E). apply keys_app.
Qed.

Lemma dict_set_NoDup {V : Type} (k : string) (v : V) (d : dict.t V) :
  NoDup (dict.keys d) -> NoDup (dict.keys (dict.set k v d)).
Proof.
  intros H. destruct (dict_keys_set_cases k v d) as [-> | [Hk ->]]; [exact H |].
  apply NoDup_snoc; assumption.
Qed.

(** A turn of the inner loop that does not raise leaves the state as it
    is, or takes an alpha version whose date [strptime] has read. *)
Lemma pick_version_cases (w : World) (name : string) (latest : option Z)
    (vti : dict.t string) (version : feed_version) (state' : option Z * dict.t string) :
  run_main_typescore.pick_version w name (latest, vti) version = Ok state' ->
  state' = (latest, vti)
  \/ exists d,
      alpha version = true /\ published w version = Some d
      /\ state' = (Some d, dict.set name (fv_version version) vti).
Proof.
  unfold run_main_typescore.pick_version, alpha, published.
  destruct (contains "a" (fv_version version)); [| intros [= <-]; left; reflexivity].
  destruct (strptime w _) as [d |]; [| discriminate].
  destruct latest as [l |].
  - destruct (l <? d); intros [= <-]; [right; exists d; tauto | left; reflexivity].
  - intros [= <-]. right. exists d. tauto.
Qed.

Lemma pick_versions_keys (w : World) (name : string) (versions : list feed_version) :
  forall state state' k,
    run_main_typescore.pick_versions w name versions state = Ok state' ->
    In k (dict.keys (snd state')) ->
    k = name \/ In k (dict.keys (snd state)).
Proof.
  induction versions as [| v versions IH]; intros state state' k;
    cbn [run_main_typescore.pick_versions].
  - intros [= <-]. tauto.
  - destruct (run_main_typescore.pick_version w name state v) as [state1 |] eqn:Hturn;
      [| discriminate].
    intros Hrest Hk. destruct (IH _ _ _ Hrest Hk) as [-> | H1]; [left; reflexivity |].
    destruct state as [latest vti].
    destruct (pick_version_cases _ _ _ _ _ _ Hturn) as [-> | (d & _ & _ & ->)];
      [right; exact H1 |].
    cbn [snd] in *.
    destruct (dict_keys_set_cases name (fv_version v) vti) as [E | [_ E]];
      rewrite E in H1; [right; exact H1 |].
    apply in_app_iff in H1. destruct H1 as [H1 | [<- | []]]; [right; exact H1 |].
    left. reflexivity.
Qed.

Lemma pick_versions_NoDup (w : World) (name : string) (versions : list feed_version) :
  forall state state',
    run_main_typescore.pick_versions w name versions state = Ok state' ->
    NoDup (dict.keys (snd state)) -> NoDup (dict.keys (snd state')).
Proof.
  induction versions as [| v versions IH]; intros state state';
    cbn [run_main_typescore.pick_versions].
  - intros [= <-] H. exact H.
  - destruct (run_main_typescore.pick_version w name state v) as [state1 |] eqn:Hturn;
      [| discriminate].
    intros Hrest Hnd. apply (IH _ _ Hrest). destruct state as [latest vti].
    destruct (pick_version_cases _ _ _ _ _ _ Hturn) as [-> | (d & _ & _ & ->)];
      [exact Hnd |].
    apply dict_set_NoDup. exact Hnd.
Qed.

(** A turn of the outer loop that does not raise. *)
Lemma pick_package_cases (w : World) (pts : dict.t details) (vti vti' : dict.t string)
    (package : feed_package) :
  run_main_typescore.pick_package w pts vti package = Ok vti' ->
  (dict.has (fp_name package) pts = false /\ vti' = vti)
  \/ (dict.has (fp_name package) pts = true
      /\ exists latest',
          run_main_typescore.pick_versions w (fp_name package) (fp_versions package)
                                          (None, vti)
          = Ok (latest', vti')).
Proof.
  unfold run_main_typescore.pick_package.
  destruct (dict.has (fp_name package) pts); [| intros [= <-]; left; tauto].
  destruct (run_main_typescore.pick_versions w _ _ _) as [[latest' vti1] |];
    [| discriminate].
  intros [= <-]. right. split; [reflexivity |]. exists latest'. reflexivity.
Qed.

(** The names of [versions_to_install] are names of the feed. *)
Lemma versions_to_install_names (w : World) (pts : dict.t details) (vti : dict.t string)
    (k : string) :
  run_main_typescore.versions_to_install w pts = Ok vti ->
  In k (dict.keys vti) ->
  exists package, In package (alpha_feed w) /\ fp_name package = k.
Proof.
  unfold run_main_typescore.versions_to_install.
  assert (G : forall feed vti0 vti1,
             run_main_typescore.pick_packages w pts feed vti0 = Ok vti1 ->
             In k (dict.keys vti1) ->
             In k (dict.keys vti0)
             \/ exists package, In package feed /\ fp_name package = k).
  { induction feed as [| package feed IH]; intros vti0 vti1;
      cbn [run_main_typescore.pick_packages].
    - intros [= <-] H. left. exact H.
    - destruct (run_main_typescore.pick_package w pts vti0 package) as [vti2 |] eqn:Hturn;
        [| discriminate].
      intros Hrest Hk. destruct (IH _ _ Hrest Hk) as [H' | (q & Hq & Hn)].
      + destruct (pick_package_cases _ _ _ _ _ Hturn) as [[_ ->] | (_ & latest' & Hv)];
          [left; exact H' |].
        destruct (pick_versions_keys _ _ _ _ _ k Hv H') as [-> | H''];
          [| left; exact H''].
        right. exists package. split; [left |]; reflexivity.
      + right. exists q. split; [right; exact Hq | exact Hn]. }
  intros Hv H. destruct (G _ _ _ Hv H) as [[] | H']. exact H'.
Qed.

Lemma versions_to_install_NoDup (w : World) (pts : dict.t details) (vti : dict.t string) :
  run_main_typescore.versions_to_install w pts = Ok vti -> NoDup (dict.keys vti).
Proof.
  unfold run_main_typescore.versions_to_install.
  assert (G : forall feed vti0 vti1,
             run_main_typescore.pick_packages w pts feed vti0 = Ok vti1 ->
             NoDup (dict.keys vti0) -> NoDup (dict.keys vti1)).
  { induction feed as [| package feed IH]; intros vti0 vti1;
      cbn [run_main_typescore.pick_packages].
    - intros [= <-] H. exact H.
    - destruct (run_main_typescore.pick_package w pts vti0 package) as [vti2 |] eqn:Hturn;
        [| discriminate].
      intros Hrest Hnd. apply (IH _ _ Hrest).
      destruct (pick_package_cases _ _ _ _ _ Hturn) as [[_ ->] | (_ & latest' & Hv)];
        [exact Hnd |].
      apply (pick_versions_NoDup _ _ _ _ _ Hv Hnd). }
  intros Hv. apply (G _ _ _ Hv). constructor.
Qed.

(** [get_alpha_installs] returns when its first loops and its last loop
    do. *)
Lemma get_alpha_installs_ok (w : World) (pts : dict.t details)
    (st : run_main_typescore.rounds) :
  run_main_typescore.get_alpha_installs w pts = Ok st ->
  exists vti,
    run_main_typescore.versions_to_install w pts = Ok vti
    /\ run_main_typescore.assign_rounds vti (run_main_typescore.mkrounds pts [] []) = Ok st.
Proof.
  unfold run_main_typescore.get_alpha_installs.
  destruct (run_main_typescore.versions_to_install w pts) as [vti |]; [| discriminate].
  intros H. exists vti. split; [reflexivity | exact H].
Qed.

Lemma dict_get_cons {V : Type} (k n : string) (v : V) (d : dict.t V) :
  dict.get k ((n, v) :: d) = if String.eqb k n then Some v else dict.get k d.
Proof. reflexivity. Qed.

(** The last loop of [get_alpha_installs]: the requirements of the
    packages outside the conflict table are appended to [first_round], in
    order, and those of the packages of the table are stored in
    [second_round]. *)
Lemma assign_rounds_split (entries : list (string * string)) :
  forall st st',
    run_main_typescore.assign_rounds entries st = Ok st' ->
    NoDup (dict.keys entries) ->
    run_main_typescore.first_round st'
    = (run_main_typescore.first_round st
       ++ flat_map (fun e => run_main_typescore.requirement (fst e) (snd e))
            (filter (fun e => negb (dict.has (fst e)
                                      run_main_typescore.DEPENDENCY_ISSUE_LIBRARIES))
                    entries))%list
    /\ forall p,
        dict.get p (run_main_typescore.second_round st')
        = match dict.get p entries with
          | Some v =>
              if dict.has p run_main_typescore.DEPENDENCY_ISSUE_LIBRARIES
              then Some (run_main_typescore.requirement p v)
              else dict.get p (run_main_typescore.second_round st)
          | None => dict.get p (run_main_typescore.second_round st)
          end.
Proof.
  induction entries as [| [n v] entries IH]; intros st st'.
  - intros [= <-] _. simpl. rewrite app_nil_r. split; reflexivity.
  - cbn [run_main_typescore.assign_rounds].
    destruct (run_main_typescore.assign_round st (n, v)) as [st1 |] eqn:Hturn;
      [| discriminate].
    intros Hrest Hnd. inversion Hnd as [| ? ? Hn Hnd']; subst.
    destruct (IH st1 st' Hrest Hnd') as [Hfirst Hsecond].
    unfold run_main_typescore.assign_round in Hturn.
    destruct (item n (run_main_typescore.r_packages st)) as [p0 |]; [| discriminate].
    cbn [filter fst snd flat_map].
    destruct (dict.has n run_main_typescore.DEPENDENCY_ISSUE_LIBRARIES) eqn:Hdep;
      injection Hturn as <-; simpl negb; cbv iota.
    + split; [exact Hfirst |]. intros p. rewrite Hsecond, dict_get_cons.
      cbn [run_main_typescore.second_round].
      destruct (String.eqb_spec p n) as [-> | Hne].
      * apply dict_get_keys in Hn. rewrite Hn, Hdep. apply dict_get_set.
      * rewrite (dict_get_set_other p n _ _ Hne). reflexivity.
    + split.
      * rewrite Hfirst. cbn [run_main_typescore.first_round flat_map fst snd].
        rewrite <- app_assoc. reflexivity.
      * intros p. rewrite Hsecond, dict_get_cons.
        cbn [run_main_typescore.second_round].
        destruct (String.eqb_spec p n) as [-> | Hne].
        -- apply dict_get_keys in Hn. rewrite Hn, Hdep. reflexivity.
        -- reflexivity.
Qed.

Lemma free_of_head (c x : ascii) (s : string) :
  free_of c (String x s) = true -> x <> c /\ free_of c s = true.
Proof.
  simpl. intros H. apply andb_true_iff in H. destruct H as [H1 H2].
  split; [| exact H2]. apply negb_true_iff in H1. intros ->.
  rewrite Ascii.eqb_refl in H1. discriminate.
Qed.

(** A requirement [name==version] names its package, when names have no
    equals sign. *)
Lemma requirement_name (n p v v' : string) :
  free_of "=" n = true -> free_of "=" p = true ->
  (n ++ "==" ++ v)%string = (p ++ "==" ++ v')%string -> n = p.
Proof.
  revert p. induction n as [| x n IH]; intros [| y p] Hn Hp E.
  - reflexivity.
  - apply free_of_head in Hp. simpl in E. injection E as E _. destruct Hp as [Hp _].
    exfalso. apply Hp. symmetry. exact E.
  - apply free_of_head in Hn. simpl in E. injection E as E _. destruct Hn as [Hn _].
    exfalso. apply Hn. exact E.
  - apply free_of_head in Hn, Hp. simpl in E. injection E as -> E.
    f_equal. apply IH; tauto.
Qed.

Lemma conflict_table_names (p : string) :
  dict.has p run_main_typescore.DEPENDENCY_ISSUE_LIBRARIES = true ->
  In p (dict.keys run_main_typescore.DEPENDENCY_ISSUE_LIBRARIES).
Proof.
  intros H.
  destruct (in_dec string_dec p (dict.keys run_main_typescore.DEPENDENCY_ISSUE_LIBRARIES))
    as [Hin | Hnot]; [exact Hin |].
  apply dict_get_keys, dict_has_get in Hnot. congruence.
Qed.

(** Case analysis on a name of the conflict table. *)
Ltac each_conflict_name H :=
  destruct H as [<- | [<- | [<- | [<- | [<- | []]]]]].

(** No argument of the bulk install is a requirement of a package of the
    conflict table. *)
Lemma first_round_excludes (w : World) (pts : dict.t details)
    (st : run_main_typescore.rounds) (p v : string) :
  Forall (fun package => free_of "=" (fp_name package) = true) (alpha_feed w) ->
  run_main_typescore.get_alpha_installs w pts = Ok st ->
  dict.has p run_main_typescore.DEPENDENCY_ISSUE_LIBRARIES = true ->
  ~ In (p ++ "==" ++ v)%string (run_main_typescore.first_round st).
Proof.
  intros Hnames Hst Hp Hin.
  destruct (get_alpha_installs_ok w pts st Hst) as (vti & Hvti & Hassign).
  destruct (assign_rounds_split _ _ _ Hassign (versions_to_install_NoDup w pts vti Hvti))
    as [Hfirst _].
  rewrite Hfirst in Hin. simpl in Hin.
  apply in_flat_map in Hin. destruct Hin as ([n v'] & Hentry & Harg).
  apply filter_In in Hentry. destruct Hentry as [Hentry Hout]. simpl in Hout, Harg.
  apply negb_true_iff in Hout.
  assert (Hn : free_of "=" n = true).
  { destruct (versions_to_install_names w pts vti n Hvti) as (package & Hpk & <-).
    - apply in_map_iff. exists (n, v'). split; [reflexivity | exact Hentry].
    - rewrite Forall_forall in Hnames. apply Hnames. exact Hpk. }
  pose proof (conflict_table_names p Hp) as Hcase. simpl in Hcase.
  assert (Hfree : free_of "=" p = true).
  { each_conflict_name Hcase; reflexivity. }
  destruct Harg as [E | [E | [E | [E | []]]]].
  - apply requirement_name in E; [| assumption | assumption]. congruence.
  - each_conflict_name Hcase; discriminate E.
  - each_conflict_name Hcase; discriminate E.
  - each_conflict_name Hcase; discriminate E.
Qed.


(** A turn of the second loop for a package of the conflict table, in
    terms of the versions taken from the feed. *)
Lemma isolated_turn_block (w : World) (pts : dict.t details)
    (st : run_main_typescore.rounds) (vti : dict.t string)
    (entry : string * list string) (evs : list event) :
  run_main_typescore.versions_to_install w pts = Ok vti ->
  run_main_typescore.assign_rounds vti (run_main_typescore.mkrounds pts [] []) = Ok st ->
  In entry run_main_typescore.DEPENDENCY_ISSUE_LIBRARIES ->
  isolated_turn w (run_main_typescore.second_round st) entry evs ->
  isolated_block w vti entry evs.
Proof.
  intros Hvti Hassign Hentry.
  destruct (assign_rounds_split _ _ _ Hassign (versions_to_install_NoDup w pts vti Hvti))
    as [_ Hsecond].
  assert (Hin : dict.has (fst entry) run_main_typescore.DEPENDENCY_ISSUE_LIBRARIES = true).
  { simpl in Hentry. each_conflict_name Hentry; reflexivity. }
  unfold isolated_turn, isolated_block. rewrite Hsecond, Hin.
  destruct (dict.get (fst entry) vti) as [v |]; [| intros H; exact H].
  intros (scoring & [module ->] & ->). exists module. reflexivity.
Qed.

Lemma Forall2_Forall_left {A B : Type} (P : A -> B -> Prop) (Q : A -> Prop)
    (xs : list A) (ys : list B) :
  (forall x y, In x xs -> P x y -> Q x) -> Forall2 P xs ys -> Forall Q xs.
Proof.
  intros H Hall. induction Hall as [| x y xs ys Hp Hall IH]; constructor.
  - apply (H x y); [left; reflexivity | exact Hp].
  - apply IH. intros x' y' Hin. apply H. right. exact Hin.
Qed.

(** C9: in every run of the two-round pipeline the events are, in this
    order, the bulk install, the scoring of the packages of the first
    round, then for each package of the conflict table in turn its four
    commands and no other (the uninstall of its dependencies, the install
    of the package at its version of the feed, [pip show] on it and the
    checker), then the transaction; a run that raises stops somewhere in
    that sequence, and does so after the uninstall at a package of the
    table that has no version; in a run that ends every package of the
    table has one. In particular whatever precedes an uninstall contains
    the bulk install and all the turns of the first round. *)
Theorem rounds_in_order (w : World) (tr : trace) (pts : dict.t details)
    (st : run_main_typescore.rounds) :
  helpers.get_packages_to_score w (run_main_typescore.IGNORE_PACKAGES w) = Ok pts ->
  run_main_typescore.get_alpha_installs w pts = Ok st ->
  exists versions evs rest,
    run_main_typescore.versions_to_install w pts = Ok versions
    /\ snd (run_main_typescore.main_typescore_function w tr) = (tr ++ evs)%list
    /\ two_rounds_of w st (isolated_block w versions) (evs ++ rest)%list
    /\ (fst (run_main_typescore.main_typescore_function w tr) = Ok tt ->
        rest = []
        /\ Forall (fun entry => dict.has (fst entry) versions = true)
                  run_main_typescore.DEPENDENCY_ISSUE_LIBRARIES)
    /\ (forall before deps after,
           evs = (before ++ Exec (pip_uninstall w deps) :: after)%list ->
           exists blocks1 more,
             Forall2 (first_round_turn w)
                     (dict.keys (run_main_typescore.r_packages st)) blocks1
             /\ before = (installed w (run_main_typescore.first_round st)
                          ++ List.concat blocks1 ++ more)%list).
Proof.
  intros Hpts Hst.
  destruct (get_alpha_installs_ok w pts st Hst) as (versions & Hversions & Hassign).
  assert (E : run_main_typescore.main_typescore_function w tr
              = run_main_typescore.run_rounds w st tr).
  { unfold run_main_typescore.main_typescore_function.
    rewrite bind_run. unfold lift at 1. rewrite Hpts.
    rewrite bind_run. unfold lift at 1. rewrite Hst. reflexivity. }
  rewrite E.
  destruct (run_main_typescore.run_rounds w st tr) as [r tr'] eqn:Hrun.
  destruct (run_rounds_trace w st tr tr' r Hrun) as (evs & -> & Hshape).
  assert (Hfull : exists rest,
             two_rounds w st (evs ++ rest)%list
             /\ (r = Ok tt ->
                 rest = []
                 /\ Forall (fun entry => dict.has (fst entry) versions = true)
                           run_main_typescore.DEPENDENCY_ISSUE_LIBRARIES)).
  { destruct r as [[] | e].
    - exists []. rewrite app_nil_r.
      split; [apply two_rounds_exact_two_rounds; exact Hshape |].
      intros _. split; [reflexivity |].
      destruct Hshape as (blocks1 & blocks2 & entities & _ & Hb2 & _).
      destruct (assign_rounds_split _ _ _ Hassign
                  (versions_to_install_NoDup w pts versions Hversions)) as [_ Hsecond].
      eapply Forall2_Forall_left; [| exact Hb2].
      intros entry block Hentry (packages & Hget & _). rewrite Hsecond in Hget.
      unfold dict.has at 1. destruct (dict.get (fst entry) versions); [reflexivity |].
      discriminate Hget.
    - destruct Hshape as [rest Hrest]. exists rest. split; [exact Hrest | discriminate]. }
  destruct Hfull as (rest & Hrest & Hdone).
  exists versions, evs, rest. cbn [fst snd].
  destruct Hrest as (blocks1 & blocks2 & entities & Hb1 & Hb2 & Hevs).
  split; [exact Hversions |]. split; [reflexivity |].
  split.
  { exists blocks1, blocks2, entities. split; [exact Hb1 |]. split; [| exact Hevs].
    eapply Forall2_impl_in; [| exact Hb2].
    intros entry block Hentry. apply (isolated_turn_block w pts st versions entry block);
      assumption. }
  split; [exact Hdone |].
  intros before deps after Hsplit.
  exists blocks1.
  rewrite Hsplit, <- app_assoc in Hevs. simpl in Hevs. symmetry in Hevs.
  rewrite (app_assoc (installed _ _)) in Hevs.
  destruct (split_after _ _ _ _ _ Hevs
              (first_round_without_uninstall w _ deps _ _ Hb1)) as [more ->].
  exists more. split; [exact Hb1 |]. rewrite <- app_assoc. reflexivity.
Qed.

(** Witness of [rounds_in_order]: a run to the end over a catalog that
    has the five packages of the conflict table. *)
Lemma rounds_in_order_witness :
  exists versions evs rest,
    run_main_typescore.versions_to_install Scenario.main_world
      (match helpers.get_packages_to_score Scenario.main_world
               (run_main_typescore.IGNORE_PACKAGES Scenario.main_world) with
       | Ok pts => pts
       | Raise _ => []
       end)
    = Ok versions
    /\ snd (run_main_typescore.main_typescore_function Scenario.main_world [])
       = ([] ++ evs)%list
    /\ two_rounds_of Scenario.main_world (Scenario.prepared Scenario.main_world)
                     (isolated_block Scenario.main_world versions) (evs ++ rest)%list
    /\ (fst (run_main_typescore.main_typescore_function Scenario.main_world []) = Ok tt ->
        rest = []
        /\ Forall (fun entry => dict.has (fst entry) versions = true)
                  run_main_typescore.DEPENDENCY_ISSUE_LIBRARIES)
    /\ (forall before deps after,
           evs = (before ++ Exec (pip_uninstall Scenario.main_world deps) :: after)%list ->
           exists blocks1 more,
             Forall2 (first_round_turn Scenario.main_world)
                     (dict.keys (run_main_typescore.r_packages
                                   (Scenario.prepared Scenario.main_world))) blocks1
             /\ before = (installed Scenario.main_world
                            (run_main_typescore.first_round
                               (Scenario.prepared Scenario.main_world))
                          ++ List.concat blocks1 ++ more)%list).
Proof.
  refine (rounds_in_order Scenario.main_world []
            (match helpers.get_packages_to_score Scenario.main_world
                     (run_main_typescore.IGNORE_PACKAGES Scenario.main_world) with
             | Ok pts => pts
             | Raise _ => []
             end)
            (Scenario.prepared Scenario.main_world) _ _);
    vm_compute; reflexivity.
Defined.

(** The run of the witness, event by event. *)
Example main_typescore_function_run :
  map Scenario.brief
      (snd (run_main_typescore.main_typescore_function Scenario.main_world []))
  = [ "install azure-widget==3.2.0a20230601001";
      "show azure-widget"; "--verifytypes azure.widget";
      "uninstall -y";
      "install azure-mixedreality-authentication==1.0.1a20230601001";
      "show azure-mixedreality-authentication";
      "--verifytypes azure.mixedreality.authentication";
      "uninstall -y"; "install azure-ai-ml==1.6.0a20230601001";
      "show azure-ai-ml"; "--verifytypes azure.ai.ml";
      "uninstall -y"; "install azure-storage-blob-changefeed==12.0.1a20230601001";
      "show azure-storage-blob-changefeed"; "--verifytypes azure.storage.blob.changefeed";
      "uninstall -y"; "install azure-storage-file-datalake==12.12.0a20230601001";
      "show azure-storage-file-datalake"; "--verifytypes azure.storage.filedatalake";
      "uninstall -y"; "install azure-core==1.27.0a20230601001";
      "show azure-core"; "--verifytypes azure.core";
      "submit" ]
  /\ fst (run_main_typescore.main_typescore_function Scenario.main_world []) = Ok tt.
Proof. vm_compute. split; reflexivity. Qed.

(** A run that raises in the first round issues no uninstall. *)
Example main_typescore_function_broken :
  map Scenario.brief
      (snd (run_main_typescore.main_typescore_function Scenario.broken_main_world []))
  = [ "install azure-widget==3.2.0a20230601001";
      "show azure-widget"; "--verifytypes azure.widget";
      "show azure-gadget"; "--verifytypes azure.gadget" ]
  /\ fst (run_main_typescore.main_typescore_function Scenario.broken_main_world [])
     = Raise (UnboundLocalError "report").
Proof. vm_compute. split; reflexivity. Qed.

(** ** The released pipeline *)

Lemma add_entity_ok (package : string) (pts : dict.t details)
    (ents ents' : list (string * entity)) :
  helpers.add_entity package pts ents = Ok ents' ->
  exists p score pytyped,
    dict.get package pts = Some p /\ Score p = Some score /\ PyTyped p = Some pytyped
    /\ ents' = (ents ++ [("create", entity_of package p score pytyped)])%list.
Proof.
  unfold helpers.add_entity, datetime.new_date.
  destruct (dict.get package pts) as [p |]; [| discriminate].
  destruct (datetime.valid_ymd _ _ _); [| discriminate].
  destruct (Score p) as [score |] eqn:Hs; [| discriminate].
  destruct (PyTyped p) as [pytyped |] eqn:Hp; [| discriminate].
  intros [= <-]. exists p, score, pytyped. unfold entity_of. rewrite Hs, Hp.
  repeat split; reflexivity.
Qed.

Lemma record_score_ok (package : string) (report : option json) (pts pts' : dict.t details)
    (ents ents' : list (string * entity)) :
  helpers.record_score package report pts ents = Ok (pts', ents') ->
  exists p p' e,
    dict.get package pts = Some p /\ pts' = dict.set package p' pts
    /\ ents' = (ents ++ [("create", e)])%list /\ e_RowKey e = package.
Proof.
  unfold helpers.record_score.
  destruct (local "report" report) as [rep |]; [simpl | discriminate].
  destruct (getitem rep "typeCompleteness") as [completeness |]; [simpl | discriminate].
  destruct (get_or_none completeness "pyTypedPath") as [path |]; [simpl | discriminate].
  unfold item. destruct (dict.get package pts) as [p |] eqn:Hget; [simpl | discriminate].
  destruct (getitem completeness "completenessScore") as [fraction |]; [simpl | discriminate].
  destruct (percent fraction) as [score |]; [simpl | discriminate].
  rewrite dict_set_set.
  destruct (helpers.add_entity _ _ _) as [ents1 |] eqn:Hadd; [simpl | discriminate].
  intros [= <- <-].
  destruct (add_entity_ok _ _ _ _ Hadd) as (p1 & s & b & _ & _ & _ & ->).
  eexists p, _, _. repeat split; reflexivity.
Qed.

Lemma score_package_ok (w : World) (package : string) (pts pts' : dict.t details)
    (ents ents' : list (string * entity)) (tr tr' : trace) :
  helpers.score_package w package pts ents tr = (Ok (pts', ents'), tr') ->
  exists evs p p' e,
    tr' = (tr ++ evs)%list /\ scored w package evs
    /\ dict.get package pts = Some p /\ pts' = dict.set package p' pts
    /\ ents' = (ents ++ [("create", e)])%list /\ e_RowKey e = package.
Proof.
  intros Hrun.
  destruct (score_package_trace _ _ _ _ _ _ _ Hrun) as (evs & -> & Hs).
  rewrite score_package_steps in Hrun.
  destruct (helpers.get_module w package tr) as [[module | e] tr1]; [| discriminate].
  cbv zeta in Hrun.
  destruct (helpers.verifytypes_report w None _) as [report |]; [| discriminate].
  simpl in Hrun.
  destruct (helpers.record_score package report pts ents) as [[pts1 ents1] |] eqn:Hrec;
    [| discriminate].
  injection Hrun as <- <- _.
  destruct (record_score_ok _ _ _ _ _ _ Hrec) as (p & p' & e & Hget & -> & -> & He).
  exists evs, p, p', e. repeat split; assumption.
Qed.

Lemma flat_map_agree {A B : Type} (f g : A -> list B) (l : list A) :
  (forall x, In x l -> f x = g x) -> flat_map f l = flat_map g l.
Proof.
  induction l as [| x l IH]; intros H; simpl; [reflexivity |].
  rewrite (H x (or_introl eq_refl)), IH; [reflexivity |].
  intros y Hy. apply H. right. exact Hy.
Qed.

(** [get_released_installs], name by name. *)
Lemma lookups_reused (w : World) (names : list string) :
  forall pts installs pts' installs',
    run_released_typescore.lookups w names (pts, installs) = Ok (pts', installs') ->
    NoDup names ->
    dict.keys pts' = dict.keys pts
    /\ installs' = (installs ++ flat_map (to_install w pts) names)%list
    /\ forall n,
        dict.get n pts'
        = match dict.get n pts with
          | Some p => if mem n names then Some (reused w n p) else Some p
          | None => None
          end.
Proof.
  induction names as [| name names IH]; intros pts installs pts' installs'.
  - intros [= <- <-] _. simpl. rewrite app_nil_r. repeat split.
    intros n. destruct (dict.get n pts); reflexivity.
  - cbn [run_released_typescore.lookups].
    destruct (run_released_typescore.lookup w (pts, installs) name)
      as [[pts1 installs1] |] eqn:Hturn; [| discriminate].
    intros Hrest Hnd. inversion Hnd as [| ? ? Hname Hnd']; subst.
    destruct (IH _ _ _ _ Hrest Hnd') as (Hkeys & Hinst & Hget).
    unfold run_released_typescore.lookup in Hturn.
    destruct (helpers.get_last_month (today w)) as [pk |] eqn:Hpk; [| discriminate].
    unfold item in Hturn.
    destruct (dict.get name pts) as [p |] eqn:Hp; [| discriminate].
    assert (Hturn' : pts1 = dict.set name (reused w name p) pts
                     /\ installs1 = (installs ++ to_install w pts name)%list
                     \/ pts1 = pts /\ cached w name p = None
                        /\ installs1 = (installs ++ to_install w pts name)%list).
    { unfold to_install, reused, cached. rewrite Hp, Hpk.
      destruct (get_entity w pk name) as [entity |].
      - destruct (cell_eq (e_LatestVersion entity) (LatestVersion p));
          injection Hturn as <- <-.
        + left. rewrite app_nil_r. split; reflexivity.
        + right. repeat split; reflexivity.
      - injection Hturn as <- <-. right. repeat split; reflexivity. }
    assert (Hother : forall n, n <> name -> dict.get n pts1 = dict.get n pts).
    { intros n Hn. destruct Hturn' as [[-> _] | [-> _]]; [| reflexivity].
      apply dict_get_set_other. exact Hn. }
    assert (Hsame : dict.get name pts1 = Some (reused w name p)).
    { destruct Hturn' as [[-> _] | (-> & Hc & _)]; [apply dict_get_set |].
      unfold reused. rewrite Hc. exact Hp. }
    assert (Hk1 : dict.keys pts1 = dict.keys pts).
    { destruct Hturn' as [[-> _] | [-> _]]; [| reflexivity].
      apply (dict_keys_set _ _ _ _ Hp). }
    assert (Hi1 : installs1 = (installs ++ to_install w pts name)%list).
    { destruct Hturn' as [[_ H] | (_ & _ & H)]; exact H. }
    split; [congruence |]. split.
    + rewrite Hinst, Hi1. cbn [flat_map]. rewrite <- app_assoc. f_equal. f_equal.
      apply flat_map_agree. intros n Hn. unfold to_install.
      rewrite Hother; [reflexivity |]. intros ->. contradiction.
    + intros n. rewrite Hget. cbn [mem existsb].
      destruct (String.eqb_spec n name) as [-> | Hne].
      * rewrite Hsame, Hp. simpl.
        assert (Hmem : mem name names = false).
        { unfold mem. destruct (existsb (String.eqb name) names) eqn:E; [| reflexivity].
          apply existsb_exists in E. destruct E as (x & Hx & Ex).
          apply String.eqb_eq in Ex. subst. contradiction. }
        rewrite Hmem. reflexivity.
      * rewrite (Hother n Hne). simpl. reflexivity.
Qed.

Lemma mem_In (x : string) (l : list string) : mem x l = true <-> In x l.
Proof.
  unfold mem. rewrite existsb_exists. split.
  - intros (y & Hy & E). apply String.eqb_eq in E. subst. exact Hy.
  - intros H. exists x. split; [exact H | apply eqb_string_refl].
Qed.

Lemma released_turn_ext (w : World) (pts pts' : dict.t details) (package : string)
    (evs : list event) :
  dict.get package pts' = dict.get package pts ->
  released_turn w pts' package evs -> released_turn w pts package evs.
Proof. unfold released_turn. intros ->. tauto. Qed.

(** A turn of the scoring loop of the released pipeline that ends. *)
Lemma released_turn_ok (w : World) (pts pts' : dict.t details)
    (ents ents' : list (string * entity)) (package : string) (tr tr' : trace) :
  run_released_typescore.score_turn w (pts, ents) package tr = (Ok (pts', ents'), tr') ->
  exists evs new,
    tr' = (tr ++ evs)%list /\ ents' = (ents ++ new)%list
    /\ released_turn w pts package evs
    /\ dict.keys pts' = dict.keys pts
    /\ (forall m, m <> package -> dict.get m pts' = dict.get m pts)
    /\ row_keys new = (if String.eqb package "azure-core" then [] else [package])
    /\ (forall p s b,
           package <> "azure-core" -> dict.get package pts = Some p ->
           Score p = Some s -> PyTyped p = Some b ->
           new = [("create", entity_of package p s b)]).
Proof.
  unfold run_released_typescore.score_turn, released_turn.
  destruct (String.eqb_spec package "azure-core") as [Hcore | Hcore].
  - intros [= <- <- <-]. exists [], []. rewrite !app_nil_r.
    repeat split; try reflexivity. intros p s b H. contradiction.
  - rewrite bind_run. unfold lift at 1, item.
    destruct (dict.get package pts) as [p |] eqn:Hget; [| discriminate].
    destruct (Score p) as [s |] eqn:Hs.
    + rewrite bind_run. unfold lift at 1.
      destruct (helpers.add_entity package pts ents) as [ents1 |] eqn:Hadd; [| discriminate].
      intros [= <- <- <-].
      destruct (add_entity_ok _ _ _ _ Hadd) as (p1 & s1 & b1 & Hg1 & Hs1 & Hb1 & ->).
      exists [], [("create", entity_of package p1 s1 b1)]. rewrite app_nil_r.
      repeat split; try reflexivity.
      intros p2 s2 b2 _ Hg2 Hs2 Hb2. congruence.
    + intros Hrun.
      destruct (score_package_ok _ _ _ _ _ _ _ _ Hrun)
        as (evs & p0 & p' & e & -> & Hscored & Hg0 & -> & -> & He).
      exists evs, [("create", e)]. repeat split; try reflexivity; try assumption.
      * apply (dict_keys_set _ _ _ _ Hg0).
      * intros m Hm. apply dict_get_set_other. exact Hm.
      * unfold row_keys. simpl. rewrite He. reflexivity.
      * intros p2 s2 b2 _ Hg2 Hs2 _. congruence.
Qed.

(** The scoring loop of the released pipeline, when it ends. *)
Lemma released_loop_ok (w : World) (names : list string) :
  forall pts pts' ents ents' tr tr',
    NoDup names ->
    for_each (run_released_typescore.score_turn w) names (pts, ents) tr
    = (Ok (pts', ents'), tr') ->
    exists blocks new,
      tr' = (tr ++ List.concat blocks)%list /\ ents' = (ents ++ new)%list
      /\ Forall2 (released_turn w pts) names blocks
      /\ dict.keys pts' = dict.keys pts
      /\ (forall m, ~ In m names -> dict.get m pts' = dict.get m pts)
      /\ row_keys new = filter (fun k => negb (String.eqb k "azure-core")) names
      /\ (forall q p s b,
             In q names -> q <> "azure-core" -> dict.get q pts = Some p ->
             Score p = Some s -> PyTyped p = Some b ->
             In ("create", entity_of q p s b) new).
Proof.
  induction names as [| name names IH]; intros pts pts' ents ents' tr tr' Hnd.
  - intros [= <- <- <-]. exists [], []. rewrite !app_nil_r.
    repeat split; try reflexivity; try constructor. intros q p s b [].
  - cbn [for_each]. rewrite bind_run.
    destruct (run_released_typescore.score_turn w (pts, ents) name tr)
      as [[[pts1 ents1] | e] tr1] eqn:Hturn; [| discriminate].
    intros Hrest. inversion Hnd as [| ? ? Hname Hnd']; subst.
    destruct (released_turn_ok _ _ _ _ _ _ _ _ Hturn)
      as (evs1 & new1 & -> & -> & Hshape1 & Hkeys1 & Hother1 & Hrows1 & Hreuse1).
    destruct (IH _ _ _ _ _ _ Hnd' Hrest)
      as (blocks & new & -> & -> & Hshape & Hkeys & Hother & Hrows & Hreuse).
    assert (Hsame : forall m, In m names -> dict.get m pts1 = dict.get m pts).
    { intros m Hm. apply Hother1. intros ->. contradiction. }
    exists (evs1 :: blocks), (new1 ++ new)%list.
    split; [simpl; rewrite app_assoc; reflexivity |].
    split; [rewrite app_assoc; reflexivity |].
    split.
    { constructor; [exact Hshape1 |].
      eapply Forall2_impl_in; [| exact Hshape].
      intros m evs Hm. apply released_turn_ext. apply Hsame. exact Hm. }
    split; [congruence |].
    split.
    { intros m Hm. rewrite Hother; [apply Hother1 |]; intros H; apply Hm;
        [left; symmetry; exact H | right; exact H]. }
    split.
    { unfold row_keys in *. rewrite map_app, Hrows1, Hrows. cbn [filter].
      destruct (String.eqb name "azure-core"); reflexivity. }
    intros q p s b [<- | Hq] Hcore Hget Hs Hb; apply in_or_app.
    + left. rewrite (Hreuse1 p s b Hcore Hget Hs Hb). left. reflexivity.
    + right. apply (Hreuse q p s b Hq Hcore); [| exact Hs | exact Hb].
      rewrite Hsame; assumption.
Qed.

(** A run of the released pipeline that ends: the work set after the
    cache lookups, the events, and the entities of the transaction. *)
Lemma released_run_ok (w : World) (pts : dict.t details) (tr tr' : trace) :
  helpers.get_packages_to_score w (helpers.IGNORE_PACKAGES w) = Ok pts ->
  run_released_typescore.released_typescore_function w tr = (Ok tt, tr') ->
  exists pts1 blocks new module e,
    (forall n, dict.get n pts1 = option_map (reused w n) (dict.get n pts))
    /\ Forall2 (released_turn w pts1) (dict.keys pts) blocks
    /\ tr' = (tr ++ installed w (flat_map (to_install w pts) (dict.keys pts))
              ++ List.concat blocks
              ++ [Exec (pip_uninstall w core_dependencies);
                  Exec (pip_show w "azure-core");
                  Exec (pyright_verifytypes w module);
                  Submit (new ++ [("create", e)])])%list
    /\ row_keys new
       = filter (fun k => negb (String.eqb k "azure-core")) (dict.keys pts)
    /\ e_RowKey e = "azure-core"
    /\ In "azure-core" (dict.keys pts)
    /\ (forall q p s b,
           q <> "azure-core" -> dict.get q pts1 = Some p ->
           Score p = Some s -> PyTyped p = Some b ->
           In ("create", entity_of q p s b) new).
Proof.
  intros Hpts. unfold run_released_typescore.released_typescore_function.
  rewrite bind_run. unfold lift at 1. rewrite Hpts.
  rewrite bind_run. unfold lift at 1, run_released_typescore.get_released_installs.
  destruct (run_released_typescore.lookups w (dict.keys pts) (pts, []))
    as [[pts1 installs] |] eqn:Hlook; [| discriminate].
  assert (Hnd : NoDup (dict.keys pts)).
  { apply (add_rows_NoDup w (helpers.IGNORE_PACKAGES w) (catalog w) [] pts);
      [constructor | exact Hpts]. }
  destruct (lookups_reused _ _ _ _ _ _ Hlook Hnd) as (Hkeys1 & -> & Hget1).
  rewrite bind_run.
  destruct (helpers.install w _ tr) as [[[] | e0] tr1] eqn:Hin; [| discriminate].
  pose proof (install_trace _ _ _ _ _ Hin) as ->.
  rewrite bind_run. rewrite Hkeys1.
  destruct (for_each (run_released_typescore.score_turn w) (dict.keys pts) (pts1, []) _)
    as [[[pts2 ents2] | e0] tr2] eqn:Hloop; [| discriminate].
  destruct (released_loop_ok _ _ _ _ _ _ _ _ Hnd Hloop)
    as (blocks & new & -> & -> & Hshape & Hkeys2 & _ & Hrows & Hreuse).
  rewrite bind_run.
  destruct (helpers.uninstall_deps w _ _) as [[[] | e0] tr3] eqn:Hun; [| discriminate].
  pose proof (uninstall_trace _ _ _ _ _ Hun) as ->.
  rewrite bind_run.
  destruct (helpers.score_package w "azure-core" pts2 _ _)
    as [[[pts3 ents3] | e0] tr4] eqn:Hcore; [| discriminate].
  destruct (score_package_ok _ _ _ _ _ _ _ _ Hcore)
    as (evs & p & p' & e & -> & [module ->] & Hgetcore & _ & -> & He).
  unfold submit_transaction. intros [= <-].
  exists pts1, blocks, new, module, e.
  split.
  { intros n. rewrite Hget1. destruct (dict.get n pts) as [p0 |] eqn:Hn; [| reflexivity].
    simpl. assert (Hm : mem n (dict.keys pts) = true).
    { apply mem_In. destruct (in_dec string_dec n (dict.keys pts)) as [H | H]; [exact H |].
      apply dict_get_keys in H. congruence. }
    rewrite Hm. reflexivity. }
  split; [exact Hshape |].
  split; [simpl; rewrite <- !app_assoc; reflexivity |].
  split; [exact Hrows |]. split; [exact He |].
  split.
  { rewrite <- Hkeys1, <- Hkeys2.
    destruct (in_dec string_dec "azure-core" (dict.keys pts2)) as [H | H]; [exact H |].
    apply dict_get_keys in H. congruence. }
  intros q p0 s b Hq Hg Hs Hb. apply (Hreuse q p0 s b); try assumption.
  rewrite <- Hkeys1.
  destruct (in_dec string_dec q (dict.keys pts1)) as [H | H]; [exact H |].
  apply dict_get_keys in H. congruence.
Qed.

(** ** Reuse of last month's score *)

Lemma Forall2_concat_In {A B : Type} (P : A -> list B -> Prop) (xs : list A)
    (blocks : list (list B)) (y : B) :
  Forall2 P xs blocks -> In y (List.concat blocks) ->
  exists x block, In x xs /\ P x block /\ In y block.
Proof.
  intros Hall. induction Hall as [| x block xs blocks Hp Hall IH]; simpl; [tauto |].
  rewrite in_app_iff. intros [H | H].
  - exists x, block. split; [left; reflexivity | split; assumption].
  - destruct (IH H) as (x' & block' & Hin & Hp' & Hy).
    exists x', block'. split; [right; exact Hin | split; assumption].
Qed.

(** Where an event of [l ++ l'] is. *)
Lemma app_eq_split {A : Type} (l l' before after : list A) (x : A) :
  (l ++ l' = before ++ x :: after)%list ->
  (exists mid, l = (before ++ x :: mid)%list)
  \/ (exists pre, before = (l ++ pre)%list /\ l' = (pre ++ x :: after)%list).
Proof.
  revert before. induction l as [| y l IH]; intros before E.
  - right. exists before. split; [reflexivity | exact E].
  - destruct before as [| b before]; simpl in E.
    + injection E as <- _. left. exists l. reflexivity.
    + injection E as <- E. destruct (IH before E) as [[mid ->] | (pre & -> & ->)].
      * left. exists mid. reflexivity.
      * right. exists pre. split; reflexivity.
Qed.

Lemma scored_leaves_alone (w : World) (q k : string) (evs rest : list event) :
  k <> q -> scored w k (evs ++ rest)%list -> leaves_alone w q evs.
Proof.
  intros Hk [module E]. split.
  - intros ev Hev.
    assert (Hin : In ev [Exec (pip_show w k); Exec (pyright_verifytypes w module)]).
    { rewrite <- E. apply in_or_app. left. exact Hev. }
    destruct Hin as [<- | [<- | []]].
    + split; [intros [= ->]; contradiction | intros packages; discriminate].
    + split; [discriminate | intros packages; discriminate].
  - intros before module' after Hsplit. rewrite Hsplit, <- app_assoc in E.
    destruct before as [| b before]; [discriminate E |].
    injection E as -> E.
    destruct before as [| b' before].
    + exists [], k. split; [reflexivity | exact Hk].
    + injection E as _ E. destruct before; discriminate E.
Qed.

Lemma leaves_alone_app (w : World) (q : string) (evs evs' : list event) :
  leaves_alone w q evs -> leaves_alone w q evs' -> leaves_alone w q (evs ++ evs')%list.
Proof.
  intros [H1 H2] [H1' H2']. split.
  - intros ev Hev. apply in_app_iff in Hev.
    destruct Hev; [apply H1 | apply H1']; assumption.
  - intros before module after E.
    destruct (app_eq_split _ _ _ _ _ E) as [[mid ->] | (pre & -> & ->)].
    + apply (H2 before module mid). reflexivity.
    + destruct (H2' pre module after eq_refl) as (earlier & k & -> & Hk).
      exists (evs ++ earlier)%list, k. split; [rewrite app_assoc; reflexivity | exact Hk].
Qed.

Lemma leaves_alone_nil (w : World) (q : string) : leaves_alone w q [].
Proof.
  split; [intros ev [] |]. intros before module after E. destruct before; discriminate E.
Qed.

(** An event that is not a command of [pip show], [pip install] or the
    checker. *)
Lemma leaves_alone_one (w : World) (q : string) (ev : event) :
  ev <> Exec (pip_show w q) ->
  (forall packages, ev <> Exec (pip_install w packages)) ->
  (forall module, ev <> Exec (pyright_verifytypes w module)) ->
  leaves_alone w q [ev].
Proof.
  intros Hshow Hinstall Hcheck. split.
  - intros ev' [<- | []]. split; assumption.
  - intros before module after E. destruct before as [| b before].
    + injection E as E _. exfalso. apply (Hcheck module). exact E.
    + injection E as _ E. destruct before; discriminate E.
Qed.

Lemma leaves_alone_uninstall (w : World) (q : string) (deps : list string) :
  leaves_alone w q [Exec (pip_uninstall w deps)].
Proof. apply leaves_alone_one; [| intros packages | intros module]; discriminate. Qed.

Lemma leaves_alone_submit (w : World) (q : string) (entities : list (string * entity)) :
  leaves_alone w q [Submit entities].
Proof. apply leaves_alone_one; [| intros packages | intros module]; discriminate. Qed.

Lemma leaves_alone_prefix (w : World) (q : string) (evs evs' : list event) :
  leaves_alone w q (evs ++ evs')%list -> leaves_alone w q evs.
Proof.
  intros [H1 H2]. split.
  - intros ev Hev. apply H1. apply in_or_app. left. exact Hev.
  - intros before module after ->. apply (H2 before module (after ++ evs')%list).
    rewrite <- app_assoc. reflexivity.
Qed.

(** A turn of the scoring loop of the released pipeline, whatever its
    outcome, leaves a package that has a score alone. *)
Lemma released_turn_skips (w : World) (q : string) (pts : dict.t details)
    (ents : list (string * entity)) (k : string) (tr tr' : trace)
    (r : result (dict.t details * list (string * entity))) :
  has_score q pts ->
  run_released_typescore.score_turn w (pts, ents) k tr = (r, tr') ->
  exists evs,
    tr' = (tr ++ evs)%list /\ leaves_alone w q evs
    /\ match r with
       | Ok (pts', _) => has_score q pts'
       | Raise _ => True
       end.
Proof.
  intros (p & s & Hq & Hs). unfold run_released_typescore.score_turn.
  destruct (String.eqb k "azure-core").
  { intros [= <- <-]. exists []. rewrite app_nil_r.
    split; [reflexivity |]. split; [apply leaves_alone_nil | exists p, s; tauto]. }
  rewrite bind_run. unfold lift at 1, item.
  destruct (dict.get k pts) as [pk |] eqn:Hk.
  2:{ intros [= <- <-]. exists []. rewrite app_nil_r.
      split; [reflexivity |]. split; [apply leaves_alone_nil | exact I]. }
  destruct (Score pk) as [sk |] eqn:Hsk.
  { rewrite bind_run. unfold lift at 1.
    destruct (helpers.add_entity k pts ents); intros [= <- <-]; exists [];
      rewrite app_nil_r; (split; [reflexivity |]); (split; [apply leaves_alone_nil |]);
      [exists p, s; tauto | exact I]. }
  assert (Hne : k <> q) by (intros ->; congruence).
  intros Hrun. destruct (score_package_trace _ _ _ _ _ _ _ Hrun) as (evs & -> & Hshape).
  exists evs. split; [reflexivity |]. destruct r as [[pts' ents'] | e].
  - split; [apply (scored_leaves_alone w q k evs []); [exact Hne |];
            rewrite app_nil_r; exact Hshape |].
    destruct (score_package_ok _ _ _ _ _ _ _ _ Hrun)
      as (_ & _ & p' & _ & _ & _ & _ & -> & _ & _).
    exists p, s. split; [| exact Hs].
    rewrite dict_get_set_other; [exact Hq | intros ->; contradiction].
  - destruct Hshape as [rest Hrest].
    split; [apply (scored_leaves_alone w q k evs rest Hne Hrest) | exact I].
Qed.

Lemma released_loop_skips (w : World) (q : string) (names : list string) :
  forall pts ents tr tr' r,
    has_score q pts ->
    for_each (run_released_typescore.score_turn w) names (pts, ents) tr = (r, tr') ->
    exists evs, tr' = (tr ++ evs)%list /\ leaves_alone w q evs.
Proof.
  induction names as [| k names IH]; intros pts ents tr tr' r Hq.
  - intros [= _ <-]. exists []. rewrite app_nil_r.
    split; [reflexivity | apply leaves_alone_nil].
  - cbn [for_each]. rewrite bind_run.
    destruct (run_released_typescore.score_turn w (pts, ents) k tr)
      as [[[pts1 ents1] | e] tr1] eqn:Hturn;
      destruct (released_turn_skips w q _ _ _ _ _ _ Hq Hturn) as (evs1 & -> & H1 & Hq1).
    + intros Hrest. destruct (IH _ _ _ _ _ Hq1 Hrest) as (evs2 & -> & H2).
      exists (evs1 ++ evs2)%list. split; [rewrite app_assoc; reflexivity |].
      apply leaves_alone_app; assumption.
    + intros [= _ <-]. exists evs1. split; [reflexivity | exact H1].
Qed.

(** With a partition key, the cache lookups of [get_released_installs]
    on the names of the work set do not raise. *)
Lemma lookups_total (w : World) (partition_key : string) (names : list string) :
  helpers.get_last_month (today w) = Ok partition_key ->
  forall pts installs,
    (forall n, In n names -> In n (dict.keys pts)) ->
    exists pts' installs',
      run_released_typescore.lookups w names (pts, installs) = Ok (pts', installs').
Proof.
  intros Hpk. induction names as [| name names IH]; intros pts installs Hin.
  - eexists _, _. reflexivity.
  - cbn [run_released_typescore.lookups].
    unfold run_released_typescore.lookup. rewrite Hpk. unfold item.
    destruct (dict.get name pts) as [p |] eqn:Hp.
    2:{ exfalso. apply dict_get_keys in Hp. apply Hp, Hin. left. reflexivity. }
    assert (Hkeep : forall v n, In n names -> In n (dict.keys (dict.set name v pts))).
    { intros v n Hn. rewrite (dict_keys_set name v p pts Hp). apply Hin. right. exact Hn. }
    destruct (get_entity w partition_key name) as [entity |].
    + destruct (cell_eq (e_LatestVersion entity) (LatestVersion p)).
      * apply IH. apply Hkeep.
      * apply IH. intros n Hn. apply Hin. right. exact Hn.
    + apply IH. intros n Hn. apply Hin. right. exact Hn.
Qed.

(** C2, as the code has it. For a package whose entry of the previous
    month records the version of this run, a run of the released
    pipeline puts nothing of it in the install command. When the package
    is not [azure-core], the run neither looks it up with [pip show] nor
    installs anything while scoring, nor runs the checker for it; and
    when the run ends, the entity submitted for it carries the score and
    the marker flag of that entry. [azure-core] is scored after the loop
    whatever the work set holds for it: a run that ends has uninstalled
    its dependencies, looked it up and run the checker, and the one
    entity of [azure-core] in the transaction is the one of that
    scoring. *)
Theorem cached_score_reused (w : World) (pts : dict.t details) (tr tr' : trace)
    (r : result unit) (q partition_key : string) (p : details) (entity : entity) :
  helpers.get_packages_to_score w (helpers.IGNORE_PACKAGES w) = Ok pts ->
  dict.get q pts = Some p ->
  helpers.get_last_month (today w) = Ok partition_key ->
  get_entity w partition_key q = Some entity ->
  cell_eq (e_LatestVersion entity) (LatestVersion p) = true ->
  run_released_typescore.released_typescore_function w tr = (r, tr') ->
  exists rest,
    tr' = (tr ++ installed w (flat_map (to_install w pts) (dict.keys pts)) ++ rest)%list
    /\ to_install w pts q = []
    /\ (q <> "azure-core" -> leaves_alone w q rest)
    /\ (r = Ok tt ->
        exists scoring module entities core,
          rest = (scoring
                  ++ [Exec (pip_uninstall w core_dependencies);
                      Exec (pip_show w "azure-core");
                      Exec (pyright_verifytypes w module);
                      Submit (entities ++ [("create", core)])])%list
          /\ e_RowKey core = "azure-core"
          /\ (forall x, In x entities -> e_RowKey (snd x) <> "azure-core")
          /\ (q <> "azure-core" ->
              exists e,
                In ("create", e) entities
                /\ e_RowKey e = q
                /\ e_Score e = e_Score entity
                /\ e_PyTyped e = e_PyTyped entity
                /\ e_LatestVersion e = LatestVersion p)).
Proof.
  intros Hpts Hget Hpk Hentity Hversion Hrun.
  assert (Hcached : cached w q p = Some entity).
  { unfold cached. rewrite Hpk, Hentity, Hversion. reflexivity. }
  assert (Hnone : to_install w pts q = []).
  { unfold to_install. rewrite Hget, Hcached. reflexivity. }
  assert (Hs : Score (reused w q p) = Some (e_Score entity)
               /\ PyTyped (reused w q p) = Some (e_PyTyped entity)
               /\ LatestVersion (reused w q p) = LatestVersion p).
  { unfold reused. rewrite Hcached. repeat split. }
  destruct Hs as (Hscore & Hflag & Hlatest).
  assert (Hnd : NoDup (dict.keys pts)).
  { apply (add_rows_NoDup w (helpers.IGNORE_PACKAGES w) (catalog w) [] pts);
      [constructor | exact Hpts]. }
  (* the events, whatever the outcome *)
  assert (Hevents : exists rest,
             tr' = (tr ++ installed w (flat_map (to_install w pts) (dict.keys pts))
                    ++ rest)%list
             /\ (q <> "azure-core" -> leaves_alone w q rest)).
  { revert Hrun. unfold run_released_typescore.released_typescore_function.
    rewrite bind_run. unfold lift at 1. rewrite Hpts.
    rewrite bind_run. unfold lift at 1, run_released_typescore.get_released_installs.
    destruct (lookups_total w partition_key (dict.keys pts) Hpk pts [] (fun n H => H))
      as (pts1 & installs & Hlook).
    rewrite Hlook.
    destruct (lookups_reused _ _ _ _ _ _ Hlook Hnd) as (Hkeys1 & -> & Hget1).
    assert (Hq1 : has_score q pts1).
    { exists (reused w q p), (e_Score entity). split; [| exact Hscore].
      rewrite Hget1, Hget.
      assert (Hm : mem q (dict.keys pts) = true).
      { apply mem_In. destruct (in_dec string_dec q (dict.keys pts)) as [H | H];
          [exact H |]. apply dict_get_keys in H. congruence. }
      rewrite Hm. reflexivity. }
    rewrite bind_run. simpl app.
    destruct (helpers.install w _ tr) as [[[] | e0] tr1] eqn:Hin;
      pose proof (install_trace _ _ _ _ _ Hin) as ->.
    2:{ intros [= _ <-]. exists []. rewrite app_nil_r.
        split; [reflexivity | intros _; apply leaves_alone_nil]. }
    rewrite bind_run.
    destruct (for_each (run_released_typescore.score_turn w) _ _ _)
      as [[[pts2 ents2] | e0] tr2] eqn:Hloop;
      destruct (released_loop_skips w q _ _ _ _ _ _ Hq1 Hloop) as (evs & -> & Hevs).
    2:{ intros [= _ <-]. exists evs.
        split; [rewrite app_assoc; reflexivity | intros _; exact Hevs]. }
    rewrite bind_run.
    destruct (helpers.uninstall_deps w _ _) as [[[] | e0] tr3] eqn:Hun;
      pose proof (uninstall_trace _ _ _ _ _ Hun) as ->.
    2:{ intros [= _ <-].
        exists (evs ++ [Exec (pip_uninstall w core_dependencies)])%list.
        split; [rewrite <- !app_assoc; reflexivity |]. intros _.
        apply leaves_alone_app; [exact Hevs | apply leaves_alone_uninstall]. }
    rewrite bind_run.
    destruct (helpers.score_package w "azure-core" pts2 ents2 _)
      as [[[pts3 ents3] | e0] tr4] eqn:Hsc;
      destruct (score_package_trace _ _ _ _ _ _ _ Hsc) as (evs' & -> & Hshape).
    2:{ intros [= _ <-]. destruct Hshape as [more Hmore].
        exists (evs ++ [Exec (pip_uninstall w core_dependencies)] ++ evs')%list.
        split; [rewrite <- !app_assoc; reflexivity |]. intros Hcore.
        apply leaves_alone_app; [exact Hevs |].
        apply leaves_alone_app; [apply leaves_alone_uninstall |].
        apply (scored_leaves_alone w q "azure-core" evs' more); [congruence | exact Hmore]. }
    unfold submit_transaction. intros [= _ <-].
    exists (evs ++ [Exec (pip_uninstall w core_dependencies)] ++ evs'
            ++ [Submit ents3])%list.
    split; [rewrite <- !app_assoc; reflexivity |]. intros Hcore.
    apply leaves_alone_app; [exact Hevs |].
    apply leaves_alone_app; [apply leaves_alone_uninstall |].
    apply leaves_alone_app; [| apply leaves_alone_submit].
    apply (scored_leaves_alone w q "azure-core" evs' []); [congruence |].
    rewrite app_nil_r. exact Hshape. }
  destruct Hevents as (rest & Htr & Halone).
  exists rest. split; [exact Htr |]. split; [exact Hnone |]. split; [exact Halone |].
  (* the transaction, when the run ends *)
  intros ->.
  destruct (released_run_ok w pts tr tr' Hpts Hrun)
    as (pts1 & blocks & new & module & e & Hget1 & _ & Htr' & Hrows & He & _ & Hreuse).
  assert (Hq1 : dict.get q pts1 = Some (reused w q p)).
  { rewrite Hget1, Hget. reflexivity. }
  exists (List.concat blocks), module, new, e.
  split.
  { rewrite Htr' in Htr. apply app_inv_head in Htr. apply app_inv_head in Htr.
    rewrite <- Htr. reflexivity. }
  split; [exact He |].
  split.
  { intros x Hx Hkey.
    assert (Hin : In (e_RowKey (snd x)) (row_keys new)).
    { unfold row_keys. apply in_map_iff. exists x. split; [reflexivity | exact Hx]. }
    rewrite Hrows in Hin. apply filter_In in Hin. destruct Hin as [_ Hin].
    rewrite Hkey in Hin. discriminate Hin. }
  intros Hcore.
  exists (entity_of q (reused w q p) (e_Score entity) (e_PyTyped entity)).
  split; [apply (Hreuse q _ _ _ Hcore Hq1 Hscore Hflag) |].
  simpl. repeat split. exact Hlatest.
Qed.

(** Witness of [cached_score_reused]: [azure-widget] has last month's
    version; its entity carries last month's score, and the only
    commands of the run are those of [azure-core]. *)
Lemma cached_score_reused_witness :
  exists scoring module entities core e,
    snd (run_released_typescore.released_typescore_function Scenario.released_world [])
    = (scoring
       ++ [Exec (pip_uninstall Scenario.released_world core_dependencies);
           Exec (pip_show Scenario.released_world "azure-core");
           Exec (pyright_verifytypes Scenario.released_world module);
           Submit (entities ++ [("create", core)])])%list
    /\ leaves_alone Scenario.released_world "azure-widget" scoring
    /\ In ("create", e) entities
    /\ e_RowKey e = "azure-widget"
    /\ e_Score e = PyFloat 50
    /\ e_PyTyped e = true.
Proof.
  destruct (cached_score_reused Scenario.released_world
              (Scenario.work_set Scenario.released_world)
              []
              (snd (run_released_typescore.released_typescore_function
                      Scenario.released_world []))
              (Ok tt)
              "azure-widget" "2023-05-15"
              (mkdetails (Str "3.1.0") true true true true Scenario.june15 None None)
              (Scenario.stored "azure-widget" "3.1.0")
              eq_refl eq_refl eq_refl eq_refl eq_refl
              ltac:(vm_compute; reflexivity))
    as (rest & Htr & _ & Halone & Hdone).
  destruct (Hdone eq_refl) as (scoring & module & entities & core & -> & _ & _ & He).
  destruct (He ltac:(discriminate)) as (e & Hin & Hkey & Hscore & Hflag & _).
  exists scoring, module, entities, core, e.
  split; [exact Htr |].
  split; [apply (leaves_alone_prefix _ _ scoring _ (Halone ltac:(discriminate))) |].
  repeat split; assumption.
Defined.

(** C2 at [azure-core]: it has last month's version too, and the
    released pipeline, which has installed nothing, nevertheless looks
    it up, runs the checker on it and submits the new score instead of
    the stored one. *)
Lemma azure_core_rescored :
  let w := Scenario.released_world in
  get_entity w "2023-05-15" "azure-core" = Some (Scenario.stored "azure-core" "1.26.0")
  /\ helpers.get_last_month (today w) = Ok "2023-05-15"
  /\ dict.get "azure-core" (Scenario.work_set w)
     = Some (mkdetails (Str "1.26.0") true true true true Scenario.june15 None None)
  /\ e_Score (Scenario.stored "azure-core" "1.26.0") = PyFloat 50
  /\ exists widget core,
      run_released_typescore.released_typescore_function w []
      = (Ok tt,
         [ Exec (pip_uninstall w core_dependencies);
           Exec (pip_show w "azure-core");
           Exec (pyright_verifytypes w "azure.core");
           Submit [("create", widget); ("create", core)] ])
      /\ e_RowKey widget = "azure-widget" /\ e_Score widget = PyFloat 50
      /\ e_RowKey core = "azure-core" /\ e_Score core = PyInt 100
      /\ e_PyTyped core = false.
Proof.
  cbv zeta. split; [reflexivity |]. split; [reflexivity |].
  split; [vm_compute; reflexivity |]. split; [reflexivity |].
  do 2 eexists. vm_compute. repeat split.
Qed.

(** A package with a new version is installed and scored. *)
Example released_run_with_update :
  map Scenario.brief
      (snd (run_released_typescore.released_typescore_function Scenario.updated_world []))
  = [ "install azure-widget==3.2.0"; "show azure-widget"; "--verifytypes azure.widget";
      "uninstall -y"; "show azure-core"; "--verifytypes azure.core"; "submit" ].
Proof. vm_compute. reflexivity. Qed.

(** ** One entry and one entity per name *)

Lemma add_row_dropped (w : World) (ignored : list string) (pts : dict.t details) (r : row) :
  is_float (r_Package r) = true
  \/ (exists name, r_Package r = Str name
                   /\ (helpers.is_ignored_package w ignored name = true
                       \/ dict.has name pts = true)) ->
  helpers.add_row w ignored pts r = Ok pts.
Proof.
  unfold helpers.add_row. intros [Hfloat | (name & -> & [-> | ->])].
  - destruct (r_Package r); [discriminate | reflexivity | reflexivity].
  - reflexivity.
  - rewrite orb_true_r. reflexivity.
Qed.

(** The entities of a run of the released pipeline that ends: one for
    each name of the work set. *)
Lemma released_entities_once (w : World) (pts : dict.t details) (tr tr' : trace) :
  helpers.get_packages_to_score w (helpers.IGNORE_PACKAGES w) = Ok pts ->
  run_released_typescore.released_typescore_function w tr = (Ok tt, tr') ->
  exists evs entities,
    tr' = (tr ++ evs ++ [Submit entities])%list
    /\ NoDup (row_keys entities)
    /\ forall k, In k (row_keys entities) <-> In k (dict.keys pts).
Proof.
  intros Hpts Hrun.
  destruct (released_run_ok w pts tr tr' Hpts Hrun)
    as (pts1 & blocks & new & module & e & _ & _ & -> & Hrows & He & Hcore & _).
  exists (installed w (flat_map (to_install w pts) (dict.keys pts))
          ++ List.concat blocks
          ++ [Exec (pip_uninstall w core_dependencies); Exec (pip_show w "azure-core");
              Exec (pyright_verifytypes w module)])%list,
         (new ++ [("create", e)])%list.
  split; [rewrite <- !app_assoc; reflexivity |].
  assert (Hkeys : row_keys (new ++ [("create", e)])
                  = (filter (fun k => negb (String.eqb k "azure-core")) (dict.keys pts)
                     ++ ["azure-core"])%list).
  { unfold row_keys in *. rewrite map_app, Hrows. simpl. rewrite He. reflexivity. }
  rewrite Hkeys.
  assert (Hnd : NoDup (dict.keys pts)).
  { apply (add_rows_NoDup w (helpers.IGNORE_PACKAGES w) (catalog w) [] pts);
      [constructor | exact Hpts]. }
  split.
  - apply NoDup_snoc; [apply NoDup_filter; exact Hnd |].
    intros H. apply filter_In in H. destruct H as [_ H]. discriminate H.
  - intros k. rewrite in_app_iff, filter_In. simpl. split.
    + intros [[H _] | [<- | []]]; assumption.
    + intros H. destruct (String.eqb_spec k "azure-core") as [-> | Hne].
      * right. left. reflexivity.
      * left. split; [exact H | reflexivity].
Qed.

(** C8: the work set has each name once; its names are the names of the
    rows that are strings and are not ignored; the entry of a name is
    built from the first row that bears it; a row whose name is a float
    (as a missing name is), with an ignored name or with a name already
    present changes nothing; and a
    run of the released pipeline that ends submits one entity for each
    name of the work set. *)
Theorem work_set_once (w : World) (ignored : list string) (pts : dict.t details) :
  helpers.get_packages_to_score w ignored = Ok pts ->
  NoDup (dict.keys pts)
  /\ (forall name,
         In name (dict.keys pts)
         <-> (exists r, In r (catalog w) /\ r_Package r = Str name)
             /\ helpers.is_ignored_package w ignored name = false)
  /\ (forall before r after name,
         catalog w = (before ++ r :: after)%list ->
         r_Package r = Str name ->
         (forall r', In r' before -> r_Package r' <> Str name) ->
         helpers.is_ignored_package w ignored name = false ->
         exists latest,
           helpers.latest_version w r = Ok latest
           /\ dict.get name pts = Some (helpers.details_of_row w r latest))
  /\ (forall pts0 r,
         is_float (r_Package r) = true
         \/ (exists name, r_Package r = Str name
                          /\ (helpers.is_ignored_package w ignored name = true
                              \/ dict.has name pts0 = true)) ->
         helpers.add_row w ignored pts0 r = Ok pts0)
  /\ (ignored = helpers.IGNORE_PACKAGES w ->
      forall tr tr',
        run_released_typescore.released_typescore_function w tr = (Ok tt, tr') ->
        exists evs entities,
          tr' = (tr ++ evs ++ [Submit entities])%list
          /\ NoDup (row_keys entities)
          /\ forall k, In k (row_keys entities) <-> In k (dict.keys pts)).
Proof.
  intros Hpts. unfold helpers.get_packages_to_score in Hpts.
  split; [apply (add_rows_NoDup w ignored (catalog w) [] pts); [constructor | exact Hpts] |].
  split.
  { intros name. rewrite (add_rows_keys w ignored (catalog w) [] pts Hpts name).
    simpl. tauto. }
  split.
  { intros before r after name Hcat Hname Hfirst Hign. rewrite Hcat in Hpts.
    apply (add_rows_first w ignored before [] pts r after name Hpts Hname Hfirst Hign).
    reflexivity. }
  split; [intros pts0 r; apply add_row_dropped |].
  intros -> tr tr'. apply released_entities_once. exact Hpts.
Qed.

(** Witness of [work_set_once]: a catalog in which [widget-sdk] occurs
    twice and one row has no name. *)
Lemma work_set_once_witness :
  exists pts,
    helpers.get_packages_to_score Scenario.catalog_world [] = Ok pts
    /\ NoDup (dict.keys pts)
    /\ dict.keys pts = ["widget-sdk"; "gadget-sdk"; "preview-sdk"]
    /\ dict.get "widget-sdk" pts = Some (Scenario.enabled "1.2.0").
Proof.
  exists [ ("widget-sdk", Scenario.enabled "1.2.0");
           ("gadget-sdk", Scenario.enabled "2.0.0a1");
           ("preview-sdk", Scenario.enabled "1.0.0b2") ].
  pose proof (work_set_once Scenario.catalog_world []
                [ ("widget-sdk", Scenario.enabled "1.2.0");
                  ("gadget-sdk", Scenario.enabled "2.0.0a1");
                  ("preview-sdk", Scenario.enabled "1.0.0b2") ]
                ltac:(vm_compute; reflexivity)) as (Hnd & _ & Hfirst & _).
  split; [vm_compute; reflexivity |]. split; [exact Hnd |]. split; [reflexivity |].
  destruct (Hfirst [] (mkrow (Str "widget-sdk") (Str "1.2.0") NaN (Str "widget"))
                   (tl Scenario.catalog_rows) "widget-sdk" eq_refl eq_refl
                   ltac:(intros r' []) eq_refl) as (latest & Hlatest & Hget).
  injection Hlatest as <-. exact Hget.
Defined.

(** The entities of the released run over two packages. *)
Example released_entities :
  exists entities,
    last (snd (run_released_typescore.released_typescore_function
                 Scenario.updated_world []))
         (Submit [])
    = Submit entities
    /\ row_keys entities = ["azure-widget"; "azure-core"].
Proof. eexists. vm_compute. split; reflexivity. Qed.

(** C3, as the code has it. In the two-round pipeline no argument of the
    bulk install of the first round is a requirement of a package of the
    conflict table; and in a run to the end, each package of the table is
    installed in its own turn of the second round, by a command that
    names that package only (and the checker), issued right after the
    uninstall of the dependencies that the table records for it. The
    released pipeline does not consult the table: its install list holds
    the requirement of every package without a reusable entry. *)
Theorem conflict_table_isolated (w : World) (pts : dict.t details)
    (st : run_main_typescore.rounds) (tr tr' : trace) :
  Forall (fun package => free_of "=" (fp_name package) = true) (alpha_feed w) ->
  run_main_typescore.get_alpha_installs w pts = Ok st ->
  (forall p v,
      dict.has p run_main_typescore.DEPENDENCY_ISSUE_LIBRARIES = true ->
      ~ In (p ++ "==" ++ v)%string (run_main_typescore.first_round st))
  /\ (run_main_typescore.run_rounds w st tr = (Ok tt, tr') ->
      exists versions blocks1 blocks2 entities,
        run_main_typescore.versions_to_install w pts = Ok versions
        /\ tr' = (tr ++ installed w (run_main_typescore.first_round st)
                  ++ List.concat blocks1 ++ List.concat blocks2 ++ [Submit entities])%list
        /\ Forall2 (first_round_turn w)
                   (dict.keys (run_main_typescore.r_packages st)) blocks1
        /\ Forall2 (fun entry evs =>
                      exists v module,
                        dict.get (fst entry) versions = Some v
                        /\ evs = isolated_install w entry v module)
                   run_main_typescore.DEPENDENCY_ISSUE_LIBRARIES blocks2)
  /\ (forall released released' install_packages,
         NoDup (dict.keys released) ->
         run_released_typescore.get_released_installs w released
         = Ok (released', install_packages) ->
         install_packages = flat_map (to_install w released) (dict.keys released)).
Proof.
  intros Hnames Hst.
  destruct (get_alpha_installs_ok w pts st Hst) as (vti & Hvti & Hassign).
  split; [| split].
  - intros p v. apply (first_round_excludes w pts st p v Hnames Hst).
  - intros Hrun.
    destruct (run_rounds_trace w st tr tr' _ Hrun)
      as (evs & -> & blocks1 & blocks2 & entities & Hb1 & Hb2 & ->).
    exists vti, blocks1, blocks2, entities.
    split; [exact Hvti |]. split; [reflexivity |]. split; [exact Hb1 |].
    destruct (assign_rounds_split _ _ _ Hassign (versions_to_install_NoDup w pts vti Hvti))
      as [_ Hsecond].
    assert (Hin : forall entry,
               In entry run_main_typescore.DEPENDENCY_ISSUE_LIBRARIES ->
               dict.has (fst entry) run_main_typescore.DEPENDENCY_ISSUE_LIBRARIES = true).
    { intros entry H. simpl in H. each_conflict_name H; reflexivity. }
    eapply Forall2_impl_in; [| exact Hb2].
    intros entry evs Hentry (packages & Hget & scoring & [module ->] & ->).
    rewrite Hsecond, (Hin entry Hentry) in Hget.
    destruct (dict.get (fst entry) vti) as [v |]; [| discriminate].
    injection Hget as <-. exists v, module. split; reflexivity.
  - intros released released' install_packages Hnd Hlook.
    destruct (lookups_reused w _ _ _ _ _ Hlook Hnd) as (_ & -> & _). reflexivity.
Qed.

(** Witness of [conflict_table_isolated]: the run over the catalog with
    the five packages of the conflict table. *)
Lemma conflict_table_isolated_witness :
  (forall p v,
      dict.has p run_main_typescore.DEPENDENCY_ISSUE_LIBRARIES = true ->
      ~ In (p ++ "==" ++ v)%string
           (run_main_typescore.first_round (Scenario.prepared Scenario.main_world)))
  /\ run_main_typescore.first_round (Scenario.prepared Scenario.main_world)
     = ["azure-widget==3.2.0a20230601001"; "--extra-index-url";
        run_main_typescore.extra_index_url; "--pre"].
Proof.
  split.
  - exact (proj1 (conflict_table_isolated Scenario.main_world
                    (match helpers.get_packages_to_score Scenario.main_world
                             (run_main_typescore.IGNORE_PACKAGES Scenario.main_world) with
                     | Ok pts => pts
                     | Raise _ => []
                     end)
                    (Scenario.prepared Scenario.main_world) [] []
                    ltac:(repeat constructor) ltac:(vm_compute; reflexivity))).
  - vm_compute. reflexivity.
Defined.

Example second_round_of_the_run :
  run_main_typescore.second_round (Scenario.prepared Scenario.main_world)
  = [ ("azure-core",
       run_main_typescore.requirement "azure-core" "1.27.0a20230601001");
      ("azure-ai-ml",
       run_main_typescore.requirement "azure-ai-ml" "1.6.0a20230601001");
      ("azure-storage-file-datalake",
       run_main_typescore.requirement "azure-storage-file-datalake" "12.12.0a20230601001");
      ("azure-storage-blob-changefeed",
       run_main_typescore.requirement "azure-storage-blob-changefeed" "12.0.1a20230601001");
      ("azure-mixedreality-authentication",
       run_main_typescore.requirement "azure-mixedreality-authentication"
                                      "1.0.1a20230601001") ].
Proof. vm_compute. reflexivity. Qed.

(** C3, the released pipeline: [azure-core] is a package of the conflict
    table and has no entry of the previous month; its requirement is in
    the one install command of the run, next to that of [azure-widget]. *)
Lemma released_installs_azure_core :
  let w := Scenario.scoring_world Scenario.released_catalog Scenario.no_entity in
  dict.has "azure-core" run_main_typescore.DEPENDENCY_ISSUE_LIBRARIES = true
  /\ (exists released',
        run_released_typescore.get_released_installs w (Scenario.work_set w)
        = Ok (released', ["azure-widget==3.1.0"; "azure-core==1.26.0"]))
  /\ map Scenario.brief
         (snd (run_released_typescore.released_typescore_function w []))
     = [ "install azure-widget==3.1.0"; "show azure-widget"; "--verifytypes azure.widget";
         "uninstall -y"; "show azure-core"; "--verifytypes azure.core"; "submit" ]
  /\ In "azure-core==1.26.0"
        (match hd (Submit []) (snd (run_released_typescore.released_typescore_function w []))
         with
         | Exec command => command
         | Submit _ => []
         end).
Proof.
  cbv zeta. split; [reflexivity |]. split; [eexists; vm_compute; reflexivity |].
  split; [vm_compute; reflexivity |]. vm_compute. tauto.
Qed.

(** * Further properties *)

(** ** What enters the work set *)

(** X1: a name of the exact ignore list, such as the names that
    helpers.py appends to it, is never a name of the work set. *)
Theorem ignored_names_dropped (w : World) (ignored : list string) (pts : dict.t details)
    (name : string) :
  helpers.get_packages_to_score w ignored = Ok pts ->
  In name ignored ->
  ~ In name (dict.keys pts).
Proof.
  intros Hpts Hname Hin.
  apply (add_rows_keys w ignored (catalog w) [] pts Hpts name) in Hin.
  destruct Hin as [[] | [_ Hign]].
  unfold helpers.is_ignored_package in Hign.
  apply mem_In in Hname. rewrite Hname in Hign. discriminate.
Qed.

(** Witness of [ignored_names_dropped]: [msrest] is in the catalog and
    in the list of helpers.py. *)
Lemma ignored_names_dropped_witness :
  In (Scenario.released "msrest" "0.7.1") (catalog More.filtered_world)
  /\ ~ In "msrest" (dict.keys (Scenario.work_set More.filtered_world)).
Proof.
  split; [left; reflexivity |].
  apply (ignored_names_dropped More.filtered_world
           (helpers.IGNORE_PACKAGES More.filtered_world)).
  - vm_compute. reflexivity.
  - unfold helpers.IGNORE_PACKAGES. apply in_or_app. right.
    unfold helpers.additional_ignores. simpl. tauto.
Defined.

(** X2: for a name of the catalog that is not on the exact ignore list,
    the pattern filter decides: a name that contains one of the
    identifiers of the filter is dropped, unless it is exempted from the
    filter, in which case it enters the work set. *)
Theorem pattern_filter (w : World) (ignored : list string) (pts : dict.t details)
    (r : row) (name : string) :
  helpers.get_packages_to_score w ignored = Ok pts ->
  In r (catalog w) -> r_Package r = Str name ->
  ~ In name ignored ->
  (In name (ci_FILTER_EXCLUSIONS w) -> In name (dict.keys pts))
  /\ (~ In name (ci_FILTER_EXCLUSIONS w) ->
      (In name (dict.keys pts)
       <-> forall identifier,
          In identifier (ci_IGNORE_FILTER w) -> contains identifier name = false)).
Proof.
  intros Hpts Hr Hname Hnot.
  pose proof (add_rows_keys w ignored (catalog w) [] pts Hpts name) as Hkeys.
  assert (Hmem : mem name ignored = false).
  { destruct (mem name ignored) eqn:E; [| reflexivity].
    apply mem_In in E. contradiction. }
  assert (Hiff : In name (dict.keys pts)
                 <-> helpers.is_ignored_package w ignored name = false).
  { rewrite Hkeys. simpl. split.
    - intros [[] | [_ H]]. exact H.
    - intros H. right. split; [exists r; tauto | exact H]. }
  unfold helpers.is_ignored_package in Hiff. rewrite Hmem in Hiff.
  split.
  - intros Hex. apply Hiff. apply mem_In in Hex. rewrite Hex. reflexivity.
  - intros Hex.
    assert (Hmem' : mem name (ci_FILTER_EXCLUSIONS w) = false).
    { destruct (mem name (ci_FILTER_EXCLUSIONS w)) eqn:E; [| reflexivity].
      apply mem_In in E. contradiction. }
    rewrite Hiff, Hmem'. simpl negb. rewrite andb_true_l.
    destruct (existsb (fun identifier => contains identifier name) (ci_IGNORE_FILTER w))
      eqn:E.
    + split; [discriminate |]. intros H.
      apply existsb_exists in E. destruct E as (identifier & Hid & Hc).
      rewrite (H identifier Hid) in Hc. discriminate.
    + split; [| reflexivity]. intros _ identifier Hid.
      destruct (contains identifier name) eqn:Hc; [| reflexivity].
      assert (existsb (fun identifier => contains identifier name) (ci_IGNORE_FILTER w)
              = true) by (apply existsb_exists; exists identifier; tauto).
      congruence.
Qed.

(** Witness of [pattern_filter]: [azure-mgmt-core] is exempted and
    enters the work set; [azure-mgmt-compute] is not and is dropped. *)
Lemma pattern_filter_witness :
  In "azure-mgmt-core" (dict.keys (Scenario.work_set More.filtered_world))
  /\ ~ In "azure-mgmt-compute" (dict.keys (Scenario.work_set More.filtered_world)).
Proof.
  split.
  - apply (proj1 (pattern_filter More.filtered_world
                    (helpers.IGNORE_PACKAGES More.filtered_world)
                    (Scenario.work_set More.filtered_world)
                    (Scenario.released "azure-mgmt-core" "1.4.0") "azure-mgmt-core"
                    ltac:(vm_compute; reflexivity)
                    ltac:(right; left; reflexivity) eq_refl
                    ltac:(vm_compute; intuition discriminate))).
    left. reflexivity.
  - vm_compute. intuition discriminate.
Defined.

Example filtered_work_set :
  dict.keys (Scenario.work_set More.filtered_world) = ["azure-mgmt-core"; "azure-widget"].
Proof. vm_compute. reflexivity. Qed.

Lemma dict_has_mem {V : Type} (k : string) (d : dict.t V) :
  dict.has k d = mem k (dict.keys d).
Proof.
  destruct (dict.has k d) eqn:E; symmetry.
  - apply mem_In. destruct (in_dec string_dec k (dict.keys d)) as [H | H]; [exact H |].
    apply dict_get_keys, dict_has_get in H. congruence.
  - destruct (mem k (dict.keys d)) eqn:M; [| reflexivity].
    apply mem_In in M. apply dict_has_get, dict_get_keys in E. contradiction.
Qed.

Lemma add_rows_order (w : World) (ignored : list string) (rows : list row) :
  forall pts pts',
    helpers.add_rows w ignored rows pts = Ok pts' ->
    dict.keys pts'
    = (dict.keys pts
       ++ first_occurrences (dict.keys pts)
            (filter (fun n => negb (helpers.is_ignored_package w ignored n))
                    (names_of rows)))%list.
Proof.
  induction rows as [| r rows IH]; intros pts pts'.
  - intros [= <-]. simpl. rewrite app_nil_r. reflexivity.
  - cbn [helpers.add_rows].
    destruct (helpers.add_row w ignored pts r) as [pts1 |] eqn:Hrow; [| discriminate].
    intros Hrest. rewrite (IH _ _ Hrest).
    unfold names_of. cbn [flat_map]. fold (names_of rows).
    destruct (add_row_cases _ _ _ _ _ Hrow)
      as [[-> Hwhy] | (n & latest & Hn & Hign & Hhas & _ & ->)].
    + destruct Hwhy as [Hfloat | (n & -> & Hwhy)].
      { destruct (r_Package r); [discriminate Hfloat | reflexivity | reflexivity]. }
      cbn [app filter].
      destruct (helpers.is_ignored_package w ignored n) eqn:Hign; [reflexivity |].
      destruct Hwhy as [H | Hhas]; [discriminate |].
      cbn [negb first_occurrences]. rewrite <- dict_has_mem, Hhas. reflexivity.
    + rewrite Hn. cbn [app filter]. rewrite Hign. cbn [negb first_occurrences].
      rewrite <- dict_has_mem, Hhas, keys_app, <- app_assoc. reflexivity.
Qed.

(** X3: the names of the work set are in the order of the catalog: they
    are the names of the catalog that are not ignored, each at its first
    occurrence. *)
Theorem work_set_order (w : World) (ignored : list string) (pts : dict.t details) :
  helpers.get_packages_to_score w ignored = Ok pts ->
  dict.keys pts
  = first_occurrences []
      (filter (fun n => negb (helpers.is_ignored_package w ignored n))
              (names_of (catalog w))).
Proof. intros Hpts. apply (add_rows_order w ignored (catalog w) [] pts Hpts). Qed.

(** Witness of [work_set_order]: the catalog in which [widget-sdk] occurs
    before and after [gadget-sdk]. *)
Lemma work_set_order_witness :
  names_of (catalog Scenario.catalog_world)
  = ["widget-sdk"; "gadget-sdk"; "widget-sdk"; "preview-sdk"]
  /\ dict.keys (match helpers.get_packages_to_score Scenario.catalog_world [] with
                | Ok pts => pts
                | Raise _ => []
                end)
     = ["widget-sdk"; "gadget-sdk"; "preview-sdk"].
Proof.
  split; [reflexivity |].
  rewrite (work_set_order Scenario.catalog_world []
             (match helpers.get_packages_to_score Scenario.catalog_world [] with
              | Ok pts => pts
              | Raise _ => []
              end) ltac:(vm_compute; reflexivity)).
  vm_compute. reflexivity.
Defined.

Lemma add_row_raises (w : World) (ignored : list string) (pts : dict.t details)
    (r : row) (e : exn) :
  helpers.add_row w ignored pts r = Raise e -> e = InvalidVersion.
Proof.
  unfold helpers.add_row, helpers.latest_version, helpers.parse_cell.
  destruct (r_Package r) as [name | | x]; [| discriminate | discriminate].
  destruct (_ || _); [discriminate |].
  destruct (r_VersionGA r) as [ga | | x]; simpl; [| discriminate | discriminate].
  destruct (parse w ga); [| intros [= <-]; reflexivity].
  destruct (r_VersionPreview r) as [preview | | x]; simpl; [| discriminate | discriminate].
  destruct (parse w preview); [discriminate | intros [= <-]; reflexivity].
Qed.

(** X4: a GA version that does not parse is not tolerated like a
    missing one: at the first row of a name that is not ignored, it makes
    [get_packages_to_score] raise [InvalidVersion], whatever the
    pre-release field and the other rows are, and no work set is built. *)
Theorem invalid_version_aborts (w : World) (ignored : list string)
    (before after : list row) (r : row) (name ga : string) :
  catalog w = (before ++ r :: after)%list ->
  r_Package r = Str name ->
  (forall r', In r' before -> r_Package r' <> Str name) ->
  helpers.is_ignored_package w ignored name = false ->
  r_VersionGA r = Str ga ->
  parse w ga = None ->
  helpers.get_packages_to_score w ignored = Raise InvalidVersion.
Proof.
  intros Hcat Hname Hfirst Hign Hga Hparse.
  unfold helpers.get_packages_to_score. rewrite Hcat. clear Hcat.
  assert (G : forall pts,
             dict.has name pts = false ->
             helpers.add_rows w ignored (before ++ r :: after) pts = Raise InvalidVersion).
  { revert Hfirst. induction before as [| r0 before IH]; intros Hfirst pts Hhas.
    - cbn [app helpers.add_rows].
      rewrite (add_row_survivor w ignored pts r name Hname Hign Hhas).
      unfold helpers.latest_version, helpers.parse_cell. rewrite Hga, Hparse. reflexivity.
    - cbn [app helpers.add_rows].
      destruct (helpers.add_row w ignored pts r0) as [pts1 | e] eqn:Hrow.
      + apply IH; [intros r' Hin; apply Hfirst; right; exact Hin |].
        destruct (add_row_cases _ _ _ _ _ Hrow)
          as [[-> _] | (n & latest & Hn & _ & _ & _ & ->)]; [exact Hhas |].
        apply dict_has_get. rewrite dict_get_app_new.
        apply dict_has_get in Hhas. rewrite Hhas.
        destruct (String.eqb_spec name n) as [-> | Hne]; [| reflexivity].
        exfalso. apply (Hfirst r0 (or_introl eq_refl)). exact Hn.
      + rewrite (add_row_raises _ _ _ _ _ Hrow). reflexivity. }
  apply G. reflexivity.
Qed.

(** Witness of [invalid_version_aborts]: the second row of the catalog
    has a GA version that is no version, and a pre-release that is one. *)
Lemma invalid_version_aborts_witness :
  helpers.get_packages_to_score More.invalid_world
    (helpers.IGNORE_PACKAGES More.invalid_world)
  = Raise InvalidVersion.
Proof.
  apply (invalid_version_aborts More.invalid_world _
           [Scenario.released "azure-widget" "3.1.0"]
           [Scenario.released "azure-core" "1.26.0"]
           (mkrow (Str "azure-gadget") (Str "not-a-version") (Str "1.0.0b1") (Str "sdk"))
           "azure-gadget" "not-a-version" eq_refl eq_refl).
  - intros r' [<- | []]. discriminate.
  - vm_compute. reflexivity.
  - reflexivity.
  - vm_compute. reflexivity.
Defined.

(** ** The partition key, written and looked up *)

Lemma ascii_of_nat_inj (n m : nat) :
  (n < 256)%nat -> (m < 256)%nat -> ascii_of_nat n = ascii_of_nat m -> n = m.
Proof.
  intros Hn Hm E. rewrite <- (nat_ascii_embedding n Hn), <- (nat_ascii_embedding m Hm), E.
  reflexivity.
Qed.

Lemma digit_inj (a b : Z) : datetime.digit a = datetime.digit b -> a mod 10 = b mod 10.
Proof.
  unfold datetime.digit. intros E.
  pose proof (Z.mod_pos_bound a 10 ltac:(lia)) as Ha.
  pose proof (Z.mod_pos_bound b 10 ltac:(lia)) as Hb.
  apply ascii_of_nat_inj in E; lia.
Qed.

Lemma digits2_inj (a b : Z) :
  0 <= a < 100 -> 0 <= b < 100 -> datetime.digits2 a = datetime.digits2 b -> a = b.
Proof.
  unfold datetime.digits2. intros Ha Hb E. injection E as E1 E2.
  apply digit_inj in E1, E2. revert E1 E2. Z.div_mod_to_equations. lia.
Qed.

Lemma digits4_inj (a b : Z) :
  0 <= a < 10000 -> 0 <= b < 10000 -> datetime.digits4 a = datetime.digits4 b -> a = b.
Proof.
  unfold datetime.digits4, datetime.digits2. intros Ha Hb E. injection E as E1 E2 E3 E4.
  apply digit_inj in E1, E2, E3, E4. revert E1 E2 E3 E4. Z.div_mod_to_equations. lia.
Qed.

(** Two days of the calendar have different ISO texts. *)
Lemma date_str_inj (y m d y' m' d' : Z) :
  0 <= y < 10000 -> 0 <= m < 100 -> 0 <= d < 100 ->
  0 <= y' < 10000 -> 0 <= m' < 100 -> 0 <= d' < 100 ->
  datetime.str (datetime.mkdate y m d) = datetime.str (datetime.mkdate y' m' d') ->
  y = y' /\ m = m' /\ d = d'.
Proof.
  intros Hy Hm Hd Hy' Hm' Hd' E.
  unfold datetime.str, datetime.digits4, datetime.digits2 in E.
  cbn [datetime.d_year datetime.d_month datetime.d_day append] in E.
  injection E as E1 E2 E3 E4 E5 E6 E7 E8.
  apply digit_inj in E1, E2, E3, E4, E5, E6, E7, E8.
  revert E1 E2 E3 E4 E5 E6 E7 E8. Z.div_mod_to_equations. lia.
Qed.

Lemma Ok_inj {A : Type} (a b : A) : Ok a = Ok b -> a = b.
Proof. intros E. injection E as E. exact E. Qed.

Lemma valid_day (d : datetime.t) :
  datetime.valid d = true ->
  datetime.day d <= datetime.days_in_month (datetime.year d) (datetime.month d) <= 31.
Proof.
  intros Hv. unfold datetime.valid, datetime.valid_ymd in Hv.
  do 8 (apply andb_true_iff in Hv; destruct Hv as [Hv _]).
  apply andb_true_iff in Hv. destruct Hv as [_ Hv]. apply Z.leb_le in Hv.
  split; [exact Hv |]. unfold datetime.days_in_month.
  destruct (_ =? 2); [destruct (datetime.is_leap _); lia |].
  destruct (_ || _); lia.
Qed.

(** X5: the partition under which [add_entity] files an entity is the
    one that [get_last_month] computes for a later run exactly when that
    run takes place on the same day of the following month. *)
Theorem partition_key_round_trip (package : string) (pts : dict.t details) (p : details)
    (e : entity) (today : datetime.t) :
  dict.get package pts = Some p ->
  helpers.add_entity package pts [] = Ok [("create", e)] ->
  datetime.valid (Date p) = true ->
  datetime.valid today = true ->
  helpers.get_last_month today = Ok (e_PartitionKey e)
  <-> datetime.day today = datetime.day (Date p)
      /\ ((datetime.month today = datetime.month (Date p) + 1
           /\ datetime.year today = datetime.year (Date p))
          \/ (datetime.month today = 1 /\ datetime.month (Date p) = 12
              /\ datetime.year today = datetime.year (Date p) + 1)).
Proof.
  intros Hget Hadd Hwritten Htoday.
  destruct (add_entity_ok _ _ _ _ Hadd) as (p1 & s & b & Hget1 & _ & _ & Hents).
  assert (p1 = p) by congruence. subst p1.
  injection Hents as ->. cbn [e_PartitionKey entity_of].
  destruct (get_last_month_outcome today Htoday) as [Hraise Hok].
  destruct (valid_fields today Htoday) as (Hy & Hm & Hd).
  destruct (valid_fields (Date p) Hwritten) as (Hy' & Hm' & Hd').
  pose proof (valid_day today Htoday) as Hday.
  pose proof (valid_day (Date p) Hwritten) as Hday'.
  split.
  - intros Hkey.
    destruct (Z_lt_le_dec
                (datetime.days_in_month
                   (if datetime.month today =? 1
                    then datetime.year today - 1 else datetime.year today)
                   (if datetime.month today =? 1 then 12 else datetime.month today - 1))
                (datetime.day today)) as [Hlt | Hle].
    { rewrite Hraise in Hkey; [discriminate | left; exact Hlt]. }
    destruct (Z_lt_le_dec
                (if datetime.month today =? 1
                 then datetime.year today - 1 else datetime.year today) 1) as [Hlow | Hhigh].
    { rewrite Hraise in Hkey; [discriminate | right; exact Hlow]. }
    rewrite (Hok Hle Hhigh) in Hkey. apply Ok_inj in Hkey.
    apply date_str_inj in Hkey; try lia;
      destruct (Z.eqb_spec (datetime.month today) 1); lia.
  - intros [Eday Hmonth].
    assert (E : (if datetime.month today =? 1
                 then datetime.year today - 1 else datetime.year today)
                = datetime.year (Date p)
                /\ (if datetime.month today =? 1 then 12 else datetime.month today - 1)
                   = datetime.month (Date p)).
    { destruct (Z.eqb_spec (datetime.month today) 1); lia. }
    destruct E as [Ey Em]. rewrite Hok; rewrite ?Ey, ?Em, ?Eday; [reflexivity | lia | lia].
Qed.

(** Witness of [partition_key_round_trip]: an entity written on 15 May
    2023 is in the partition that the run of 15 June 2023 looks up. *)
Lemma partition_key_round_trip_witness :
  helpers.get_last_month Scenario.june15
  = Ok (e_PartitionKey
          (entity_of "azure-widget"
             (mkdetails (Str "3.1.0") true true true true
                        (datetime.mk 2023 5 15 13 0 0 0) (Some (PyFloat 50)) (Some true))
             (PyFloat 50) true)).
Proof.
  apply (partition_key_round_trip "azure-widget"
           [("azure-widget",
             mkdetails (Str "3.1.0") true true true true
                       (datetime.mk 2023 5 15 13 0 0 0) (Some (PyFloat 50)) (Some true))]
           _ _ Scenario.june15 eq_refl eq_refl eq_refl eq_refl).
  vm_compute. intuition discriminate.
Defined.

(** A run one day later looks up another partition. *)
Example partition_key_next_day :
  helpers.get_last_month (datetime.mk 2023 6 16 13 0 0 0) = Ok "2023-05-16".
Proof. reflexivity. Qed.

(** ** One transaction, at the end or not at all *)

Lemma only_commands_nil : only_commands [].
Proof. intros ev []. Qed.

Lemma only_commands_app (evs evs' : list event) :
  only_commands evs -> only_commands evs' -> only_commands (evs ++ evs').
Proof.
  intros H H' ev Hin. apply in_app_or in Hin. destruct Hin; [apply H | apply H']; assumption.
Qed.

Lemma only_commands_exec (command : list string) : only_commands [Exec command].
Proof. intros ev [<- | []]. exists command. reflexivity. Qed.

Lemma quiet_ret {A : Type} (a : A) : quiet (ret a).
Proof.
  intros tr r tr' E. injection E as _ <-. exists []. rewrite app_nil_r.
  split; [reflexivity | apply only_commands_nil].
Qed.

Lemma quiet_lift {A : Type} (r : result A) : quiet (lift r).
Proof.
  intros tr r' tr' E. injection E as _ <-. exists []. rewrite app_nil_r.
  split; [reflexivity | apply only_commands_nil].
Qed.

Lemma quiet_bind {A B : Type} (m : M A) (k : A -> M B) :
  quiet m -> (forall a, quiet (k a)) -> quiet (bind m k).
Proof.
  intros Hm Hk tr r tr' E. unfold bind in E.
  destruct (m tr) as [r1 tr1] eqn:E1.
  destruct (Hm _ _ _ E1) as (evs & -> & Hevs).
  destruct r1 as [a | e].
  - destruct (Hk a _ _ _ E) as (evs' & -> & Hevs').
    exists (evs ++ evs')%list. rewrite app_assoc.
    split; [reflexivity | apply only_commands_app; assumption].
  - injection E as _ <-. exists evs. split; [reflexivity | assumption].
Qed.

Lemma quiet_subprocess_run (w : World) (command : list string) :
  quiet (subprocess_run w command).
Proof.
  intros tr r tr' E. injection E as _ <-. exists [Exec command].
  split; [reflexivity | apply only_commands_exec].
Qed.

Lemma quiet_try_run (w : World) (command : list string) : quiet (try_run w command).
Proof.
  intros tr r tr' E. injection E as _ <-. exists [Exec command].
  split; [reflexivity | apply only_commands_exec].
Qed.

Lemma quiet_check_call (w : World) (command : list string) : quiet (check_call w command).
Proof.
  apply quiet_bind; [apply quiet_subprocess_run | intros; apply quiet_ret].
Qed.

Lemma quiet_for_each {A S : Type} (body : S -> A -> M S) (xs : list A) :
  (forall s x, quiet (body s x)) -> forall acc, quiet (for_each body xs acc).
Proof.
  intros Hbody. induction xs as [| x xs IH]; intros acc; cbn [for_each].
  - apply quiet_ret.
  - apply quiet_bind; [apply Hbody | exact IH].
Qed.


Ltac quiet_steps :=
  repeat first
    [ apply quiet_ret | apply quiet_lift | apply quiet_subprocess_run
    | apply quiet_try_run | apply quiet_check_call
    | apply quiet_bind; [| intros ?] ].

Lemma quiet_install (w : World) (packages : list string) : quiet (helpers.install w packages).
Proof. unfold helpers.install. destruct packages; quiet_steps. Qed.

Lemma quiet_uninstall_deps (w : World) (deps : list string) :
  quiet (helpers.uninstall_deps w deps).
Proof. unfold helpers.uninstall_deps. quiet_steps. Qed.

Lemma quiet_get_module (w : World) (package : string) : quiet (helpers.get_module w package).
Proof. unfold helpers.get_module. quiet_steps. Qed.

Lemma quiet_score_package (w : World) (package : string) (pts : dict.t details)
    (entities : list (string * entity)) :
  quiet (helpers.score_package w package pts entities).
Proof.
  unfold helpers.score_package. apply quiet_bind; [apply quiet_get_module | intros module].
  quiet_steps.
Qed.

Lemma quiet_released_turn (w : World) (state : dict.t details * list (string * entity))
    (package : string) :
  quiet (run_released_typescore.score_turn w state package).
Proof.
  unfold run_released_typescore.score_turn. destruct state as [pts entities].
  destruct (String.eqb package "azure-core"); [apply quiet_ret |].
  apply quiet_bind; [apply quiet_lift | intros p].
  destruct (Score p); [quiet_steps | apply quiet_score_package].
Qed.

Lemma quiet_first_round (w : World) (state : dict.t details * list (string * entity))
    (package : string) :
  quiet (run_main_typescore.score_first_round w state package).
Proof.
  unfold run_main_typescore.score_first_round. destruct state as [pts entities].
  destruct (dict.has package _); [apply quiet_ret | apply quiet_score_package].
Qed.

Lemma quiet_second_round (w : World) (second_round : dict.t (list string))
    (state : dict.t details * list (string * entity)) (entry : string * list string) :
  quiet (run_main_typescore.score_second_round w second_round state entry).
Proof.
  unfold run_main_typescore.score_second_round. destruct state as [pts entities].
  destruct entry as [package deps].
  apply quiet_bind; [apply quiet_uninstall_deps | intros _].
  apply quiet_bind; [apply quiet_lift | intros packages].
  apply quiet_bind; [apply quiet_install | intros _].
  apply quiet_score_package.
Qed.

Lemma quiet_app_install (w : World) (packages : list string) :
  quiet (function_app.install w packages).
Proof. unfold function_app.install. destruct packages; quiet_steps. Qed.

Lemma quiet_app_turn (w : World) (st : function_app.scoring) (package : string) :
  quiet (function_app.score_turn w st package).
Proof.
  unfold function_app.score_turn. apply quiet_bind; [apply quiet_lift | intros p].
  destruct (Score p); [quiet_steps |].
  unfold function_app.get_module. quiet_steps.
Qed.

Lemma submits_last_submit (entities : list (string * entity)) :
  submits_last (submit_transaction entities).
Proof.
  intros tr r tr' E. injection E as <- <-. exists []. split; [apply only_commands_nil |].
  left. split; [reflexivity |]. exists entities. reflexivity.
Qed.

Lemma submits_last_bind {A : Type} (m : M A) (k : A -> M unit) :
  quiet m -> (forall a, submits_last (k a)) -> submits_last (bind m k).
Proof.
  intros Hm Hk tr r tr' E. unfold bind in E.
  destruct (m tr) as [r1 tr1] eqn:E1.
  destruct (Hm _ _ _ E1) as (evs & -> & Hevs).
  destruct r1 as [a | e].
  - destruct (Hk a _ _ _ E) as (commands & Hcommands & H).
    exists (evs ++ commands)%list. split; [apply only_commands_app; assumption |].
    destruct H as [(-> & entities & ->) | ((e & ->) & ->)].
    + left. split; [reflexivity |]. exists entities. rewrite <- !app_assoc. reflexivity.
    + right. split; [exists e; reflexivity |]. rewrite <- app_assoc. reflexivity.
  - injection E as <- <-. exists evs. split; [assumption |].
    right. split; [exists e; reflexivity | reflexivity].
Qed.

Lemma main_submits_last (w : World) :
  submits_last (run_main_typescore.main_typescore_function w).
Proof.
  unfold run_main_typescore.main_typescore_function.
  apply submits_last_bind; [apply quiet_lift | intros pts].
  apply submits_last_bind; [apply quiet_lift | intros st].
  unfold run_main_typescore.run_rounds.
  apply submits_last_bind; [apply quiet_install | intros _].
  apply submits_last_bind;
    [apply quiet_for_each; intros; apply quiet_first_round | intros [pts1 entities]].
  apply submits_last_bind;
    [apply quiet_for_each; intros; apply quiet_second_round | intros [pts2 entities2]].
  apply submits_last_submit.
Qed.

Lemma released_submits_last (w : World) :
  submits_last (run_released_typescore.released_typescore_function w).
Proof.
  unfold run_released_typescore.released_typescore_function.
  apply submits_last_bind; [apply quiet_lift | intros pts].
  apply submits_last_bind; [apply quiet_lift | intros [pts1 install_packages]].
  apply submits_last_bind; [apply quiet_install | intros _].
  apply submits_last_bind;
    [apply quiet_for_each; intros; apply quiet_released_turn | intros [pts2 entities]].
  apply submits_last_bind; [apply quiet_uninstall_deps | intros _].
  apply submits_last_bind; [apply quiet_score_package | intros [pts3 entities3]].
  apply submits_last_submit.
Qed.

Lemma app_submits_last (w : World) : submits_last (function_app.test_function w).
Proof.
  unfold function_app.test_function.
  apply submits_last_bind; [apply quiet_lift | intros [pts install_packages]].
  apply submits_last_bind; [apply quiet_app_install | intros _].
  apply submits_last_bind;
    [apply quiet_for_each; intros; apply quiet_app_turn | intros st].
  apply submits_last_submit.
Qed.

(** X6: each of the three pipelines talks to the history table once
    at most: a run that completes has executed commands and then submitted
    one transaction, as the last thing it did, and a run that raises has
    submitted nothing, so that no part of its results is stored. *)
Theorem one_transaction_or_none (w : World) :
  submits_last (run_main_typescore.main_typescore_function w)
  /\ submits_last (run_released_typescore.released_typescore_function w)
  /\ submits_last (function_app.test_function w).
Proof.
  split; [apply main_submits_last |].
  split; [apply released_submits_last | apply app_submits_last].
Qed.

(** A run that raises has submitted nothing. *)
Lemma raised_without_submit (m : M unit) (tr tr' : trace) (e : Py.exn) :
  submits_last m -> m tr = (Raise e, tr') ->
  exists commands, tr' = (tr ++ commands)%list /\ only_commands commands.
Proof.
  intros Hm Hrun. destruct (Hm _ _ _ Hrun) as (commands & Hc & [[H _] | [_ ->]]).
  - discriminate.
  - exists commands. split; [reflexivity | exact Hc].
Qed.

(** ** Runs of the released pipeline that cannot complete *)

(** X7: [released_typescore_function] scores [azure-core] after its
    loop whether or not the work set holds it; with a work set that
    does not, no run completes, and nothing is submitted. *)
Theorem released_needs_azure_core (w : World) (pts : dict.t details) (tr tr' : trace)
    (r : result unit) :
  helpers.get_packages_to_score w (helpers.IGNORE_PACKAGES w) = Ok pts ->
  dict.has "azure-core" pts = false ->
  run_released_typescore.released_typescore_function w tr = (r, tr') ->
  (exists e, r = Raise e)
  /\ exists commands, tr' = (tr ++ commands)%list /\ only_commands commands.
Proof.
  intros Hpts Hcore Hrun. destruct r as [[] | e].
  - destruct (released_run_ok w pts tr tr' Hpts Hrun)
      as (_ & _ & _ & _ & _ & _ & _ & _ & _ & _ & Hin & _).
    apply dict_has_get, dict_get_keys in Hcore. contradiction.
  - split; [exists e; reflexivity |].
    apply (raised_without_submit _ _ _ _ (released_submits_last w) Hrun).
Qed.

(** Witness of [released_needs_azure_core]: a catalog of one package,
    which is scored before the run fails. *)
Lemma released_needs_azure_core_witness :
  (exists e, fst (run_released_typescore.released_typescore_function More.coreless_world [])
             = Raise e)
  /\ exists commands,
      snd (run_released_typescore.released_typescore_function More.coreless_world [])
      = ([] ++ commands)%list
      /\ only_commands commands.
Proof.
  exact (released_needs_azure_core More.coreless_world _ [] _ _ eq_refl eq_refl
           (surjective_pairing _)).
Defined.

Example released_without_azure_core :
  fst (run_released_typescore.released_typescore_function More.coreless_world [])
  = Raise (KeyError "azure-core").
Proof. vm_compute. reflexivity. Qed.

(** A turn of the first loop of [test_function] that returns on a day
    without a previous-month partition has skipped its row. *)
Lemma read_row_skips (w : World) (e : exn) (state state' : dict.t details * list string)
    (r : row) :
  helpers.get_last_month (today w) = Raise e ->
  function_app.read_row w state r = Ok state' ->
  state' = state
  /\ forall name, r_Package r = Str name ->
                  function_app.is_ignored_package w name = true
                  \/ dict.has name (fst state) = true.
Proof.
  intros Hdate. unfold function_app.read_row, function_app.get_last_month.
  destruct state as [pts installs]. rewrite Hdate.
  destruct (r_Package r) as [n | | x].
  - destruct (function_app.is_ignored_package w n) eqn:Hi; simpl.
    + intros [= <-]. split; [reflexivity |]. intros name [= <-]. left. exact Hi.
    + destruct (dict.has n pts) eqn:Hh.
      * intros [= <-]. split; [reflexivity |]. intros name [= <-]. right. exact Hh.
      * destruct (helpers.latest_version w r); discriminate.
  - intros [= <-]. split; [reflexivity |]. discriminate.
  - intros [= <-]. split; [reflexivity |]. discriminate.
Qed.

Lemma read_rows_raise (w : World) (e : exn) (r : row) (name : string) (rows : list row) :
  helpers.get_last_month (today w) = Raise e ->
  In r rows -> r_Package r = Str name ->
  function_app.is_ignored_package w name = false ->
  forall state,
    dict.has name (fst state) = false ->
    exists e', function_app.read_rows w rows state = Raise e'.
Proof.
  intros Hdate Hin Hname Hignored.
  induction rows as [| r0 rows IH]; intros state Hhas; [destruct Hin |].
  cbn [function_app.read_rows].
  destruct (function_app.read_row w state r0) as [state' | e'] eqn:Hrow;
    [| exists e'; reflexivity].
  destruct (read_row_skips w e _ _ _ Hdate Hrow) as [-> Hskip].
  destruct Hin as [-> | Hin].
  - destruct (Hskip name Hname); congruence.
  - apply IH; assumption.
Qed.

(** X8: on a day for which [get_last_month] raises, a run of the
    released pipeline, or of [test_function], whose catalog names one
    package that is not ignored raises before it has executed a
    command: nothing is installed, scored or submitted. *)
Theorem failing_date_aborts (w : World) (e : exn) (r : row) (name : string) (tr : trace) :
  helpers.get_last_month (today w) = Raise e ->
  In r (catalog w) -> r_Package r = Str name ->
  (helpers.is_ignored_package w (helpers.IGNORE_PACKAGES w) name = false ->
   exists e', run_released_typescore.released_typescore_function w tr = (Raise e', tr))
  /\ (function_app.is_ignored_package w name = false ->
      exists e', function_app.test_function w tr = (Raise e', tr)).
Proof.
  intros Hdate Hin Hname. split; intros Hignored.
  - unfold run_released_typescore.released_typescore_function.
    rewrite bind_run. unfold lift at 1.
    destruct (helpers.get_packages_to_score w (helpers.IGNORE_PACKAGES w))
      as [pts | e'] eqn:Hpts; [| exists e'; reflexivity].
    rewrite bind_run. unfold lift at 1.
    assert (Hkey : In name (dict.keys pts)).
    { apply (add_rows_keys w _ _ _ _ Hpts name). right.
      split; [exists r; split; assumption | exact Hignored]. }
    unfold run_released_typescore.get_released_installs.
    destruct pts as [| [k p] pts]; [destruct Hkey |].
    cbn [dict.keys map fst run_released_typescore.lookups].
    unfold run_released_typescore.lookup. rewrite Hdate. exists e. reflexivity.
  - unfold function_app.test_function. rewrite bind_run. unfold lift at 1.
    destruct (read_rows_raise w e r name (catalog w) Hdate Hin Hname Hignored ([], []) eq_refl)
      as [e' ->].
    exists e'. reflexivity.
Qed.

(** Witness of [failing_date_aborts]: the released catalog on 31 March. *)
Lemma failing_date_aborts_witness :
  (exists e', run_released_typescore.released_typescore_function More.march_world []
              = (Raise e', []))
  /\ (exists e', function_app.test_function More.march_world [] = (Raise e', [])).
Proof.
  destruct (failing_date_aborts More.march_world ValueError
              (Scenario.released "azure-widget" "3.1.0") "azure-widget" []
              eq_refl ltac:(vm_compute; tauto) eq_refl) as [H1 H2].
  split; [apply H1 | apply H2]; reflexivity.
Defined.
(** ** The versions of the development feed *)

(** The inner loop of [get_alpha_installs] raises only where [strptime]
    does, on the publish date of an alpha version. *)
Lemma pick_version_raises (w : World) (name : string) (state : option Z * dict.t string)
    (v : feed_version) (e : exn) :
  run_main_typescore.pick_version w name state v = Raise e ->
  e = ValueError /\ alpha v = true /\ published w v = None.
Proof.
  destruct state as [latest vti]. unfold run_main_typescore.pick_version, alpha, published.
  destruct (contains "a" (fv_version v)); [| discriminate].
  destruct (strptime w _) as [d |].
  - destruct latest as [l |]; [destruct (l <? d) |]; discriminate.
  - intros [= <-]. repeat split.
Qed.

Lemma pick_versions_raises (w : World) (name : string) (versions : list feed_version)
    (e : exn) :
  forall state,
    run_main_typescore.pick_versions w name versions state = Raise e ->
    e = ValueError
    /\ exists fv, In fv versions /\ alpha fv = true /\ published w fv = None.
Proof.
  induction versions as [| v versions IH]; intros state;
    cbn [run_main_typescore.pick_versions]; [discriminate |].
  destruct (run_main_typescore.pick_version w name state v) as [state1 | e1] eqn:Hturn.
  - intros Hrest. destruct (IH _ Hrest) as (He & fv & Hin & Ha & Hd).
    split; [exact He |]. exists fv. split; [right; exact Hin | tauto].
  - intros [= <-]. destruct (pick_version_raises _ _ _ _ _ Hturn) as (He & Ha & Hd).
    split; [exact He |]. exists v. split; [left; reflexivity | tauto].
Qed.

(** The loop over the versions of one package, when it ends: either no
    version is taken, or the one taken is an alpha version published no
    earlier than any other. *)
Lemma pick_versions_latest (w : World) (name : string) (versions : list feed_version) :
  forall latest vti latest' vti',
    run_main_typescore.pick_versions w name versions (latest, vti) = Ok (latest', vti') ->
    (forall k, k <> name -> dict.get k vti' = dict.get k vti)
    /\ ((latest' = latest /\ vti' = vti
         /\ forall fv, In fv versions -> alpha fv = true ->
                       match latest with
                       | None => False
                       | Some d => no_later w d fv
                       end)
        \/ exists fv d,
            In fv versions /\ alpha fv = true
            /\ published w fv = Some d
            /\ latest' = Some d
            /\ dict.get name vti' = Some (fv_version fv)
            /\ (forall fv', In fv' versions -> alpha fv' = true -> no_later w d fv')
            /\ match latest with
               | None => True
               | Some l => l < d
               end).
Proof.
  induction versions as [| v versions IH]; intros latest vti latest' vti'.
  - intros [= <- <-]. split; [reflexivity |]. left. repeat split. intros fv [].
  - cbn [run_main_typescore.pick_versions].
    destruct (run_main_typescore.pick_version w name (latest, vti) v)
      as [[latest1 vti1] |] eqn:Hturn; [| discriminate].
    intros Hrest. destruct (IH _ _ _ _ Hrest) as [Hother Hcase].
    assert (Htaken :
              forall d,
                alpha v = true -> published w v = Some d ->
                latest1 = Some d ->
                vti1 = dict.set name (fv_version v) vti ->
                match latest with None => True | Some l => l < d end ->
                (forall k, k <> name -> dict.get k vti' = dict.get k vti)
                /\ exists fv d,
                    In fv (v :: versions) /\ alpha fv = true
                    /\ published w fv = Some d
                    /\ latest' = Some d
                    /\ dict.get name vti' = Some (fv_version fv)
                    /\ (forall fv', In fv' (v :: versions) -> alpha fv' = true ->
                                    no_later w d fv')
                    /\ match latest with
                       | None => True
                       | Some l => l < d
                       end).
    { intros d Ha Hd -> -> Hlate. split.
      { intros k Hk. rewrite (Hother k Hk). apply dict_get_set_other. exact Hk. }
      destruct Hcase
        as [(-> & -> & Hall) | (fv & d2 & Hin & Hfa & Hfd & -> & Hget & Hmax & Hlt)].
      - exists v, d. split; [left; reflexivity |]. split; [exact Ha |].
        split; [exact Hd |]. split; [reflexivity |]. split; [apply dict_get_set |].
        split; [| exact Hlate].
        intros fv' [<- | Hin'] Ha'; [exists d; split; [exact Hd | lia] |].
        apply (Hall fv' Hin' Ha').
      - exists fv, d2. split; [right; exact Hin |]. split; [exact Hfa |].
        split; [exact Hfd |]. split; [reflexivity |]. split; [exact Hget |]. split.
        + intros fv' [<- | Hin'] Ha'; [exists d; split; [exact Hd | lia] |].
          apply (Hmax fv' Hin' Ha').
        + destruct latest; [lia | exact I]. }
    assert (Hkept :
              forall (Hv : alpha v = true ->
                           match latest with
                           | None => False
                           | Some l => no_later w l v
                           end),
                latest1 = latest -> vti1 = vti ->
                (latest' = latest /\ vti' = vti
                 /\ forall fv, In fv (v :: versions) -> alpha fv = true ->
                               match latest with
                               | None => False
                               | Some d => no_later w d fv
                               end)
                \/ exists fv d,
                    In fv (v :: versions) /\ alpha fv = true
                    /\ published w fv = Some d
                    /\ latest' = Some d
                    /\ dict.get name vti' = Some (fv_version fv)
                    /\ (forall fv', In fv' (v :: versions) -> alpha fv' = true ->
                                    no_later w d fv')
                    /\ match latest with
                       | None => True
                       | Some l => l < d
                       end).
    { intros Hv -> ->.
      destruct Hcase
        as [(-> & -> & Hall) | (fv & d2 & Hin & Hfa & Hfd & -> & Hget & Hmax & Hlt)].
      - left. repeat split.
        intros fv [<- | Hin] Hfa; [apply Hv; exact Hfa | apply (Hall fv Hin Hfa)].
      - right. exists fv, d2. split; [right; exact Hin |]. split; [exact Hfa |].
        split; [exact Hfd |]. split; [reflexivity |]. split; [exact Hget |].
        split; [| exact Hlt].
        intros fv' [<- | Hin'] Ha'; [| apply (Hmax fv' Hin' Ha')].
        specialize (Hv Ha'). destruct latest as [l |]; [| destruct Hv].
        destruct Hv as (d' & Hd' & Hle). exists d'. split; [exact Hd' | lia]. }
    revert Hturn. unfold run_main_typescore.pick_version.
    fold (alpha v). fold (published w v).
    destruct (alpha v) eqn:Ha.
    + destruct (published w v) as [d |] eqn:Hd; [| discriminate].
      destruct latest as [l |].
      * destruct (Z.ltb_spec l d) as [Hlt | Hge]; intros [= <- <-].
        -- destruct (Htaken d eq_refl eq_refl eq_refl eq_refl Hlt) as [H1 H2].
           split; [exact H1 | right; exact H2].
        -- split; [exact Hother |]. apply Hkept; [| reflexivity | reflexivity].
           intros _. exists d. split; [exact Hd | exact Hge].
      * intros [= <- <-].
        destruct (Htaken d eq_refl eq_refl eq_refl eq_refl I) as [H1 H2].
        split; [exact H1 | right; exact H2].
    + intros [= <- <-]. split; [exact Hother |].
      apply Hkept; [discriminate | reflexivity | reflexivity].
Qed.

(** What a turn of the outer loop that ends does to the entry of
    [name]. *)
Lemma pick_package_entry (w : World) (pts : dict.t details) (vti vti' : dict.t string)
    (package : feed_package) :
  run_main_typescore.pick_package w pts vti package = Ok vti' ->
  (forall k, k <> fp_name package -> dict.get k vti' = dict.get k vti)
  /\ (dict.has (fp_name package) pts = false -> vti' = vti)
  /\ (dict.has (fp_name package) pts = true ->
      (vti' = vti /\ forall fv, In fv (fp_versions package) -> alpha fv = false)
      \/ exists fv d,
          In fv (fp_versions package) /\ alpha fv = true
          /\ published w fv = Some d
          /\ dict.get (fp_name package) vti' = Some (fv_version fv)
          /\ forall fv', In fv' (fp_versions package) -> alpha fv' = true ->
                         no_later w d fv').
Proof.
  unfold run_main_typescore.pick_package.
  destruct (dict.has (fp_name package) pts).
  - destruct (run_main_typescore.pick_versions w _ (fp_versions package) (None, vti))
      as [[latest1 vti1] |] eqn:Hloop; [| discriminate].
    intros [= <-].
    destruct (pick_versions_latest _ _ _ _ _ _ _ Hloop) as [Hother Hcase].
    split; [exact Hother |]. split; [discriminate |]. intros _.
    destruct Hcase as [(_ & -> & Hall) | (fv & d & Hin & Hfa & Hfd & _ & Hget & Hmax & _)].
    + left. split; [reflexivity |]. intros fv Hin.
      destruct (alpha fv) eqn:Hfa; [destruct (Hall fv Hin Hfa) | reflexivity].
    + right. exists fv, d. repeat split; assumption.
  - intros [= <-]. split; [reflexivity |]. split; [reflexivity | discriminate].
Qed.

Lemma pick_package_raises (w : World) (pts : dict.t details) (vti : dict.t string)
    (package : feed_package) (e : exn) :
  run_main_typescore.pick_package w pts vti package = Raise e ->
  e = ValueError
  /\ dict.has (fp_name package) pts = true
  /\ exists fv, In fv (fp_versions package) /\ alpha fv = true /\ published w fv = None.
Proof.
  unfold run_main_typescore.pick_package.
  destruct (dict.has (fp_name package) pts); [| discriminate].
  destruct (run_main_typescore.pick_versions w _ (fp_versions package) (None, vti))
    as [[latest1 vti1] | e1] eqn:Hloop; [discriminate |].
  intros [= <-]. destruct (pick_versions_raises _ _ _ _ _ Hloop) as [He Hfv].
  split; [exact He |]. split; [reflexivity | exact Hfv].
Qed.

(** A name that no package of the feed bears has no entry. *)
Lemma pick_packages_other (w : World) (pts : dict.t details) (name : string)
    (feed : list feed_package) :
  (forall package, In package feed -> fp_name package <> name) ->
  forall vti vti',
    run_main_typescore.pick_packages w pts feed vti = Ok vti' ->
    dict.get name vti' = dict.get name vti.
Proof.
  induction feed as [| package feed IH]; intros Hnames vti vti';
    cbn [run_main_typescore.pick_packages]; [intros [= <-]; reflexivity |].
  destruct (run_main_typescore.pick_package w pts vti package) as [vti1 |] eqn:Hturn;
    [| discriminate].
  intros Hrest. rewrite (IH (fun q Hq => Hnames q (or_intror Hq)) _ _ Hrest).
  apply (proj1 (pick_package_entry w pts vti vti1 package Hturn)).
  intros E. apply (Hnames package); [left; reflexivity | symmetry; exact E].
Qed.

(** The outer loop, split at a package of the feed. *)
Lemma pick_packages_app (w : World) (pts : dict.t details) (before after : list feed_package) :
  forall vti vti',
    run_main_typescore.pick_packages w pts (before ++ after) vti = Ok vti' ->
    exists mid,
      run_main_typescore.pick_packages w pts before vti = Ok mid
      /\ run_main_typescore.pick_packages w pts after mid = Ok vti'.
Proof.
  induction before as [| package before IH]; intros vti vti';
    cbn [app run_main_typescore.pick_packages].
  - intros H. exists vti. split; [reflexivity | exact H].
  - destruct (run_main_typescore.pick_package w pts vti package) as [vti1 |];
      [| discriminate].
    apply IH.
Qed.

(** Every entry of [versions_to_install] is a package of the work set
    with an alpha version in the feed. *)
Lemma versions_to_install_alpha (w : World) (pts : dict.t details) (vti : dict.t string)
    (k v : string) :
  run_main_typescore.versions_to_install w pts = Ok vti ->
  dict.get k vti = Some v ->
  dict.has k pts = true
  /\ exists package fv,
      In package (alpha_feed w) /\ fp_name package = k
      /\ In fv (fp_versions package) /\ alpha fv = true.
Proof.
  unfold run_main_typescore.versions_to_install.
  assert (G : forall feed vti0 vti1 v,
             run_main_typescore.pick_packages w pts feed vti0 = Ok vti1 ->
             dict.get k vti1 = Some v ->
             (exists v', dict.get k vti0 = Some v')
             \/ (dict.has k pts = true
                 /\ exists package fv,
                     In package feed /\ fp_name package = k
                     /\ In fv (fp_versions package) /\ alpha fv = true)).
  { induction feed as [| package feed IH]; intros vti0 vti1 v0;
      cbn [run_main_typescore.pick_packages].
    - intros [= <-] H. left. exists v0. exact H.
    - destruct (run_main_typescore.pick_package w pts vti0 package) as [mid |] eqn:Hturn;
        [| discriminate].
      intros Hrest H.
      destruct (IH _ _ _ Hrest H) as [[v' Hv'] | (Hhas & q & fv & Hq & Hn & Hfv & Hfa)].
      + destruct (pick_package_entry w pts vti0 mid package Hturn) as (Hother & Hout & Hin).
        destruct (string_dec k (fp_name package)) as [-> | Hne].
        * destruct (dict.has (fp_name package) pts) eqn:Hhas.
          -- destruct (Hin eq_refl) as [[E _] | (fv & d & Hfv & Hfa & _)].
             ++ left. exists v'. rewrite <- E. exact Hv'.
             ++ right. split; [reflexivity |]. exists package, fv.
                repeat split; [left; reflexivity | assumption | assumption].
          -- left. exists v'. rewrite <- (Hout eq_refl). exact Hv'.
        * left. exists v'. rewrite <- (Hother k Hne). exact Hv'.
      + right. split; [exact Hhas |]. exists q, fv.
        repeat split; [right; exact Hq | assumption | assumption | assumption]. }
  intros Hvti H. destruct (G _ _ _ _ Hvti H) as [[v' Hv'] | Hfeed];
    [discriminate | exact Hfeed].
Qed.

(** The outer loop raises only where [strptime] does. *)
Lemma pick_packages_raises (w : World) (pts : dict.t details) (feed : list feed_package)
    (e : exn) :
  forall vti,
    run_main_typescore.pick_packages w pts feed vti = Raise e ->
    e = ValueError
    /\ exists package fv,
        In package feed /\ dict.has (fp_name package) pts = true
        /\ In fv (fp_versions package) /\ alpha fv = true /\ published w fv = None.
Proof.
  induction feed as [| package feed IH]; intros vti;
    cbn [run_main_typescore.pick_packages]; [discriminate |].
  destruct (run_main_typescore.pick_package w pts vti package) as [vti1 | e1] eqn:Hturn.
  - intros Hrest. destruct (IH _ Hrest) as (He & q & fv & Hq & H).
    split; [exact He |]. exists q, fv. split; [right; exact Hq | exact H].
  - intros [= <-].
    destruct (pick_package_raises _ _ _ _ _ Hturn) as (He & Hhas & fv & Hfv & Ha & Hd).
    split; [exact He |]. exists package, fv.
    repeat split; [left; reflexivity | assumption ..].
Qed.

(** When the outer loop ends, [strptime] has read the publish date of
    every alpha version of a package of the work set. *)
Lemma pick_packages_read (w : World) (pts : dict.t details) (feed : list feed_package) :
  forall vti vti',
    run_main_typescore.pick_packages w pts feed vti = Ok vti' ->
    forall package fv,
      In package feed -> dict.has (fp_name package) pts = true ->
      In fv (fp_versions package) -> alpha fv = true ->
      published w fv <> None.
Proof.
  induction feed as [| q feed IH]; intros vti vti';
    cbn [run_main_typescore.pick_packages]; [intros _ package fv [] |].
  destruct (run_main_typescore.pick_package w pts vti q) as [vti1 |] eqn:Hturn;
    [| discriminate].
  intros Hrest package fv [<- | Hin] Hhas Hfv Ha; [| apply (IH _ _ Hrest package fv); assumption].
  destruct (pick_package_entry w pts vti vti1 q Hturn) as (_ & _ & Hcase).
  destruct (Hcase Hhas) as [[_ Hall] | (fv0 & d & _ & _ & _ & _ & Hmax)].
  - rewrite (Hall fv Hfv) in Ha. discriminate Ha.
  - destruct (Hmax fv Hfv Ha) as (d' & -> & _). discriminate.
Qed.

(** X9: when the loops of [get_alpha_installs] over the development
    feed end, they have taken, for a package of the work set that the
    feed lists once, the alpha version (one with an [a] in its text)
    with the latest publish date, as [strptime] reads the dates, and
    nothing when the package has no alpha version. *)
Theorem latest_alpha_selected (w : World) (pts : dict.t details) (versions : dict.t string)
    (package : feed_package) :
  NoDup (map fp_name (alpha_feed w)) ->
  In package (alpha_feed w) ->
  dict.has (fp_name package) pts = true ->
  run_main_typescore.versions_to_install w pts = Ok versions ->
  match dict.get (fp_name package) versions with
  | Some version =>
      exists fv d,
        In fv (fp_versions package) /\ alpha fv = true /\ fv_version fv = version
        /\ published w fv = Some d
        /\ forall fv', In fv' (fp_versions package) -> alpha fv' = true ->
                       exists d', published w fv' = Some d' /\ d' <= d
  | None => forall fv, In fv (fp_versions package) -> alpha fv = false
  end.
Proof.
  intros Hnd Hin Hhas. unfold run_main_typescore.versions_to_install.
  destruct (in_split _ _ Hin) as (before & after & Hfeed). rewrite Hfeed in *.
  rewrite map_app in Hnd. cbn [map] in Hnd.
  assert (Hbefore : forall q, In q before -> fp_name q <> fp_name package).
  { intros q Hq E. apply NoDup_remove_2 in Hnd. apply Hnd, in_or_app. left.
    rewrite <- E. apply in_map. exact Hq. }
  assert (Hafter : forall q, In q after -> fp_name q <> fp_name package).
  { intros q Hq E. apply NoDup_remove_2 in Hnd. apply Hnd, in_or_app. right.
    rewrite <- E. apply in_map. exact Hq. }
  intros Hloop.
  destruct (pick_packages_app w pts before (package :: after) _ _ Hloop)
    as (mid & Hfirst & Hrest).
  cbn [run_main_typescore.pick_packages] in Hrest.
  destruct (run_main_typescore.pick_package w pts mid package) as [mid' |] eqn:Hturn;
    [| discriminate].
  rewrite (pick_packages_other w pts _ after Hafter _ _ Hrest).
  pose proof (pick_packages_other w pts _ before Hbefore _ _ Hfirst) as Hnone.
  cbn [dict.get assoc] in Hnone.
  destruct (pick_package_entry w pts mid mid' package Hturn) as (_ & _ & Hcase).
  destruct (Hcase Hhas) as [[-> Hall] | (fv & d & Hfv & Hfa & Hfd & -> & Hmax)].
  - rewrite Hnone. exact Hall.
  - exists fv, d. repeat split; assumption.
Qed.

(** Witness of [latest_alpha_selected]: of three nightly builds the one
    published last is taken, the release published after it is not. *)
Lemma latest_alpha_selected_witness :
  exists fv d,
    In fv (fp_versions More.builds) /\ alpha fv = true
    /\ fv_version fv = "3.2.0a20230603001"
    /\ published More.builds_world fv = Some d
    /\ forall fv', In fv' (fp_versions More.builds) -> alpha fv' = true ->
                   exists d', published More.builds_world fv' = Some d' /\ d' <= d.
Proof.
  exact (latest_alpha_selected More.builds_world
           [("azure-widget", mkdetails (Str "3.1.0") true true true true
                                       Scenario.june15 None None)]
           [("azure-widget", "3.2.0a20230603001")]
           More.builds ltac:(repeat constructor; simpl; tauto)
           ltac:(left; reflexivity) eq_refl ltac:(vm_compute; reflexivity)).
Defined.

(** ** The two-round pipeline *)

(** The last loop of [get_alpha_installs] does not raise when every
    entry names a package of the work set, and gives each entry's
    package its version. *)
Lemma assign_rounds_records (entries : list (string * string)) :
  forall st,
    NoDup (dict.keys entries) ->
    (forall n, In n (dict.keys entries) ->
               dict.has n (run_main_typescore.r_packages st) = true) ->
    exists st',
      run_main_typescore.assign_rounds entries st = Ok st'
      /\ dict.keys (run_main_typescore.r_packages st')
         = dict.keys (run_main_typescore.r_packages st)
      /\ forall n,
          dict.get n (run_main_typescore.r_packages st')
          = option_map (with_feed_version entries n)
                       (dict.get n (run_main_typescore.r_packages st)).
Proof.
  induction entries as [| [n v] entries IH]; intros st Hnd Hin.
  - exists st. split; [reflexivity |]. split; [reflexivity |].
    intros n. destruct (dict.get n _); reflexivity.
  - cbn [run_main_typescore.assign_rounds].
    inversion Hnd as [| ? ? Hn Hnd']; subst.
    assert (Hhas : dict.has n (run_main_typescore.r_packages st) = true).
    { apply Hin. left. reflexivity. }
    unfold dict.has in Hhas.
    destruct (dict.get n (run_main_typescore.r_packages st)) as [p |] eqn:Hget;
      [clear Hhas | discriminate].
    set (pts1 := dict.set n (update_LatestVersion (Str v) p)
                          (run_main_typescore.r_packages st)).
    assert (Hkeys1 : dict.keys pts1 = dict.keys (run_main_typescore.r_packages st)).
    { apply (dict_keys_set n _ p). exact Hget. }
    assert (Hturn : exists st1,
               run_main_typescore.assign_round st (n, v) = Ok st1
               /\ run_main_typescore.r_packages st1 = pts1).
    { unfold run_main_typescore.assign_round, item. rewrite Hget.
      destruct (dict.has n run_main_typescore.DEPENDENCY_ISSUE_LIBRARIES);
        eexists; split; reflexivity. }
    destruct Hturn as (st1 & -> & Hst1).
    destruct (IH st1 Hnd') as (st' & Hrest & Hkeys & Hrec).
    { intros m Hm. rewrite Hst1, dict_has_mem, Hkeys1, <- dict_has_mem.
      apply Hin. right. exact Hm. }
    exists st'. split; [exact Hrest |]. split; [rewrite Hkeys, Hst1; exact Hkeys1 |].
    intros m. rewrite Hrec, Hst1. unfold with_feed_version. rewrite dict_get_cons.
    destruct (String.eqb_spec m n) as [-> | Hne].
    + unfold pts1. rewrite dict_get_set, Hget. cbn [option_map].
      apply dict_get_keys in Hn. rewrite Hn. reflexivity.
    + unfold pts1. rewrite (dict_get_set_other m n _ _ Hne). reflexivity.
Qed.

Lemma get_alpha_installs_records (w : World) (pts : dict.t details)
    (vti : dict.t string) :
  run_main_typescore.versions_to_install w pts = Ok vti ->
  exists st,
    run_main_typescore.get_alpha_installs w pts = Ok st
    /\ dict.keys (run_main_typescore.r_packages st) = dict.keys pts
    /\ forall n,
        dict.get n (run_main_typescore.r_packages st)
        = option_map (with_feed_version vti n) (dict.get n pts).
Proof.
  intros Hvti. unfold run_main_typescore.get_alpha_installs. rewrite Hvti.
  apply (assign_rounds_records _ (run_main_typescore.mkrounds pts [] [])).
  - apply (versions_to_install_NoDup w pts vti Hvti).
  - intros n Hn. cbn [run_main_typescore.r_packages].
    destruct (dict.get n vti) as [v |] eqn:Hv.
    + apply (versions_to_install_alpha w pts vti n v Hvti Hv).
    + apply dict_get_keys in Hv. contradiction.
Qed.

(** X10: what [get_alpha_installs] does with the feed it has fetched.
    It raises only [ValueError], and only when [strptime] does not read
    the publish date of an alpha version of a package of the work set;
    the last loop does not raise. When it returns, [strptime] has read
    the date of every such version, and the work set has the same
    packages in the same order, where a package for which the feed has
    an alpha version has that version as [LatestVersion] and is
    otherwise as before, and every other package is as before. *)
Theorem get_alpha_installs_outcome (w : World) (pts : dict.t details) :
  match run_main_typescore.get_alpha_installs w pts with
  | Ok st =>
      (forall package fv,
          In package (alpha_feed w) -> dict.has (fp_name package) pts = true ->
          In fv (fp_versions package) -> alpha fv = true ->
          published w fv <> None)
      /\ exists versions,
          run_main_typescore.versions_to_install w pts = Ok versions
          /\ dict.keys (run_main_typescore.r_packages st) = dict.keys pts
          /\ forall n,
              dict.get n (run_main_typescore.r_packages st)
              = option_map (with_feed_version versions n) (dict.get n pts)
  | Raise e =>
      e = ValueError
      /\ exists package fv,
          In package (alpha_feed w) /\ dict.has (fp_name package) pts = true
          /\ In fv (fp_versions package) /\ alpha fv = true
          /\ published w fv = None
  end.
Proof.
  destruct (run_main_typescore.versions_to_install w pts) as [vti | e] eqn:Hvti.
  - destruct (get_alpha_installs_records w pts vti Hvti) as (st & -> & Hkeys & Hrec).
    split.
    + apply (pick_packages_read w pts (alpha_feed w) [] vti Hvti).
    + exists vti. split; [reflexivity |]. split; [exact Hkeys | exact Hrec].
  - unfold run_main_typescore.get_alpha_installs. rewrite Hvti.
    apply (pick_packages_raises w pts (alpha_feed w) e [] Hvti).
Qed.

(** A publish date with whole seconds ends in [Z], which [strptime]
    does not accept: the two-round pipeline raises before it installs
    anything. *)
Example whole_second_date_raises :
  published More.whole_second_world (mkfv "3.2.0a20230602001" "2023-06-02T04:31:07Z") = None
  /\ run_main_typescore.main_typescore_function More.whole_second_world []
     = (Raise ValueError, []).
Proof. vm_compute. split; reflexivity. Qed.

Example feed_version_replaces_catalog_version :
  option_map LatestVersion
    (dict.get "azure-widget"
       (run_main_typescore.r_packages (Scenario.prepared Scenario.main_world)))
  = Some (Str "3.2.0a20230601001").
Proof. vm_compute. reflexivity. Qed.

Lemma row_keys_snoc (ents : list (string * entity)) (e : entity) :
  row_keys (ents ++ [("create", e)]) = (row_keys ents ++ [e_RowKey e])%list.
Proof. unfold row_keys. rewrite map_app. reflexivity. Qed.

(** The entities of the first scoring loop. *)
Lemma first_loop_entities (w : World) (names : list string) :
  forall pts ents tr pts' ents' tr',
    for_each (run_main_typescore.score_first_round w) names (pts, ents) tr
    = (Ok (pts', ents'), tr') ->
    row_keys ents' = (row_keys ents ++ filter outside_table names)%list
    /\ dict.keys pts' = dict.keys pts.
Proof.
  induction names as [| n names IH]; intros pts ents tr pts' ents' tr'.
  - intros [= <- <- _]. rewrite app_nil_r. split; reflexivity.
  - cbn [for_each]. rewrite bind_run.
    destruct (run_main_typescore.score_first_round w (pts, ents) n tr)
      as [[[pts1 ents1] | e] tr1] eqn:Hturn; [| discriminate].
    intros Hrest. destruct (IH _ _ _ _ _ _ Hrest) as [Hrows Hkeys].
    unfold run_main_typescore.score_first_round in Hturn.
    cbn [filter].
    change (outside_table n)
      with (negb (dict.has n run_main_typescore.DEPENDENCY_ISSUE_LIBRARIES)).
    destruct (dict.has n run_main_typescore.DEPENDENCY_ISSUE_LIBRARIES).
    + injection Hturn as <- <- _. split; assumption.
    + destruct (score_package_ok _ _ _ _ _ _ _ _ Hturn)
        as (evs & p & p' & e & _ & _ & Hget & -> & -> & He).
      cbn [negb]. rewrite Hrows, Hkeys, row_keys_snoc, He, <- app_assoc.
      split; [reflexivity | apply (dict_keys_set n p' p pts Hget)].
Qed.

(** The entities of the second loop; each of its turns needs the
    package in [second_round] and in the work set. *)
Lemma second_loop_entities (w : World) (second_round : dict.t (list string))
    (entries : list (string * list string)) :
  forall pts ents tr pts' ents' tr',
    for_each (run_main_typescore.score_second_round w second_round) entries (pts, ents) tr
    = (Ok (pts', ents'), tr') ->
    row_keys ents' = (row_keys ents ++ dict.keys entries)%list
    /\ dict.keys pts' = dict.keys pts
    /\ forall name, In name (dict.keys entries) ->
                    dict.has name second_round = true /\ In name (dict.keys pts).
Proof.
  induction entries as [| [package deps] entries IH]; intros pts ents tr pts' ents' tr'.
  - intros [= <- <- _]. rewrite app_nil_r. repeat split; destruct H.
  - cbn [for_each]. rewrite bind_run.
    destruct (run_main_typescore.score_second_round w second_round (pts, ents)
                (package, deps) tr) as [[[pts1 ents1] | e] tr1] eqn:Hturn; [| discriminate].
    intros Hrest. destruct (IH _ _ _ _ _ _ Hrest) as (Hrows & Hkeys & Hneeds).
    unfold run_main_typescore.score_second_round in Hturn.
    rewrite bind_run in Hturn.
    destruct (helpers.uninstall_deps w deps tr) as [[[] | e] tr2]; [| discriminate].
    rewrite bind_run in Hturn. unfold lift at 1 in Hturn.
    destruct (dict.get package second_round) as [packages |] eqn:Hsecond; [| discriminate].
    rewrite bind_run in Hturn.
    destruct (helpers.install w packages tr2) as [[[] | e] tr3]; [| discriminate].
    destruct (score_package_ok _ _ _ _ _ _ _ _ Hturn)
      as (evs & p & p' & e & _ & _ & Hget & -> & -> & He).
    assert (Hkeys1 : dict.keys (dict.set package p' pts) = dict.keys pts).
    { apply (dict_keys_set package p' p pts Hget). }
    split; [| split].
    + rewrite Hrows, row_keys_snoc, He, <- app_assoc. reflexivity.
    + rewrite Hkeys. exact Hkeys1.
    + intros name [<- | Hin].
      * split.
        -- unfold dict.has. cbn [fst]. rewrite Hsecond. reflexivity.
        -- cbn [fst]. destruct (in_dec string_dec package (dict.keys pts)) as [H | H];
             [exact H |]. apply dict_get_keys in H. congruence.
      * rewrite <- Hkeys1. apply Hneeds. exact Hin.
Qed.

(** A run of the two-round pipeline that ends. *)
Lemma main_run_ok (w : World) (pts : dict.t details) (tr tr' : trace) :
  helpers.get_packages_to_score w (run_main_typescore.IGNORE_PACKAGES w) = Ok pts ->
  run_main_typescore.main_typescore_function w tr = (Ok tt, tr') ->
  exists st before entities,
    run_main_typescore.get_alpha_installs w pts = Ok st
    /\ tr' = (before ++ [Submit entities])%list
    /\ row_keys entities
       = (filter outside_table (dict.keys pts)
          ++ dict.keys run_main_typescore.DEPENDENCY_ISSUE_LIBRARIES)%list
    /\ forall name,
        In name (dict.keys run_main_typescore.DEPENDENCY_ISSUE_LIBRARIES) ->
        dict.has name (run_main_typescore.second_round st) = true
        /\ In name (dict.keys pts).
Proof.
  intros Hpts. unfold run_main_typescore.main_typescore_function.
  rewrite bind_run. unfold lift at 1. rewrite Hpts.
  rewrite bind_run. unfold lift at 1.
  destruct (run_main_typescore.get_alpha_installs w pts) as [st |] eqn:Hst;
    [| discriminate].
  destruct (get_alpha_installs_ok w pts st Hst) as (vti & Hvti & _).
  destruct (get_alpha_installs_records w pts vti Hvti) as (st0 & Hst0 & Hkeys & _).
  rewrite Hst in Hst0. injection Hst0 as <-.
  unfold run_main_typescore.run_rounds. rewrite bind_run.
  destruct (helpers.install w _ tr) as [[[] | e] tr1]; [| discriminate].
  rewrite bind_run.
  destruct (for_each (run_main_typescore.score_first_round w) _ _ tr1)
    as [[[pts1 ents1] | e] tr2] eqn:Hfirst; [| discriminate].
  destruct (first_loop_entities _ _ _ _ _ _ _ _ Hfirst) as [Hrows1 Hkeys1].
  rewrite bind_run.
  destruct (for_each (run_main_typescore.score_second_round w _) _ _ tr2)
    as [[[pts2 ents2] | e] tr3] eqn:Hsecond; [| discriminate].
  destruct (second_loop_entities _ _ _ _ _ _ _ _ _ Hsecond) as (Hrows2 & _ & Hneeds).
  unfold submit_transaction. intros [= <-].
  exists st, tr3, (ents1 ++ ents2)%list. split; [reflexivity |]. split; [reflexivity |].
  split.
  - unfold row_keys in *. rewrite map_app, Hrows1, Hrows2, Hkeys. reflexivity.
  - intros name Hname. destruct (Hneeds name Hname) as [Hhas Hin].
    split; [exact Hhas |]. rewrite <- Hkeys, <- Hkeys1. exact Hin.
Qed.

Lemma filter_NoDup {A : Type} (f : A -> bool) (l : list A) : NoDup l -> NoDup (filter f l).
Proof.
  induction 1 as [| x l Hx Hl IH]; simpl; [constructor |].
  destruct (f x); [| exact IH]. constructor; [| exact IH].
  intros H. apply filter_In in H. tauto.
Qed.

Lemma NoDup_app_disjoint {A : Type} (l l' : list A) :
  NoDup l -> NoDup l' -> (forall x, In x l -> ~ In x l') -> NoDup (l ++ l').
Proof.
  induction 1 as [| x l Hx Hl IH]; intros Hl' Hdis; simpl; [exact Hl' |].
  constructor.
  - intros H. apply in_app_or in H. destruct H as [H | H]; [contradiction |].
    apply (Hdis x); [left; reflexivity | exact H].
  - apply IH; [exact Hl' |]. intros y Hy. apply Hdis. right. exact Hy.
Qed.

(** X11: the transaction of a run of the two-round pipeline that
    completes holds one entity for each package of the work set outside
    the conflict table, in the order of the work set, and then one for
    each of the five packages of the table, in the order of the table;
    no two of its entities have the same row key. *)
Theorem main_entities_in_order (w : World) (pts : dict.t details) (tr tr' : trace) :
  helpers.get_packages_to_score w (run_main_typescore.IGNORE_PACKAGES w) = Ok pts ->
  run_main_typescore.main_typescore_function w tr = (Ok tt, tr') ->
  exists commands entities,
    tr' = (tr ++ commands ++ [Submit entities])%list
    /\ only_commands commands
    /\ row_keys entities
       = (filter outside_table (dict.keys pts)
          ++ dict.keys run_main_typescore.DEPENDENCY_ISSUE_LIBRARIES)%list
    /\ NoDup (row_keys entities).
Proof.
  intros Hpts Hrun.
  destruct (main_run_ok w pts tr tr' Hpts Hrun) as (st & before & entities & _ & E & Hrows & _).
  destruct (main_submits_last w _ _ _ Hrun)
    as (commands & Hc & [(_ & entities' & E') | ((e & He) & _)]); [| discriminate].
  rewrite E', app_assoc in E. apply app_inj_tail in E. destruct E as [_ [= ->]].
  exists commands, entities. split; [exact E' |]. split; [exact Hc |].
  split; [exact Hrows |]. rewrite Hrows. apply NoDup_app_disjoint.
  - apply filter_NoDup.
    apply (add_rows_NoDup w (run_main_typescore.IGNORE_PACKAGES w) (catalog w) [] pts);
      [constructor | exact Hpts].
  - repeat constructor; simpl; intuition discriminate.
  - intros x Hx Hin. apply filter_In in Hx. destruct Hx as [_ Hx].
    unfold outside_table in Hx. apply negb_true_iff, dict_has_get, dict_get_keys in Hx.
    contradiction.
Qed.

(** Witness of [main_entities_in_order]: the run over the catalog with
    the five packages of the conflict table and one more package. *)
Lemma main_entities_in_order_witness :
  exists commands entities,
    snd (run_main_typescore.main_typescore_function Scenario.main_world [])
    = ([] ++ commands ++ [Submit entities])%list
    /\ only_commands commands
    /\ row_keys entities
       = [ "azure-widget"; "azure-mixedreality-authentication"; "azure-ai-ml";
           "azure-storage-blob-changefeed"; "azure-storage-file-datalake"; "azure-core" ]
    /\ NoDup (row_keys entities).
Proof.
  exact (main_entities_in_order Scenario.main_world
           (match helpers.get_packages_to_score Scenario.main_world
                    (run_main_typescore.IGNORE_PACKAGES Scenario.main_world) with
            | Ok pts => pts
            | Raise _ => []
            end) [] _ ltac:(vm_compute; reflexivity) ltac:(vm_compute; reflexivity)).
Defined.

(** X12: the second loop of [main_typescore_function] goes through
    the whole conflict table, so that a run completes only if each of
    the five packages of the table is in the work set and has an alpha
    version in the development feed. *)
Theorem main_needs_conflict_table (w : World) (pts : dict.t details) (tr tr' : trace)
    (name : string) :
  helpers.get_packages_to_score w (run_main_typescore.IGNORE_PACKAGES w) = Ok pts ->
  run_main_typescore.main_typescore_function w tr = (Ok tt, tr') ->
  In name (dict.keys run_main_typescore.DEPENDENCY_ISSUE_LIBRARIES) ->
  In name (dict.keys pts)
  /\ exists package fv,
      In package (alpha_feed w) /\ fp_name package = name
      /\ In fv (fp_versions package) /\ alpha fv = true.
Proof.
  intros Hpts Hrun Hname.
  destruct (main_run_ok w pts tr tr' Hpts Hrun) as (st & _ & _ & Hst & _ & _ & Hneeds).
  destruct (Hneeds name Hname) as [Hhas Hin]. split; [exact Hin |].
  destruct (get_alpha_installs_ok w pts st Hst) as (vti & Hvti & Hassign).
  destruct (assign_rounds_split _ _ _ Hassign (versions_to_install_NoDup w pts vti Hvti))
    as [_ Hsecond].
  unfold dict.has in Hhas. rewrite Hsecond in Hhas.
  destruct (dict.get name vti) as [v |] eqn:Hv; [| discriminate].
  apply (versions_to_install_alpha w pts vti name v Hvti Hv).
Qed.

(** Witness of [main_needs_conflict_table]: [azure-ai-ml] in the run
    that completes. *)
Lemma main_needs_conflict_table_witness :
  In "azure-ai-ml"
     (dict.keys (match helpers.get_packages_to_score Scenario.main_world
                         (run_main_typescore.IGNORE_PACKAGES Scenario.main_world) with
                 | Ok pts => pts
                 | Raise _ => []
                 end))
  /\ exists package fv,
      In package (alpha_feed Scenario.main_world) /\ fp_name package = "azure-ai-ml"
      /\ In fv (fp_versions package) /\ alpha fv = true.
Proof.
  exact (main_needs_conflict_table Scenario.main_world _ [] _ "azure-ai-ml"
           ltac:(vm_compute; reflexivity) ltac:(vm_compute; reflexivity)
           ltac:(simpl; tauto)).
Defined.

(** A run over a catalog without the packages of the table does its
    first round and raises at the first turn of the second. *)
Example main_without_conflict_table :
  map Scenario.brief
      (snd (run_main_typescore.main_typescore_function More.tableless_world []))
  = [ "install azure-widget==3.2.0a20230601001";
      "show azure-widget"; "--verifytypes azure.widget"; "uninstall -y" ]
  /\ fst (run_main_typescore.main_typescore_function More.tableless_world [])
     = Raise (KeyError "azure-mixedreality-authentication").
Proof. vm_compute. split; reflexivity. Qed.

(** ** The module of a package with an initializer *)












Example module_of_azure_ai_ml :
  fst (helpers.get_module Scenario.main_world "azure-ai-ml" []) = Ok "azure.ai.ml".
Proof. vm_compute. reflexivity. Qed.

(** A path with an underscore before the initializer is still cut at
    the first [__init__.py]; a private package is resolved as well. *)
Example module_of_private_package :
  helpers.module_substring ["  azure/ai/_internal/__init__.py"]
  = Some "azure/ai/_internal/".
Proof. vm_compute. reflexivity. Qed.

(** ** The function app *)

Lemma cached_reused (w : World) (name : string) (p : details) :
  cached w name (reused w name p) = cached w name p.
Proof.
  unfold reused. destruct (cached w name p) as [entity |] eqn:Hc; [| exact Hc].
  unfold cached in *. destruct (helpers.get_last_month (today w)); [| discriminate].
  destruct (get_entity w a name); [| discriminate]. exact Hc.
Qed.

(** A turn of the first loop of [test_function] that returns: the row
    is skipped, or its package is added to the work set, with last
    month's score when that can be reused and with a requirement to
    install when not. *)
Lemma read_row_ok (w : World) (pts pts' : dict.t details) (installs installs' : list string)
    (r : row) :
  function_app.read_row w (pts, installs) r = Ok (pts', installs') ->
  (pts' = pts /\ installs' = installs
   /\ (is_float (r_Package r) = true
       \/ exists name, r_Package r = Str name
                       /\ (function_app.is_ignored_package w name = true
                           \/ dict.has name pts = true)))
  \/ exists name latest,
      r_Package r = Str name
      /\ function_app.is_ignored_package w name = false
      /\ dict.has name pts = false
      /\ helpers.latest_version w r = Ok latest
      /\ pts' = (pts ++ [(name, reused w name (app_details w name latest))])%list
      /\ installs'
         = (installs ++ match cached w name (app_details w name latest) with
                        | Some _ => []
                        | None => [name ++ "==" ++ cell_format w latest]%string
                        end)%list.
Proof.
  unfold function_app.read_row.
  destruct (r_Package r) as [name | | x].
  2:{ intros [= <- <-]. left. repeat split. left. reflexivity. }
  2:{ intros [= <- <-]. left. repeat split. left. reflexivity. }
  destruct (function_app.is_ignored_package w name) eqn:Hi.
  { intros [= <- <-]. left. repeat split. right. exists name. split; [reflexivity |].
    left. exact Hi. }
  destruct (dict.has name pts) eqn:Hh.
  { intros [= <- <-]. left. repeat split. right. exists name. split; [reflexivity |].
    right. exact Hh. }
  cbn [orb].
  destruct (helpers.latest_version w r) as [latest |] eqn:Hl; [| discriminate].
  fold (app_details w name latest).
  unfold reused, cached, function_app.get_last_month. cbn [LatestVersion app_details].
  destruct (helpers.get_last_month (today w)) as [partition_key |]; [| discriminate].
  apply dict_has_get in Hh.
  intros Hrow. right. exists name, latest.
  split; [reflexivity |]. split; [exact Hi |].
  split; [apply dict_has_get; exact Hh |]. split; [reflexivity |].
  destruct (get_entity w partition_key name) as [entity |].
  - destruct (cell_eq (e_LatestVersion entity) latest); injection Hrow as <- <-;
      rewrite (dict_set_new _ _ _ Hh), ?app_nil_r; split; reflexivity.
  - injection Hrow as <- <-. rewrite (dict_set_new _ _ _ Hh). split; reflexivity.
Qed.

Lemma to_install_first (w : World) (pts added : dict.t details) (name : string) (p : details) :
  dict.get name pts = None ->
  to_install w (pts ++ (name, reused w name p) :: added)%list name
  = match cached w name p with
    | Some _ => []
    | None => [name ++ "==" ++ cell_format w (LatestVersion p)]%string
    end.
Proof.
  intros Hnone. unfold to_install.
  assert (Hget : dict.get name (pts ++ (name, reused w name p) :: added)%list
                 = Some (reused w name p)).
  { unfold dict.get in *. induction pts as [| [k v] pts IH]; simpl.
    - rewrite eqb_string_refl. reflexivity.
    - simpl in Hnone. destruct (String.eqb name k); [discriminate | apply IH; exact Hnone]. }
  rewrite Hget, cached_reused.
  destruct (cached w name p) eqn:Hc; [reflexivity |].
  unfold reused. rewrite Hc. reflexivity.
Qed.

Lemma to_install_agree (w : World) (pts pts' : dict.t details) (names : list string) :
  (forall n, In n names -> dict.get n pts' = dict.get n pts) ->
  flat_map (to_install w pts') names = flat_map (to_install w pts) names.
Proof.
  intros H. apply flat_map_agree. intros n Hn. unfold to_install. rewrite (H n Hn).
  reflexivity.
Qed.

(** The first loop of [test_function], when it ends: the work set
    grows at its end, by packages it did not hold, and the install list
    by the requirements of those of them without a reusable entry. *)
Lemma read_rows_ok (w : World) (rows : list row) :
  forall pts installs pts' installs',
    function_app.read_rows w rows (pts, installs) = Ok (pts', installs') ->
    NoDup (dict.keys pts) ->
    exists added,
      pts' = (pts ++ added)%list
      /\ NoDup (dict.keys pts')
      /\ installs' = (installs ++ flat_map (to_install w pts') (dict.keys added))%list.
Proof.
  induction rows as [| r rows IH]; intros pts installs pts' installs'.
  - intros [= <- <-] Hnd. exists []. rewrite !app_nil_r. repeat split. exact Hnd.
  - cbn [function_app.read_rows].
    destruct (function_app.read_row w (pts, installs) r) as [[pts1 installs1] |] eqn:Hrow;
      [| discriminate].
    intros Hrest Hnd.
    destruct (read_row_ok _ _ _ _ _ _ Hrow)
      as [(-> & -> & _) | (name & latest & _ & _ & Hhas & _ & -> & ->)].
    + apply (IH _ _ _ _ Hrest Hnd).
    + apply dict_has_get in Hhas.
      assert (Hnd1 : NoDup (dict.keys (pts ++ [(name, reused w name (app_details w name latest))])%list)).
      { rewrite keys_app. apply NoDup_snoc; [exact Hnd | apply dict_get_keys; exact Hhas]. }
      destruct (IH _ _ _ _ Hrest Hnd1) as (added & -> & Hnd' & ->).
      exists ((name, reused w name (app_details w name latest)) :: added).
      rewrite <- !app_assoc. cbn [app]. split; [reflexivity |]. 
      split; [rewrite <- app_assoc in Hnd'; exact Hnd' |].
      f_equal. cbn [dict.keys map fst flat_map]. fold (dict.keys added).
      rewrite (to_install_first w pts added name _ Hhas). reflexivity.
Qed.

Lemma read_rows_keeps (w : World) (rows : list row) :
  forall pts installs pts' installs' name p,
    function_app.read_rows w rows (pts, installs) = Ok (pts', installs') ->
    dict.get name pts = Some p -> dict.get name pts' = Some p.
Proof.
  induction rows as [| r rows IH]; intros pts installs pts' installs' name p.
  - intros [= <- <-] H. exact H.
  - cbn [function_app.read_rows].
    destruct (function_app.read_row w (pts, installs) r) as [[pts1 installs1] |] eqn:Hrow;
      [| discriminate].
    intros Hrest Hget. apply (IH _ _ _ _ _ _ Hrest).
    destruct (read_row_ok _ _ _ _ _ _ Hrow)
      as [(-> & _) | (n & latest & _ & _ & _ & _ & -> & _)]; [exact Hget |].
    rewrite dict_get_app_new, Hget. reflexivity.
Qed.

(** The record of a package is made from the first row that names it. *)
Lemma read_rows_first (w : World) (before : list row) :
  forall pts installs pts' installs' r after name,
    function_app.read_rows w (before ++ r :: after) (pts, installs) = Ok (pts', installs') ->
    r_Package r = Str name ->
    (forall r', In r' before -> r_Package r' <> Str name) ->
    function_app.is_ignored_package w name = false ->
    dict.has name pts = false ->
    exists latest,
      helpers.latest_version w r = Ok latest
      /\ dict.get name pts' = Some (reused w name (app_details w name latest)).
Proof.
  induction before as [| r0 before IH];
    intros pts installs pts' installs' r after name; cbn [app function_app.read_rows].
  - destruct (function_app.read_row w (pts, installs) r) as [[pts1 installs1] |] eqn:Hrow;
      [| discriminate].
    intros Hrest Hname _ Hignored Hhas.
    destruct (read_row_ok _ _ _ _ _ _ Hrow)
      as [(_ & _ & [Hnan | (n & Hn & Hskip)])
         | (n & latest & Hn & _ & _ & Hlatest & -> & _)].
    + rewrite Hname in Hnan. discriminate Hnan.
    + assert (n = name) by congruence. subst n. destruct Hskip; congruence.
    + assert (n = name) by congruence. subst n. exists latest. split; [exact Hlatest |].
      apply (read_rows_keeps w _ _ _ _ _ _ _ Hrest).
      rewrite dict_get_app_new. apply dict_has_get in Hhas. rewrite Hhas, eqb_string_refl.
      reflexivity.
  - destruct (function_app.read_row w (pts, installs) r0) as [[pts1 installs1] |] eqn:Hrow;
      [| discriminate].
    intros Hrest Hname Hbefore Hignored Hhas.
    apply (IH _ _ _ _ _ _ _ Hrest Hname); [| exact Hignored |].
    + intros r' Hr'. apply Hbefore. right. exact Hr'.
    + destruct (read_row_ok _ _ _ _ _ _ Hrow)
        as [(-> & _) | (n & latest & Hn & _ & _ & _ & -> & _)]; [exact Hhas |].
      apply dict_has_get. rewrite dict_get_app_new.
      apply dict_has_get in Hhas. rewrite Hhas.
      destruct (String.eqb_spec name n) as [-> | _]; [| reflexivity].
      exfalso. apply (Hbefore r0); [left; reflexivity | exact Hn].
Qed.

Lemma app_get_module_trace (w : World) (package : string) (tr tr' : trace)
    (r : result string) :
  function_app.get_module w package tr = (r, tr') ->
  tr' = (tr ++ [Exec (pip_show w package)])%list.
Proof.
  unfold function_app.get_module, bind, subprocess_run.
  destruct (checked _); intros [= _ <-]; reflexivity.
Qed.

(** A turn of the scoring loop of [test_function] that ends. *)
Lemma app_turn_ok (w : World) (st st' : function_app.scoring) (package : string)
    (tr tr' : trace) :
  function_app.score_turn w st package tr = (Ok st', tr') ->
  exists evs new,
    tr' = (tr ++ evs)%list
    /\ function_app.s_entities st' = (function_app.s_entities st ++ new)%list
    /\ app_turn w (function_app.s_packages st) package evs
    /\ (forall m, m <> package ->
                  dict.get m (function_app.s_packages st')
                  = dict.get m (function_app.s_packages st))
    /\ (forall p s b,
           dict.get package (function_app.s_packages st) = Some p ->
           Score p = Some s -> PyTyped p = Some b ->
           new = [("create", entity_of package p s b)]).
Proof.
  unfold function_app.score_turn, app_turn. rewrite bind_run. unfold lift at 1, item.
  destruct (dict.get package (function_app.s_packages st)) as [p |] eqn:Hget;
    [| discriminate].
  destruct (Score p) as [s |] eqn:Hs.
  - rewrite bind_run. unfold lift at 1, function_app.add_entity.
    destruct (helpers.add_entity package _ _) as [ents1 |] eqn:Hadd; [| discriminate].
    intros [= <- <-]. cbn [function_app.s_entities function_app.s_packages].
    destruct (add_entity_ok _ _ _ _ Hadd) as (p1 & s1 & b1 & Hg1 & Hs1 & Hb1 & ->).
    exists [], [("create", entity_of package p1 s1 b1)]. rewrite app_nil_r.
    repeat split; try reflexivity.
    intros p2 s2 b2 Hg2 Hs2 Hb2. congruence.
  - rewrite bind_run.
    destruct (function_app.get_module w package tr) as [[module | e] tr1] eqn:Hmod;
      [| discriminate].
    pose proof (app_get_module_trace _ _ _ _ _ Hmod) as ->.
    rewrite bind_run. unfold try_run at 1. unfold lift.
    destruct (helpers.verifytypes_report w _ _) as [report |]; [| discriminate].
    simpl.
    destruct (helpers.record_score package report _ _) as [[pts1 ents1] |] eqn:Hrec;
      [| discriminate].
    simpl. intros [= <- <-]. cbn [function_app.s_entities function_app.s_packages].
    destruct (record_score_ok _ _ _ _ _ _ Hrec) as (p0 & p' & e & Hg0 & -> & -> & He).
    exists [Exec (pip_show w package); Exec (pyright_verifytypes w module)], [("create", e)].
    split; [rewrite <- app_assoc; reflexivity |]. split; [reflexivity |].
    split; [exists module; reflexivity |].
    split; [intros m Hm; apply dict_get_set_other; exact Hm |].
    intros p2 s2 b2 Hg2 Hs2 _. congruence.
Qed.

Lemma app_turn_ext (w : World) (pts pts' : dict.t details) (package : string)
    (evs : list event) :
  dict.get package pts' = dict.get package pts ->
  app_turn w pts' package evs -> app_turn w pts package evs.
Proof. unfold app_turn. intros ->. tauto. Qed.

(** The scoring loop of [test_function], when it ends. *)
Lemma app_loop_ok (w : World) (names : list string) :
  forall st st' tr tr',
    NoDup names ->
    for_each (function_app.score_turn w) names st tr = (Ok st', tr') ->
    exists blocks new,
      tr' = (tr ++ List.concat blocks)%list
      /\ function_app.s_entities st' = (function_app.s_entities st ++ new)%list
      /\ Forall2 (app_turn w (function_app.s_packages st)) names blocks
      /\ (forall q p s b,
             In q names -> dict.get q (function_app.s_packages st) = Some p ->
             Score p = Some s -> PyTyped p = Some b ->
             In ("create", entity_of q p s b) new).
Proof.
  induction names as [| name names IH]; intros st st' tr tr' Hnd.
  - intros [= <- <-]. exists [], []. rewrite !app_nil_r.
    repeat split; try constructor. intros q p s b [].
  - cbn [for_each]. rewrite bind_run.
    destruct (function_app.score_turn w st name tr) as [[st1 | e] tr1] eqn:Hturn;
      [| discriminate].
    intros Hrest. inversion Hnd as [| ? ? Hname Hnd']; subst.
    destruct (app_turn_ok _ _ _ _ _ _ Hturn)
      as (evs1 & new1 & -> & Hents1 & Hshape1 & Hother1 & Hreuse1).
    destruct (IH _ _ _ _ Hnd' Hrest) as (blocks & new & -> & Hents & Hshape & Hreuse).
    assert (Hsame : forall m, In m names ->
                              dict.get m (function_app.s_packages st1)
                              = dict.get m (function_app.s_packages st)).
    { intros m Hm. apply Hother1. intros ->. contradiction. }
    exists (evs1 :: blocks), (new1 ++ new)%list.
    split; [simpl; rewrite app_assoc; reflexivity |].
    split; [rewrite Hents, Hents1, app_assoc; reflexivity |].
    split.
    { constructor; [exact Hshape1 |].
      eapply Forall2_impl_in; [| exact Hshape].
      intros m evs Hm. apply app_turn_ext. apply Hsame. exact Hm. }
    intros q p s b [<- | Hq] Hget Hs Hb; apply in_or_app.
    + left. rewrite (Hreuse1 p s b Hget Hs Hb). left. reflexivity.
    + right. apply (Hreuse q p s b Hq); [| exact Hs | exact Hb].
      rewrite Hsame; assumption.
Qed.

(** The turns of a loop that ends leave alone a package with a score. *)
Lemma app_turns_skip (w : World) (q : string) (pts : dict.t details) (names : list string)
    (blocks : list (list event)) :
  has_score q pts -> Forall2 (app_turn w pts) names blocks ->
  leaves_alone w q (List.concat blocks).
Proof.
  intros (p & s & Hget & Hs). induction 1 as [| name evs names blocks Hturn _ IH].
  - apply leaves_alone_nil.
  - cbn [List.concat]. apply leaves_alone_app; [| exact IH].
    unfold app_turn in Hturn.
    destruct (String.eqb_spec name q) as [-> | Hne].
    + rewrite Hget, Hs in Hturn. subst evs. apply leaves_alone_nil.
    + destruct (dict.get name pts) as [p0 |]; [| contradiction].
      destruct (Score p0); [subst evs; apply leaves_alone_nil |].
      apply (scored_leaves_alone w q name evs []); [exact Hne |].
      rewrite app_nil_r. exact Hturn.
Qed.

Lemma app_install_trace (w : World) (packages : list string) (tr tr' : trace)
    (r : result unit) :
  function_app.install w packages tr = (r, tr') ->
  tr' = (tr ++ app_installed w packages)%list.
Proof.
  unfold function_app.install, app_installed.
  destruct packages as [| x packages].
  - intros [= _ <-]. rewrite app_nil_r. reflexivity.
  - unfold check_call, bind, subprocess_run. destruct (checked _); intros [= _ <-]; reflexivity.
Qed.

(** X14: in a run of [test_function] that completes, a package
    whose entry of the previous month records the version of its first
    catalog row contributes nothing to the install command, is neither
    looked up with [pip show] nor checked, and is stored with the score
    and the marker flag of that entry. No package is excepted:
    [azure-core] is treated like the others. *)
Theorem test_function_reuses_cache (w : World) (tr tr' : trace) (before after : list row)
    (r : row) (q partition_key : string) (latest : cell) (entity : entity) :
  catalog w = (before ++ r :: after)%list ->
  r_Package r = Str q ->
  (forall r', In r' before -> r_Package r' <> Str q) ->
  function_app.is_ignored_package w q = false ->
  helpers.latest_version w r = Ok latest ->
  helpers.get_last_month (today w) = Ok partition_key ->
  get_entity w partition_key q = Some entity ->
  cell_eq (e_LatestVersion entity) latest = true ->
  function_app.test_function w tr = (Ok tt, tr') ->
  exists pts scoring entities e,
    tr' = (tr ++ app_installed w (flat_map (to_install w pts) (dict.keys pts))
           ++ scoring ++ [Submit entities])%list
    /\ In q (dict.keys pts)
    /\ to_install w pts q = []
    /\ leaves_alone w q scoring
    /\ In ("create", e) entities
    /\ e_RowKey e = q
    /\ e_Score e = e_Score entity
    /\ e_PyTyped e = e_PyTyped entity
    /\ e_LatestVersion e = latest.
Proof.
  intros Hcat Hname Hfirst Hignored Hlatest Hpk Hentity Hversion.
  unfold function_app.test_function. rewrite bind_run. unfold lift at 1.
  destruct (function_app.read_rows w (catalog w) ([], [])) as [[pts installs] |] eqn:Hread;
    [| discriminate].
  destruct (read_rows_ok w _ _ _ _ _ Hread (NoDup_nil _)) as (added & Hpts & Hnd & Hinstalls).
  cbn [app] in Hpts, Hinstalls. subst added installs.
  rewrite Hcat in Hread.
  destruct (read_rows_first w _ _ _ _ _ _ _ _ Hread Hname Hfirst Hignored eq_refl)
    as (latest' & Hlatest' & Hget).
  assert (latest' = latest) by congruence. subst latest'.
  set (p := app_details w q latest) in *.
  assert (Hcached : cached w q p = Some entity).
  { unfold cached. rewrite Hpk, Hentity. cbn [LatestVersion p app_details].
    rewrite Hversion. reflexivity. }
  assert (Hs : Score (reused w q p) = Some (e_Score entity)
               /\ PyTyped (reused w q p) = Some (e_PyTyped entity)
               /\ LatestVersion (reused w q p) = latest).
  { unfold reused. rewrite Hcached. repeat split. }
  destruct Hs as (Hscore & Hflag & Hlv).
  assert (Hin : In q (dict.keys pts)).
  { destruct (in_dec string_dec q (dict.keys pts)) as [H | H]; [exact H |].
    apply dict_get_keys in H. congruence. }
  rewrite bind_run.
  destruct (function_app.install w _ tr) as [[[] | e0] tr1] eqn:Hinst; [| discriminate].
  pose proof (app_install_trace _ _ _ _ _ Hinst) as ->.
  rewrite bind_run.
  destruct (for_each (function_app.score_turn w) _ _ _) as [[st | e0] tr2] eqn:Hloop;
    [| discriminate].
  destruct (app_loop_ok w _ _ _ _ _ Hnd Hloop) as (blocks & new & -> & Hents & Hshape & Hreuse).
  cbn [function_app.s_entities function_app.s_packages app] in Hents, Hshape, Hreuse.
  unfold submit_transaction. intros [= <-].
  exists pts, (List.concat blocks), (function_app.s_entities st),
         (entity_of q (reused w q p) (e_Score entity) (e_PyTyped entity)).
  split; [rewrite <- !app_assoc; reflexivity |]. split; [exact Hin |].
  split.
  { unfold to_install. rewrite Hget, cached_reused, Hcached. reflexivity. }
  split.
  { apply (app_turns_skip w q pts (dict.keys pts) blocks); [| exact Hshape].
    exists (reused w q p), (e_Score entity). split; assumption. }
  split; [rewrite Hents; apply (Hreuse q _ _ _ Hin Hget Hscore Hflag) |].
  simpl. repeat split. exact Hlv.
Qed.

(** Witness of [test_function_reuses_cache]: [azure-core], whose entry
    of the previous month has the version of the catalog. *)
Lemma test_function_reuses_cache_witness :
  exists pts scoring entities e,
    snd (function_app.test_function Scenario.released_world [])
    = ([] ++ app_installed Scenario.released_world
               (flat_map (to_install Scenario.released_world pts) (dict.keys pts))
       ++ scoring ++ [Submit entities])%list
    /\ In "azure-core" (dict.keys pts)
    /\ to_install Scenario.released_world pts "azure-core" = []
    /\ leaves_alone Scenario.released_world "azure-core" scoring
    /\ In ("create", e) entities
    /\ e_RowKey e = "azure-core"
    /\ e_Score e = PyFloat 50
    /\ e_PyTyped e = true
    /\ e_LatestVersion e = Str "1.26.0".
Proof.
  exact (test_function_reuses_cache Scenario.released_world [] _
           [Scenario.released "azure-widget" "3.1.0"] []
           (Scenario.released "azure-core" "1.26.0") "azure-core" "2023-05-15"
           (Str "1.26.0") (Scenario.stored "azure-core" "1.26.0")
           eq_refl eq_refl
           ltac:(intros r' [<- | []]; discriminate)
           eq_refl eq_refl eq_refl eq_refl eq_refl
           ltac:(vm_compute; reflexivity)).
Defined.

(** With nothing released since the previous month the function app
    runs no command at all. *)
Example test_function_all_cached :
  exists entities,
    function_app.test_function Scenario.released_world [] = (Ok tt, [Submit entities])
    /\ row_keys entities = ["azure-widget"; "azure-core"].
Proof. eexists. vm_compute. split; reflexivity. Qed.

(** ** The ignore lists of the three programs *)

Lemma mem_app (x : string) (l l' : list string) : mem x (l ++ l') = mem x l || mem x l'.
Proof. unfold mem. apply existsb_app. Qed.

(** X15: the three programs filter the catalog alike, but for the
    names that their lists do not share: the function app lacks four
    names of the list of helpers.py, and the two-round pipeline ignores
    two more. So every package that the function app ignores is ignored
    by the released pipeline, and every package that the released
    pipeline ignores is ignored by the two-round pipeline. *)
Theorem ignore_lists_nested (w : World) (name : string) :
  helpers.is_ignored_package w (helpers.IGNORE_PACKAGES w) name
  = function_app.is_ignored_package w name
    || mem name ["azureml-fsspec"; "mltable"; "apiview-stub-generator";
                 "azure-pylint-guidelines-checker"]
  /\ helpers.is_ignored_package w (run_main_typescore.IGNORE_PACKAGES w) name
     = helpers.is_ignored_package w (helpers.IGNORE_PACKAGES w) name
       || mem name ["azure-ai-vision"; "azure-ai-mlmonitoring"].
Proof.
  assert (Hlists : helpers.additional_ignores
                   = (function_app.additional_ignores
                      ++ ["azureml-fsspec"; "mltable"; "apiview-stub-generator";
                          "azure-pylint-guidelines-checker"])%list) by reflexivity.
  unfold function_app.is_ignored_package, helpers.is_ignored_package,
    run_main_typescore.IGNORE_PACKAGES, helpers.IGNORE_PACKAGES, function_app.IGNORE_PACKAGES.
  rewrite Hlists, !mem_app.
  set (filtered := negb (mem name (ci_FILTER_EXCLUSIONS w)) && existsb _ (ci_IGNORE_FILTER w)).
  destruct (mem name (ci_IGNORE_PACKAGES w)), (mem name function_app.additional_ignores),
    (mem name ["azureml-fsspec"; "mltable"; "apiview-stub-generator";
               "azure-pylint-guidelines-checker"]),
    (mem name ["azure-ai-vision"; "azure-ai-mlmonitoring"]), filtered;
    split; reflexivity.
Qed.

Example mltable_only_in_function_app :
  helpers.is_ignored_package More.filtered_world
    (helpers.IGNORE_PACKAGES More.filtered_world) "mltable" = true
  /\ function_app.is_ignored_package More.filtered_world "mltable" = false.
Proof. split; vm_compute; reflexivity. Qed.

(** ** The cache lookups of the released pipeline *)

Lemma lookups_raise (w : World) (e : exn) (names : list string) (state : dict.t details * list string) :
  helpers.get_last_month (today w) = Raise e -> names <> [] ->
  run_released_typescore.lookups w names state = Raise e.
Proof.
  intros Hdate Hnames. destruct names as [| n names]; [contradiction |].
  cbn [run_released_typescore.lookups]. unfold run_released_typescore.lookup.
  destruct state as [pts installs]. rewrite Hdate. reflexivity.
Qed.

(** X16: [get_released_installs] raises only when [get_last_month]
    does, with its exception and provided the work set is not empty; it
    never fails on a package. When it returns, the work set has the
    same packages in the same order, with last month's score where the
    entry can be reused, and the install list holds the requirements of
    the other packages in the order of the work set. *)
Theorem get_released_installs_outcome (w : World) (pts : dict.t details) :
  NoDup (dict.keys pts) ->
  match helpers.get_last_month (today w) with
  | Ok _ =>
      exists pts',
        run_released_typescore.get_released_installs w pts
        = Ok (pts', flat_map (to_install w pts) (dict.keys pts))
        /\ dict.keys pts' = dict.keys pts
        /\ forall n, dict.get n pts' = option_map (reused w n) (dict.get n pts)
  | Raise e =>
      run_released_typescore.get_released_installs w pts
      = match pts with
        | [] => Ok ([], [])
        | _ => Raise e
        end
  end.
Proof.
  intros Hnd. unfold run_released_typescore.get_released_installs.
  destruct (helpers.get_last_month (today w)) as [partition_key | e] eqn:Hdate.
  - destruct (lookups_total w partition_key (dict.keys pts) Hdate pts [] (fun n H => H))
      as (pts' & installs & Hlook).
    destruct (lookups_reused _ _ _ _ _ _ Hlook Hnd) as (Hkeys & -> & Hget).
    exists pts'. split; [exact Hlook |]. split; [exact Hkeys |].
    intros n. rewrite Hget. destruct (dict.get n pts) as [p |] eqn:Hn; [| reflexivity].
    assert (Hm : mem n (dict.keys pts) = true).
    { apply mem_In. destruct (in_dec string_dec n (dict.keys pts)) as [H | H]; [exact H |].
      apply dict_get_keys in H. congruence. }
    rewrite Hm. reflexivity.
  - destruct pts as [| [k p] pts]; [reflexivity |].
    apply (lookups_raise w e _ _ Hdate). discriminate.
Qed.

(** Witness of [get_released_installs_outcome]: the released catalog
    with a new version of [azure-widget]. *)
Lemma get_released_installs_outcome_witness :
  exists pts',
    run_released_typescore.get_released_installs Scenario.updated_world
      (Scenario.work_set Scenario.updated_world)
    = Ok (pts', flat_map (to_install Scenario.updated_world
                            (Scenario.work_set Scenario.updated_world))
                         ["azure-widget"; "azure-core"])
    /\ dict.keys pts' = ["azure-widget"; "azure-core"]
    /\ forall n, dict.get n pts'
                 = option_map (reused Scenario.updated_world n)
                              (dict.get n (Scenario.work_set Scenario.updated_world)).
Proof.
  exact (get_released_installs_outcome Scenario.updated_world
           (Scenario.work_set Scenario.updated_world)
           ltac:(vm_compute; repeat constructor; simpl; intuition discriminate)).
Defined.

Example released_installs_of_the_update :
  flat_map (to_install Scenario.updated_world (Scenario.work_set Scenario.updated_world))
           ["azure-widget"; "azure-core"]
  = ["azure-widget==3.2.0"].
Proof. vm_compute. reflexivity. Qed.

(** ** A row without a version *)

(** X17: a row of the catalog that names a package and has neither a
    GA nor a preview version is not dropped. The package enters the work
    set with the float NaN as its version; the released pipeline then
    asks pip for the requirement [name==nan], and reuses no entry of the
    history table for it, whatever the entry records. *)
Theorem unversioned_row_requirement (w : World) (pts pts' : dict.t details)
    (installs : list string) (before after : list row) (r : row) (name : string) :
  catalog w = (before ++ r :: after)%list ->
  r_Package r = Str name ->
  (forall r', In r' before -> r_Package r' <> Str name) ->
  helpers.is_ignored_package w (helpers.IGNORE_PACKAGES w) name = false ->
  r_VersionGA r = NaN -> r_VersionPreview r = NaN ->
  helpers.get_packages_to_score w (helpers.IGNORE_PACKAGES w) = Ok pts ->
  run_released_typescore.get_released_installs w pts = Ok (pts', installs) ->
  option_map LatestVersion (dict.get name pts) = Some NaN
  /\ In (name ++ "==nan")%string installs
  /\ option_map Score (dict.get name pts') = Some None.
Proof.
  intros Hcat Hname Hfirst Hignored Hga Hpre Hpts Hlook.
  unfold helpers.get_packages_to_score in Hpts. rewrite Hcat in Hpts.
  destruct (add_rows_first w _ _ _ _ _ _ _ Hpts Hname Hfirst Hignored eq_refl)
    as (latest & Hlatest & Hget).
  assert (latest = NaN).
  { unfold helpers.latest_version, helpers.parse_cell in Hlatest.
    rewrite Hga, Hpre in Hlatest. simpl in Hlatest. congruence. }
  subst latest.
  assert (Hnd : NoDup (dict.keys pts)).
  { apply (add_rows_NoDup w (helpers.IGNORE_PACKAGES w) (before ++ r :: after) [] pts);
      [constructor | exact Hpts]. }
  destruct (lookups_reused _ _ _ _ _ _ Hlook Hnd) as (_ & -> & Hget').
  assert (Hcached : cached w name (helpers.details_of_row w r NaN) = None).
  { unfold cached. destruct (helpers.get_last_month (today w)); [| reflexivity].
    destruct (get_entity w a name) as [entity |]; [| reflexivity].
    cbn [LatestVersion helpers.details_of_row].
    destruct (e_LatestVersion entity); reflexivity. }
  split; [rewrite Hget; reflexivity |]. split.
  - cbn [app]. apply in_flat_map. exists name. split.
    + destruct (in_dec string_dec name (dict.keys pts)) as [H | H]; [exact H |].
      apply dict_get_keys in H. congruence.
    + unfold to_install. rewrite Hget, Hcached. left. reflexivity.
  - rewrite Hget', Hget.
    assert (Hm : mem name (dict.keys pts) = true).
    { apply mem_In. destruct (in_dec string_dec name (dict.keys pts)) as [H | H];
        [exact H |]. apply dict_get_keys in H. congruence. }
    rewrite Hm. unfold reused. rewrite Hcached. reflexivity.
Qed.

(** Witness of [unversioned_row_requirement]: a row of [azure-widget]
    without versions, and an entry of the previous month without one. *)
Lemma unversioned_row_requirement_witness :
  option_map LatestVersion
    (dict.get "azure-widget" (Scenario.work_set More.unversioned_world)) = Some NaN
  /\ In "azure-widget==nan"
        (match run_released_typescore.get_released_installs More.unversioned_world
                 (Scenario.work_set More.unversioned_world) with
         | Ok (_, installs) => installs
         | Raise _ => []
         end)
  /\ option_map Score
       (dict.get "azure-widget"
          (match run_released_typescore.get_released_installs More.unversioned_world
                   (Scenario.work_set More.unversioned_world) with
           | Ok (pts', _) => pts'
           | Raise _ => []
           end)) = Some None.
Proof.
  exact (unversioned_row_requirement More.unversioned_world _ _ _ []
           [Scenario.released "azure-core" "1.26.0"]
           (mkrow (Str "azure-widget") NaN NaN (Str "sdk")) "azure-widget"
           eq_refl eq_refl ltac:(intros r' []) eq_refl eq_refl eq_refl
           ltac:(vm_compute; reflexivity) ltac:(vm_compute; reflexivity)).
Defined.

(** ** What [score_package] changes *)

Lemma record_score_frame (package : string) (report : option json) (pts pts' : dict.t details)
    (ents ents' : list (string * entity)) :
  helpers.record_score package report pts ents = Ok (pts', ents') ->
  exists p s b,
    dict.get package pts = Some p
    /\ pts' = dict.set package (update_Score s (update_PyTyped b p)) pts
    /\ ents' = (ents ++ [("create", entity_of package p s b)])%list.
Proof.
  unfold helpers.record_score.
  destruct (local "report" report) as [rep |]; [simpl | discriminate].
  destruct (getitem rep "typeCompleteness") as [completeness |]; [simpl | discriminate].
  destruct (get_or_none completeness "pyTypedPath") as [path |]; [simpl | discriminate].
  unfold item. destruct (dict.get package pts) as [p |] eqn:Hget; [simpl | discriminate].
  destruct (getitem completeness "completenessScore") as [fraction |]; [simpl | discriminate].
  destruct (percent fraction) as [score |]; [simpl | discriminate].
  rewrite dict_set_set.
  destruct (helpers.add_entity _ _ _) as [ents1 |] eqn:Hadd; [simpl | discriminate].
  intros [= <- <-].
  destruct (add_entity_ok _ _ _ _ Hadd) as (p1 & s & b & Hg1 & Hs1 & Hb1 & ->).
  rewrite dict_get_set in Hg1. injection Hg1 as <-.
  cbn [Score PyTyped update_Score update_PyTyped] in Hs1, Hb1.
  injection Hs1 as <-. injection Hb1 as <-.
  exists p, score, (if is_none path then false else true).
  split; [reflexivity |]. split; reflexivity.
Qed.

(** X18: a call of [score_package] that returns has run two
    commands, [pip show] on the package and the checker on a module. It
    has set the score and the marker flag of the package and nothing
    else: the versions, the check flags and the date of the package, the
    records of all other packages and the order of the work set are as
    before. The entities collected so far are kept, and one entity is
    appended, which carries the name, the new score and flag, and the
    other fields of the record. *)
Theorem score_package_frame (w : World) (package : string) (pts pts' : dict.t details)
    (ents ents' : list (string * entity)) (tr tr' : trace) :
  helpers.score_package w package pts ents tr = (Ok (pts', ents'), tr') ->
  exists module p s b,
    tr' = (tr ++ [Exec (pip_show w package); Exec (pyright_verifytypes w module)])%list
    /\ dict.get package pts = Some p
    /\ dict.get package pts' = Some (update_Score s (update_PyTyped b p))
    /\ (forall other, other <> package -> dict.get other pts' = dict.get other pts)
    /\ dict.keys pts' = dict.keys pts
    /\ ents' = (ents ++ [("create", entity_of package p s b)])%list.
Proof.
  intros Hrun.
  destruct (score_package_trace _ _ _ _ _ _ _ Hrun) as (evs & -> & [module ->]).
  rewrite score_package_steps in Hrun.
  destruct (helpers.get_module w package tr) as [[module' | e] tr1]; [| discriminate].
  cbv zeta in Hrun.
  destruct (helpers.verifytypes_report w None _) as [report |]; [| discriminate].
  simpl in Hrun.
  destruct (helpers.record_score package report pts ents) as [[pts1 ents1] |] eqn:Hrec;
    [| discriminate].
  injection Hrun as <- <- _.
  destruct (record_score_frame _ _ _ _ _ _ Hrec) as (p & s & b & Hget & -> & ->).
  exists module, p, s, b. split; [reflexivity |]. split; [exact Hget |].
  split; [apply dict_get_set |].
  split; [intros other Hother; apply dict_get_set_other; exact Hother |].
  split; [apply (dict_keys_set _ _ _ _ Hget) | reflexivity].
Qed.

(** Witness of [score_package_frame]: [azure-core] is scored in a work
    set that holds [azure-widget] as well. *)
Lemma score_package_frame_witness :
  exists module p s b,
    snd More.core_scoring
    = ([] ++ [Exec (pip_show Scenario.released_world "azure-core");
              Exec (pyright_verifytypes Scenario.released_world module)])%list
    /\ dict.get "azure-core" (Scenario.work_set Scenario.released_world) = Some p
    /\ dict.get "azure-core" More.scored_set = Some (update_Score s (update_PyTyped b p))
    /\ (forall other,
           other <> "azure-core" ->
           dict.get other More.scored_set
           = dict.get other (Scenario.work_set Scenario.released_world))
    /\ dict.keys More.scored_set = dict.keys (Scenario.work_set Scenario.released_world)
    /\ More.scored_entities = ([] ++ [("create", entity_of "azure-core" p s b)])%list.
Proof.
  exact (score_package_frame Scenario.released_world "azure-core"
           (Scenario.work_set Scenario.released_world) More.scored_set
           [] More.scored_entities [] (snd More.core_scoring)
           ltac:(vm_compute; reflexivity)).
Defined.

Example score_package_keeps_azure_widget :
  dict.keys More.scored_set = ["azure-widget"; "azure-core"]
  /\ option_map Score (dict.get "azure-widget" More.scored_set) = Some None
  /\ option_map Score (dict.get "azure-core" More.scored_set) = Some (Some (PyInt 100)).
Proof. vm_compute. repeat split. Qed.

(** ** The transaction of the function app *)

Lemma read_rows_keys (w : World) (rows : list row) :
  forall pts installs pts' installs',
    function_app.read_rows w rows (pts, installs) = Ok (pts', installs') ->
    forall name,
      In name (dict.keys pts')
      <-> In name (dict.keys pts)
          \/ ((exists r, In r rows /\ r_Package r = Str name)
              /\ function_app.is_ignored_package w name = false).
Proof.
  induction rows as [| r rows IH]; intros pts installs pts' installs'.
  - intros [= <- <-] name. split; [tauto |]. intros [H | [(r & [] & _) _]]. exact H.
  - cbn [function_app.read_rows].
    destruct (function_app.read_row w (pts, installs) r) as [[pts1 installs1] |] eqn:Hrow;
      [| discriminate].
    intros Hrest name. rewrite (IH _ _ _ _ Hrest name).
    destruct (read_row_ok _ _ _ _ _ _ Hrow)
      as [(-> & _ & Hskip) | (n & latest & Hn & Hi & _ & _ & -> & _)].
    + split.
      * intros [H | [(r' & Hr' & Hname) Hign]]; [left; exact H |].
        right. split; [exists r'; split; [right; exact Hr' | exact Hname] | exact Hign].
      * intros [H | [(r' & [<- | Hr'] & Hname) Hign]]; [left; exact H | |].
        -- destruct Hskip as [Hnan | (n & Hn & [Hi | Hh])];
             [rewrite Hname in Hnan; discriminate Hnan | |].
           ++ assert (n = name) by congruence. subst n. congruence.
           ++ assert (n = name) by congruence. subst n. left.
              destruct (in_dec string_dec name (dict.keys pts)) as [H | H]; [exact H |].
              apply dict_get_keys, dict_has_get in H. congruence.
        -- right. split; [exists r'; split; assumption | exact Hign].
    + rewrite keys_app, in_app_iff. split.
      * intros [[H | [<- | []]] | [(r' & Hr' & Hname) Hign]].
        -- left. exact H.
        -- right. split; [exists r; split; [left; reflexivity | exact Hn] | exact Hi].
        -- right. split; [exists r'; split; [right; exact Hr' | exact Hname] | exact Hign].
      * intros [H | [(r' & [<- | Hr'] & Hname) Hign]].
        -- left. left. exact H.
        -- left. right. left. congruence.
        -- right. split; [exists r'; split; assumption | exact Hign].
Qed.

(** A turn of the scoring loop that ends appends one entity, for its
    package. *)
Lemma app_turn_rows (w : World) (st st' : function_app.scoring) (package : string)
    (tr tr' : trace) :
  function_app.score_turn w st package tr = (Ok st', tr') ->
  row_keys (function_app.s_entities st')
  = (row_keys (function_app.s_entities st) ++ [package])%list.
Proof.
  unfold function_app.score_turn. rewrite bind_run. unfold lift at 1, item.
  destruct (dict.get package (function_app.s_packages st)) as [p |]; [| discriminate].
  destruct (Score p) as [s |].
  - rewrite bind_run. unfold lift at 1, function_app.add_entity.
    destruct (helpers.add_entity package _ _) as [ents1 |] eqn:Hadd; [| discriminate].
    intros [= <- <-]. cbn [function_app.s_entities].
    destruct (add_entity_ok _ _ _ _ Hadd) as (p1 & s1 & b1 & _ & _ & _ & ->).
    apply row_keys_snoc.
  - rewrite bind_run.
    destruct (function_app.get_module w package tr) as [[module | e] tr1]; [| discriminate].
    rewrite bind_run. unfold try_run at 1. unfold lift.
    destruct (helpers.verifytypes_report w _ _) as [report |]; [| discriminate].
    simpl.
    destruct (helpers.record_score package report _ _) as [[pts1 ents1] |] eqn:Hrec;
      [| discriminate].
    simpl. intros [= <- <-]. cbn [function_app.s_entities].
    destruct (record_score_ok _ _ _ _ _ _ Hrec) as (p0 & p' & e & _ & _ & -> & He).
    rewrite row_keys_snoc, He. reflexivity.
Qed.

Lemma app_loop_rows (w : World) (names : list string) :
  forall st st' tr tr',
    for_each (function_app.score_turn w) names st tr = (Ok st', tr') ->
    row_keys (function_app.s_entities st')
    = (row_keys (function_app.s_entities st) ++ names)%list.
Proof.
  induction names as [| name names IH]; intros st st' tr tr'.
  - intros [= <- <-]. rewrite app_nil_r. reflexivity.
  - cbn [for_each]. rewrite bind_run.
    destruct (function_app.score_turn w st name tr) as [[st1 | e] tr1] eqn:Hturn;
      [| discriminate].
    intros Hrest. rewrite (IH _ _ _ _ Hrest), (app_turn_rows _ _ _ _ _ _ Hturn), <- app_assoc.
    reflexivity.
Qed.

(** X19: the transaction of a run of [test_function] that completes
    holds exactly one entity for each name of the catalog that is not
    ignored, and no other; no two of its entities have the same row
    key. *)
Theorem test_function_entities (w : World) (tr tr' : trace) :
  function_app.test_function w tr = (Ok tt, tr') ->
  exists commands entities,
    tr' = (tr ++ commands ++ [Submit entities])%list
    /\ only_commands commands
    /\ NoDup (row_keys entities)
    /\ forall name,
        In name (row_keys entities)
        <-> (exists r, In r (catalog w) /\ r_Package r = Str name)
            /\ function_app.is_ignored_package w name = false.
Proof.
  intros Hrun.
  destruct (app_submits_last w _ _ _ Hrun)
    as (commands & Hc & [(_ & entities & E) | ((e & He) & _)]); [| discriminate].
  exists commands, entities. split; [exact E |]. split; [exact Hc |].
  revert Hrun. unfold function_app.test_function. rewrite bind_run. unfold lift at 1.
  destruct (function_app.read_rows w (catalog w) ([], [])) as [[pts installs] |] eqn:Hread;
    [| discriminate].
  destruct (read_rows_ok w _ _ _ _ _ Hread (NoDup_nil _)) as (_ & _ & Hnd & _).
  rewrite bind_run.
  destruct (function_app.install w _ tr) as [[[] | e0] tr1]; [| discriminate].
  rewrite bind_run.
  destruct (for_each (function_app.score_turn w) _ _ _) as [[st | e0] tr2] eqn:Hloop;
    [| discriminate].
  pose proof (app_loop_rows w _ _ _ _ _ Hloop) as Hrows.
  cbn [function_app.s_entities row_keys map app] in Hrows.
  unfold submit_transaction. intros [= Htr]. rewrite E, app_assoc in Htr.
  apply app_inj_tail in Htr. destruct Htr as [_ [= Hsame]].
  rewrite <- Hsame. fold (row_keys (function_app.s_entities st)). rewrite Hrows.
  split; [exact Hnd |].
  intros name. rewrite (read_rows_keys w _ _ _ _ _ Hread name). cbn [dict.keys map].
  split; [intros [[] | H]; exact H | intros H; right; exact H].
Qed.

(** Witness of [test_function_entities]: the released catalog. *)
Lemma test_function_entities_witness :
  exists commands entities,
    snd (function_app.test_function Scenario.updated_world [])
    = ([] ++ commands ++ [Submit entities])%list
    /\ only_commands commands
    /\ NoDup (row_keys entities)
    /\ forall name,
        In name (row_keys entities)
        <-> (exists r, In r (catalog Scenario.updated_world) /\ r_Package r = Str name)
            /\ function_app.is_ignored_package Scenario.updated_world name = false.
Proof.
  exact (test_function_entities Scenario.updated_world [] _ ltac:(vm_compute; reflexivity)).
Defined.

Example test_function_with_update :
  map Scenario.brief (snd (function_app.test_function Scenario.updated_world []))
  = ["install azure-widget==3.2.0"; "show azure-widget"; "--verifytypes azure.widget";
     "submit"].
Proof. vm_compute. reflexivity. Qed.
